(** * The SQLite-backed session, cache and settings store

    A shallow embedding of [backend/database.py] (class [Database]) and of
    the sweeper of [backend/session_manager.py] (class
    [WindowsSessionManager]), with the properties the specification states
    about them.

    Modelling conventions.
    - A table with a [TEXT PRIMARY KEY] is a finite map from the key to the
      remaining columns of the row.  A key or another text is a string of
      characters with codes 0 to 255, each character one code point of the
      Python [str]; the engine holds its UTF-8 encoding.  A [str] with a
      code point above 255 has no counterpart here, and one with a lone
      surrogate cannot be bound to a statement at all.
    - A timestamp is an integer number of microseconds since [datetime.min],
      the first instant of the year 1; the order of the integers is the
      order SQLite sees on the ISO texts that the [sqlite3] module stores
      for [datetime] values.  A [datetime] ends with the year 9999, and the
      sum of a [datetime] and a [timedelta] raises [OverflowError] beyond
      it.  Every reading of a clock that the code makes is an argument of
      the operation that makes it, so nothing is assumed about how the
      readings of one call relate.
    - Of the limits of the engine, the longest LIKE pattern is modelled;
      the 64 bits of an INTEGER column and the longest text of a column
      (10^9 bytes) are not.
    - Every operation runs on one connection (one thread).  The connection
      sees [view]: the rows on disk, or those of its open transaction.
    - A storage call ([_get_connection], [execute], [commit], [stat]) may
      raise [sqlite3.Error]; the [faults] of the world say which of the
      coming calls do.  A statement that raises has no effect; a [commit]
      that raises loses the transaction (the store runs in WAL mode, where
      a failing commit is an I/O failure, which SQLite rolls back).
    - Logging is not modelled. *)

From stdpp Require Import gmap strings list fin_maps sorting.
From Stdlib Require Import ZArith Ascii String DecimalString DecimalZ.

Local Open Scope Z_scope.

(** ** Exceptions and outcomes *)

(** The exceptions the modelled code can meet; each is a subclass of
    Python's [Exception], so [except Exception] catches all of them. *)
Inductive exn : Type :=
| SqliteError
| TypeError
| ValueError
| OverflowError
| UnicodeDecodeError
| OSError.

Inductive outcome (A : Type) : Type :=
| Returned (a : A)
| Raised (e : exn).

Arguments Returned {A} a.
Arguments Raised {A} e.

(** ** Rows and tables *)

(** [sessions(session_id PK, user_id, data NOT NULL, created_at,
    updated_at, expires_at)] *)
Record session_row : Type := SessionRow {
  s_user_id : string;
  s_data : string;
  s_created_at : Z;
  s_updated_at : Z;
  s_expires_at : option Z }.

(** [cache(key PK, value NOT NULL, created_at, expires_at,
    access_count DEFAULT 0, last_accessed)] *)
Record cache_row : Type := CacheRow {
  c_value : string;
  c_created_at : Z;
  c_expires_at : option Z;
  c_access_count : Z;
  c_last_accessed : Z }.

(** [settings(key PK, value NOT NULL, description, updated_at)] *)
Record setting_row : Type := SettingRow {
  g_value : string;
  g_description : option string;
  g_updated_at : Z }.

(** [users(user_id PK, username, email, password_hash, role, permissions,
    created_at, updated_at, last_login, is_active)] *)
Record user_row : Type := UserRow {
  u_username : string;
  u_email : option string;
  u_password_hash : option string;
  u_role : string;
  u_permissions : option string;
  u_created_at : Z;
  u_updated_at : Z;
  u_last_login : option Z;
  u_is_active : bool }.

(** [chats(chat_id PK, user_id, title, messages, model_config, created_at,
    updated_at, is_archived, is_pinned, folder_id)] *)
Record chat_row : Type := ChatRow {
  h_user_id : string;
  h_title : option string;
  h_messages : string;
  h_model_config : option string;
  h_created_at : Z;
  h_updated_at : Z;
  h_is_archived : bool;
  h_is_pinned : bool;
  h_folder_id : option string }.

Record tables : Type := Tables {
  sessions : gmap string session_row;
  cache : gmap string cache_row;
  settings : gmap string setting_row;
  users : gmap string user_row;
  chats : gmap string chat_row }.

Definition with_sessions (f : gmap string session_row → gmap string session_row)
    (t : tables) : tables :=
  Tables (f (sessions t)) (cache t) (settings t) (users t) (chats t).

Definition with_cache (f : gmap string cache_row → gmap string cache_row)
    (t : tables) : tables :=
  Tables (sessions t) (f (cache t)) (settings t) (users t) (chats t).

Definition with_settings (f : gmap string setting_row → gmap string setting_row)
    (t : tables) : tables :=
  Tables (sessions t) (cache t) (f (settings t)) (users t) (chats t).

(** ** The connection and its store *)

Record world : Type := World {
  disk : tables;
  txn : option tables;
  faults : list bool }.

(** What the connection reads: its open transaction, else the disk. *)
Definition view (w : world) : tables :=
  match txn w with
  | Some t => t
  | None => disk w
  end.

(** ** Computations: state and exceptions *)

Definition M (A : Type) : Type := world → outcome A * world.

Definition ret {A} (a : A) : M A := fun w => (Returned a, w).

Definition raise {A} (e : exn) : M A := fun w => (Raised e, w).

Definition bind {A B} (m : M A) (k : A → M B) : M B :=
  fun w =>
    match m w with
    | (Returned a, w') => k a w'
    | (Raised e, w') => (Raised e, w')
    end.

(** [try: m except Exception as e: h e] *)
Definition try_except {A} (m : M A) (h : exn → M A) : M A :=
  fun w =>
    match m w with
    | (Returned a, w') => (Returned a, w')
    | (Raised e, w') => h e w'
    end.

(** A pure Python expression that may raise. *)
Definition lift {A} (o : outcome A) : M A := fun w => (o, w).

Declare Scope py_scope.
Delimit Scope py_scope with py.
Notation "x <- m ;; k" := (bind m (fun x => k))
  (at level 100, m at next level, right associativity) : py_scope.
Notation "m ;;; k" := (bind m (fun _ => k))
  (at level 100, right associativity) : py_scope.
Local Open Scope py_scope.

(** One call that can fail: it raises [e] when the next fault flag says so. *)
Definition fallible (e : exn) : M unit :=
  fun w =>
    match faults w with
    | [] => (Returned tt, w)
    | false :: fs => (Returned tt, World (disk w) (txn w) fs)
    | true :: fs => (Raised e, World (disk w) (txn w) fs)
    end.

(** One call into the storage engine. *)
Definition storage_call : M unit := fallible SqliteError.

(** [self.db_path.stat()] *)
Definition path_stat : M unit := fallible OSError.

(** [conn = self._get_connection(); cursor = conn.cursor()] *)
Definition _get_connection : M unit := storage_call.

(** [cursor.execute("SELECT ...")] followed by the fetch. *)
Definition execute_select {A} (q : tables → A) : M A :=
  storage_call ;;; (fun w => (Returned (q (view w)), w)).

(** [cursor.execute] of an INSERT, UPDATE or DELETE: the module opens a
    transaction if none is open, the statement changes the rows the
    connection sees, and [cursor.rowcount] is the number of rows touched. *)
Definition execute_dml (f : tables → tables) (rowcount : tables → nat) : M nat :=
  storage_call ;;;
  (fun w => (Returned (rowcount (view w)),
             World (disk w) (Some (f (view w))) (faults w))).

(** [conn.commit()] *)
Definition commit : M unit :=
  fun w =>
    match faults w with
    | [] => (Returned tt, World (view w) None [])
    | false :: fs => (Returned tt, World (view w) None fs)
    | true :: fs => (Raised SqliteError, World (disk w) None fs)
    end.

(** ** Python values *)

#[local] Set Warnings "-register-all".

(** The values that cross the store's boundary: what a caller can pass to
    [json.dumps], a tuple among them, and what [json.loads] can return,
    which is never a tuple.  Floats are left out. *)
Inductive pyobj : Type :=
| PyNone
| PyBool (b : bool)
| PyInt (z : Z)
| PyStr (s : string)
| PyList (l : list pyobj)
| PyTuple (l : list pyobj)
| PyDict (d : list (string * pyobj)).

(** ** Dates and durations *)

(** [datetime.max], 9999-12-31 23:59:59.999999: the last of the 3652059
    days that start with [datetime.min]. *)
Definition datetime_max : Z := 3652059 * 86400 * 1000000 - 1.

(** A [timedelta] holds at most 999999999 days, either way. *)
Definition timedelta_ok (seconds : Z) : bool :=
  (-999999999 <=? seconds / 86400) && (seconds / 86400 <=? 999999999).

Definition datetime_ok (t : Z) : bool :=
  (0 <=? t) && (t <=? datetime_max).

(** [timedelta(seconds=expires_in)], in microseconds: [None] is not a
    number of seconds, and too many seconds are no [timedelta]. *)
Definition timedelta (seconds : option Z) : outcome Z :=
  match seconds with
  | Some n => if timedelta_ok n then Returned (n * 1000000) else Raised OverflowError
  | None => Raised TypeError
  end.

(** [now + delta] on a [datetime] and a [timedelta]. *)
Definition datetime_add (now delta : Z) : outcome Z :=
  if datetime_ok (now + delta) then Returned (now + delta) else Raised OverflowError.

(** [datetime.now() + timedelta(seconds=ttl)] is a [datetime]. *)
Definition deadline_ok (now ttl : Z) : bool :=
  timedelta_ok ttl && datetime_ok (now + ttl * 1000000).

(** ** SQL predicates *)

(** [expires_at < ?]: a comparison with NULL is not true. *)
Definition sql_lt (expires_at : option Z) (now : Z) : bool :=
  match expires_at with
  | Some e => e <? now
  | None => false
  end.

(** [expires_at IS NULL OR expires_at > ?] *)
Definition sql_live (expires_at : option Z) (now : Z) : bool :=
  match expires_at with
  | Some e => now <? e
  | None => true
  end.

(** SQLite folds the case of the ASCII letters when LIKE compares. *)
Definition sqlite3Tolower (c : ascii) : N :=
  let n := N_of_ascii c in
  if ((65 <=? n) && (n <=? 90))%N then (n + 32)%N else n.

Definition like_char (c d : ascii) : bool :=
  (sqlite3Tolower c =? sqlite3Tolower d)%N.

(** A text as the C code of the engine reads it: up to its first NUL. *)
Fixpoint c_text (s : string) : string :=
  match s with
  | EmptyString => EmptyString
  | String c r => if (N_of_ascii c =? 0)%N then EmptyString else String c (c_text r)
  end.

(** The text holds no NUL. *)
Fixpoint nul_free (s : string) : bool :=
  match s with
  | EmptyString => true
  | String c r => negb (N_of_ascii c =? 0)%N && nul_free r
  end.

(** The comparison of LIKE on two texts without NUL, with no ESCAPE
    clause: [%] stands for any run of characters, [_] for any one
    character, every other character for itself up to ASCII case. *)
Fixpoint like_text (pattern text : string) : bool :=
  match pattern with
  | EmptyString =>
      match text with
      | EmptyString => true
      | String _ _ => false
      end
  | String c p =>
      if Ascii.eqb c "%" then
        (fix any_run (s : string) : bool :=
           like_text p s ||
           match s with
           | EmptyString => false
           | String _ s' => any_run s'
           end) text
      else if Ascii.eqb c "_" then
        match text with
        | EmptyString => false
        | String _ s' => like_text p s'
        end
      else
        match text with
        | EmptyString => false
        | String d s' => like_char c d && like_text p s'
        end
  end.

(** [text LIKE pattern]: the engine reads the pattern and the text as C
    strings, so what follows a NUL in either is not compared. *)
Definition like (pattern text : string) : bool :=
  like_text (c_text pattern) (c_text text).

(** The bytes of the UTF-8 encoding of a text. *)
Fixpoint utf8_length (s : string) : N :=
  match s with
  | EmptyString => 0%N
  | String c r => ((if (N_of_ascii c <? 128)%N then 1 else 2) + utf8_length r)%N
  end.

(** SQLITE_MAX_LIKE_PATTERN_LENGTH: a LIKE whose pattern has more bytes
    fails with [LIKE or GLOB pattern too complex]. *)
Definition like_pattern_fits (pattern : string) : bool :=
  (utf8_length pattern <=? 50000)%N.

(** The rows of a table that a WHERE clause selects, and the other ones. *)
Definition where_ {R} (p : string → R → bool) (m : gmap string R) : gmap string R :=
  filter (λ kr, p kr.1 kr.2 = true) m.

Definition where_not {R} (p : string → R → bool) (m : gmap string R) : gmap string R :=
  filter (λ kr, p kr.1 kr.2 = false) m.

(** [DELETE FROM t WHERE p] and its [rowcount]. *)
Definition delete_where {R} (p : string → R → bool) (m : gmap string R) : gmap string R :=
  where_not p m.

Definition count_where {R} (p : string → R → bool) (m : gmap string R) : nat :=
  size (where_ p m).

(** [DELETE FROM t WHERE key = ?] *)
Definition rowcount_key {R} (k : string) (m : gmap string R) : nat :=
  match m !! k with
  | Some _ => 1%nat
  | None => 0%nat
  end.

(** ** [class Database] *)

Section Database.

(** [json.dumps] raises on a value it cannot serialise and [json.loads] on
    a text it cannot parse; both belong to Python's library. *)
Variable json_dumps : pyobj → outcome string.
Variable json_loads : string → outcome pyobj.

(** [DELETE FROM sessions WHERE expires_at < ?] then the same on [cache],
    then one commit.  Nothing is caught here. *)
Definition _cleanup_expired (now1 now2 : Z) : M unit :=
  _get_connection ;;;
  sessions_deleted <-
    execute_dml
      (with_sessions (delete_where (λ _ r, sql_lt (s_expires_at r) now1)))
      (λ t, count_where (λ _ r, sql_lt (s_expires_at r) now1) (sessions t)) ;;
  cache_deleted <-
    execute_dml
      (with_cache (delete_where (λ _ r, sql_lt (c_expires_at r) now2)))
      (λ t, count_where (λ _ r, sql_lt (c_expires_at r) now2) (cache t)) ;;
  commit ;;;
  ret tt.

(** *** Sessions *)

(** [INSERT OR REPLACE INTO sessions (session_id, user_id, data, updated_at,
    expires_at)]: the row is replaced whole, and [created_at], which the
    statement does not list, takes its default, CURRENT_TIMESTAMP ([ts]). *)
Definition save_session_body (now1 now2 ts : Z) (session_id user_id : string)
    (data : pyobj) (expires_in : option Z) : M bool :=
  _get_connection ;;;
  delta <- lift (timedelta expires_in) ;;
  expires_at <- lift (datetime_add now1 delta) ;;
  data_json <- lift (json_dumps data) ;;
  execute_dml
    (with_sessions
       (insert session_id (SessionRow user_id data_json ts now2 (Some expires_at))))
    (λ _, 1%nat) ;;;
  commit ;;;
  ret true.

Definition save_session (now1 now2 ts : Z) (session_id user_id : string)
    (data : pyobj) (expires_in : option Z) : M bool :=
  try_except (save_session_body now1 now2 ts session_id user_id data expires_in)
    (λ _, ret false).

(** [SELECT data, expires_at FROM sessions WHERE session_id = ? AND
    (expires_at IS NULL OR expires_at > ?)] and [fetchone]. *)
Definition select_session (session_id : string) (now : Z) (t : tables)
    : option (string * option Z) :=
  match sessions t !! session_id with
  | Some r =>
      if sql_live (s_expires_at r) now
      then Some (s_data r, s_expires_at r)
      else None
  | None => None
  end.

Definition touch_session (now : Z) (r : session_row) : session_row :=
  SessionRow (s_user_id r) (s_data r) (s_created_at r) now (s_expires_at r).

Definition get_session_body (now1 now2 : Z) (session_id : string) : M pyobj :=
  _get_connection ;;;
  result <- execute_select (select_session session_id now1) ;;
  match result with
  | Some (data_json, expires_at) =>
      execute_dml
        (with_sessions (alter (touch_session now2) session_id))
        (λ t, rowcount_key session_id (sessions t)) ;;;
      commit ;;;
      lift (json_loads data_json)
  | None => ret PyNone
  end.

Definition get_session (now1 now2 : Z) (session_id : string) : M pyobj :=
  try_except (get_session_body now1 now2 session_id) (λ _, ret PyNone).

Definition delete_session_body (session_id : string) : M bool :=
  _get_connection ;;;
  rowcount <-
    execute_dml (with_sessions (delete session_id))
      (λ t, rowcount_key session_id (sessions t)) ;;
  commit ;;;
  ret (0 <? rowcount)%nat.

Definition delete_session (session_id : string) : M bool :=
  try_except (delete_session_body session_id) (λ _, ret false).

(** One entry of the list [get_user_sessions] returns. *)
Record session_info : Type := SessionInfo {
  i_session_id : string;
  i_data : pyobj;
  i_created_at : Z;
  i_updated_at : Z;
  i_expires_at : option Z }.

(** [ORDER BY updated_at DESC]; the order of rows with equal [updated_at]
    is the engine's choice, here that of the insertion sort. *)
Fixpoint insert_desc (x : string * session_row) (l : list (string * session_row))
    : list (string * session_row) :=
  match l with
  | [] => [x]
  | y :: l' =>
      if s_updated_at y.2 <=? s_updated_at x.2
      then x :: l
      else y :: insert_desc x l'
  end.

Definition order_by_updated_at_desc (l : list (string * session_row))
    : list (string * session_row) :=
  foldr insert_desc [] l.

(** [SELECT session_id, data, created_at, updated_at, expires_at FROM
    sessions WHERE user_id = ? AND (expires_at IS NULL OR expires_at > ?)
    ORDER BY updated_at DESC] and [fetchall]. *)
Definition select_user_sessions (user_id : string) (now : Z) (t : tables)
    : list (string * session_row) :=
  order_by_updated_at_desc
    (map_to_list
       (where_ (λ _ r, String.eqb (s_user_id r) user_id
                       && sql_live (s_expires_at r) now)
          (sessions t))).

(** The [for] loop over the fetched rows. *)
Fixpoint load_sessions (rows : list (string * session_row)) : outcome (list session_info) :=
  match rows with
  | [] => Returned []
  | (session_id, r) :: rows' =>
      match json_loads (s_data r) with
      | Raised e => Raised e
      | Returned d =>
          match load_sessions rows' with
          | Raised e => Raised e
          | Returned l =>
              Returned (SessionInfo session_id d (s_created_at r)
                          (s_updated_at r) (s_expires_at r) :: l)
          end
      end
  end.

Definition get_user_sessions_body (now : Z) (user_id : string) : M (list session_info) :=
  _get_connection ;;;
  rows <- execute_select (select_user_sessions user_id now) ;;
  lift (load_sessions rows).

Definition get_user_sessions (now : Z) (user_id : string) : M (list session_info) :=
  try_except (get_user_sessions_body now user_id) (λ _, ret []).


(** *** Cache *)

(** [INSERT OR REPLACE INTO cache (key, value, expires_at, last_accessed)]:
    [created_at] and [access_count] take their defaults, CURRENT_TIMESTAMP
    ([ts]) and 0. *)
Definition set_cache_body (now1 now2 ts : Z) (key : string) (value : pyobj)
    (expires_in : option Z) : M bool :=
  _get_connection ;;;
  delta <- lift (timedelta expires_in) ;;
  expires_at <- lift (datetime_add now1 delta) ;;
  value_json <- lift (json_dumps value) ;;
  execute_dml
    (with_cache (insert key (CacheRow value_json ts (Some expires_at) 0 now2)))
    (λ _, 1%nat) ;;;
  commit ;;;
  ret true.

Definition set_cache (now1 now2 ts : Z) (key : string) (value : pyobj)
    (expires_in : option Z) : M bool :=
  try_except (set_cache_body now1 now2 ts key value expires_in) (λ _, ret false).

(** [SELECT value, expires_at FROM cache WHERE key = ? AND
    (expires_at IS NULL OR expires_at > ?)] and [fetchone]. *)
Definition select_cache (key : string) (now : Z) (t : tables)
    : option (string * option Z) :=
  match cache t !! key with
  | Some r =>
      if sql_live (c_expires_at r) now
      then Some (c_value r, c_expires_at r)
      else None
  | None => None
  end.

(** [SET access_count = access_count + 1, last_accessed = ?] *)
Definition touch_cache (now : Z) (r : cache_row) : cache_row :=
  CacheRow (c_value r) (c_created_at r) (c_expires_at r) (c_access_count r + 1) now.

Definition get_cache_body (now1 now2 : Z) (key : string) : M pyobj :=
  _get_connection ;;;
  result <- execute_select (select_cache key now1) ;;
  match result with
  | Some (value_json, expires_at) =>
      execute_dml
        (with_cache (alter (touch_cache now2) key))
        (λ t, rowcount_key key (cache t)) ;;;
      commit ;;;
      lift (json_loads value_json)
  | None => ret PyNone
  end.

Definition get_cache (now1 now2 : Z) (key : string) : M pyobj :=
  try_except (get_cache_body now1 now2 key) (λ _, ret PyNone).

Definition delete_cache_body (key : string) : M bool :=
  _get_connection ;;;
  rowcount <-
    execute_dml (with_cache (delete key)) (λ t, rowcount_key key (cache t)) ;;
  commit ;;;
  ret (0 <? rowcount)%nat.

Definition delete_cache (key : string) : M bool :=
  try_except (delete_cache_body key) (λ _, ret false).

(** [key LIKE ?] with the parameter [f"%{pattern}%"]. *)
Definition like_param (pattern : string) : string :=
  String "%" (pattern ++ "%").

(** [cursor.execute("DELETE FROM cache WHERE key LIKE ?", (pat,))]: the
    module opens a transaction if none is open; the engine evaluates the
    LIKE on each row, and the first evaluation fails, before any row is
    deleted, if the pattern is too long. *)
Definition execute_delete_like (pat : string) : M nat :=
  storage_call ;;;
  (fun w =>
     if like_pattern_fits pat || bool_decide (cache (view w) = ∅)
     then (Returned (count_where (λ k _, like pat k) (cache (view w))),
           World (disk w)
             (Some (with_cache (delete_where (λ k _, like pat k)) (view w)))
             (faults w))
     else (Raised SqliteError, World (disk w) (Some (view w)) (faults w))).

(** [if pattern:] is false for [None] and for the empty string. *)
Definition clear_cache_body (pattern : option string) : M nat :=
  _get_connection ;;;
  deleted_count <-
    match pattern with
    | Some (String c p) => execute_delete_like (like_param (String c p))
    | Some EmptyString | None =>
        execute_dml (with_cache (λ _, ∅)) (λ t, size (cache t))
    end ;;
  commit ;;;
  ret deleted_count.

Definition clear_cache (pattern : option string) : M nat :=
  try_except (clear_cache_body pattern) (λ _, ret 0%nat).

(** *** Settings *)

(** [INSERT OR REPLACE INTO settings (key, value, description, updated_at)] *)
Definition set_setting_body (now : Z) (key : string) (value : pyobj)
    (description : option string) : M bool :=
  _get_connection ;;;
  value_json <- lift (json_dumps value) ;;
  execute_dml
    (with_settings (insert key (SettingRow value_json description now)))
    (λ _, 1%nat) ;;;
  commit ;;;
  ret true.

Definition set_setting (now : Z) (key : string) (value : pyobj)
    (description : option string) : M bool :=
  try_except (set_setting_body now key value description) (λ _, ret false).

Definition get_setting_body (key : string) (default : pyobj) : M pyobj :=
  _get_connection ;;;
  result <- execute_select (λ t, g_value <$> settings t !! key) ;;
  match result with
  | Some value_json => lift (json_loads value_json)
  | None => ret default
  end.

Definition get_setting (key : string) (default : pyobj) : M pyobj :=
  try_except (get_setting_body key default) (λ _, ret default).

Definition set_config (now : Z) (key : string) (value : pyobj) : M bool :=
  set_setting now key value None.

Definition get_config (key : string) (default : pyobj) : M pyobj :=
  get_setting key default.

Definition clear_config_body : M bool :=
  _get_connection ;;;
  execute_dml (with_settings (λ _, ∅)) (λ t, size (settings t)) ;;;
  commit ;;;
  ret true.

Definition clear_config : M bool :=
  try_except clear_config_body (λ _, ret false).

(** *** Statistics *)

(** The four [SELECT COUNT( * )] of [get_stats], then the [stat] of the
    file; [db_size_mb], a float, is left out of the result. *)
Definition get_stats_body : M (list (string * nat)) :=
  _get_connection ;;;
  sessions_count <- execute_select (λ t, size (sessions t)) ;;
  cache_count <- execute_select (λ t, size (cache t)) ;;
  users_count <- execute_select (λ t, size (users t)) ;;
  chats_count <- execute_select (λ t, size (chats t)) ;;
  path_stat ;;;
  ret [("sessions_count", sessions_count); ("cache_count", cache_count);
       ("users_count", users_count); ("chats_count", chats_count)].

Definition get_stats : M (list (string * nat)) :=
  try_except get_stats_body (λ _, ret []).

(** ** The sweeper of [class WindowsSessionManager] *)

(** [_cleanup_expired_sessions]: the store's sweep, with everything it
    raises caught. *)
Definition _cleanup_expired_sessions (now1 now2 : Z) : M unit :=
  try_except (_cleanup_expired now1 now2) (λ _, ret tt).

(** [_cleanup_worker]: one sweep each time the wait of [cleanup_interval]
    ends without the stop event; [ticks] holds the clock readings of the
    sweeps made before the stop. *)
Fixpoint _cleanup_worker (ticks : list (Z * Z)) : M unit :=
  match ticks with
  | [] => ret tt
  | (now1, now2) :: ticks' =>
      try_except (_cleanup_expired_sessions now1 now2) (λ _, ret tt) ;;;
      _cleanup_worker ticks'
  end.

End Database.

(** ** An instance of [json.dumps] and [json.loads]

    A fragment of Python's [json] module on [pyobj], for texts of ASCII
    characters and integers of a few digits: the default separators of
    [dumps], the escapes of the control characters, a tuple written as an
    array, and a recursive-descent [loads].  The theorems below hold for
    every pair of functions; this pair runs them on the concrete values of
    the examples. *)

Module Json.

Local Open Scope string_scope.

(** The double quote. *)
Definition dquote : ascii := ascii_of_N 34.

Definition hex_digit (n : N) : ascii :=
  ascii_of_N (if (n <? 10)%N then 48 + n else 87 + n)%N.

Definition escape_char (c : ascii) : string :=
  let n := N_of_ascii c in
  if Ascii.eqb c dquote then String "\" (String dquote "")
  else if Ascii.eqb c "\" then "\\"
  else if (n =? 10)%N then "\n"
  else if (n =? 13)%N then "\r"
  else if (n =? 9)%N then "\t"
  else if (n =? 8)%N then "\b"
  else if (n =? 12)%N then "\f"
  else if (n <? 32)%N then
    "\u00" ++ String (hex_digit (n / 16)) (String (hex_digit (n mod 16)) "")
  else String c "".

Fixpoint escape (s : string) : string :=
  match s with
  | EmptyString => ""
  | String c r => escape_char c ++ escape r
  end.

Definition quote (s : string) : string :=
  String dquote (escape s ++ String dquote "").

Fixpoint join (l : list string) : string :=
  match l with
  | [] => ""
  | [x] => x
  | x :: l' => x ++ ", " ++ join l'
  end.

Fixpoint dumps_value (v : pyobj) : string :=
  match v with
  | PyNone => "null"
  | PyBool true => "true"
  | PyBool false => "false"
  | PyInt z => NilZero.string_of_int (Z.to_int z)
  | PyStr s => quote s
  | PyList l => "[" ++ join (map dumps_value l) ++ "]"
  | PyTuple l => "[" ++ join (map dumps_value l) ++ "]"
  | PyDict d =>
      "{" ++ join (map (λ kv, quote kv.1 ++ ": " ++ dumps_value kv.2) d) ++ "}"
  end.

Definition dumps (v : pyobj) : outcome string := Returned (dumps_value v).

Definition is_ws (c : ascii) : bool :=
  let n := N_of_ascii c in
  ((n =? 32) || (n =? 9) || (n =? 10) || (n =? 13))%N.

Fixpoint skip_ws (s : string) : string :=
  match s with
  | String c r => if is_ws c then skip_ws r else s
  | EmptyString => s
  end.

Definition hex_value (c : ascii) : option N :=
  let n := N_of_ascii c in
  if ((48 <=? n) && (n <=? 57))%N then Some (n - 48)%N
  else if ((97 <=? n) && (n <=? 102))%N then Some (n - 87)%N
  else if ((65 <=? n) && (n <=? 70))%N then Some (n - 55)%N
  else None.

(** The characters of a string literal after its opening quote, and the
    text after its closing quote. *)
Fixpoint parse_chars (s : string) : option (string * string) :=
  match s with
  | EmptyString => None
  | String c r =>
      if Ascii.eqb c dquote then Some ("", r)
      else if Ascii.eqb c "\" then
        match r with
        | String "u" (String a (String b (String x (String y r')))) =>
            match hex_value a, hex_value b, hex_value x, hex_value y with
            | Some 0%N, Some 0%N, Some h, Some l =>
                if (h <? 8)%N
                then prod_map (String (ascii_of_N (16 * h + l))) id <$> parse_chars r'
                else None
            | _, _, _, _ => None
            end
        | String e r' =>
            let plain (d : ascii) := prod_map (String d) id <$> parse_chars r' in
            if Ascii.eqb e "n" then plain (ascii_of_N 10)
            else if Ascii.eqb e "r" then plain (ascii_of_N 13)
            else if Ascii.eqb e "t" then plain (ascii_of_N 9)
            else if Ascii.eqb e "b" then plain (ascii_of_N 8)
            else if Ascii.eqb e "f" then plain (ascii_of_N 12)
            else if Ascii.eqb e dquote || Ascii.eqb e "\" || Ascii.eqb e "/" then plain e
            else None
        | EmptyString => None
        end
      else if (N_of_ascii c <? 32)%N then None
      else prod_map (String c) id <$> parse_chars r
  end.

Definition is_number_char (c : ascii) : bool :=
  let n := N_of_ascii c in
  ((48 <=? n) && (n <=? 57))%N || Ascii.eqb c "-".

Fixpoint span_number (s : string) : string * string :=
  match s with
  | String c r =>
      if is_number_char c
      then prod_map (String c) id (span_number r)
      else ("", s)
  | EmptyString => ("", "")
  end.

(** [d[k] = v] on a dict: a key keeps the place of its first insertion. *)
Fixpoint dict_setitem (k : string) (v : pyobj) (d : list (string * pyobj))
    : list (string * pyobj) :=
  match d with
  | [] => [(k, v)]
  | (k', v') :: d' =>
      if String.eqb k' k then (k, v) :: d' else (k', v') :: dict_setitem k v d'
  end.

Fixpoint parse_value (fuel : nat) (s : string) : option (pyobj * string) :=
  match fuel with
  | O => None
  | S fuel' =>
      match skip_ws s with
      | String "n" (String "u" (String "l" (String "l" r))) => Some (PyNone, r)
      | String "t" (String "r" (String "u" (String "e" r))) => Some (PyBool true, r)
      | String "f" (String "a" (String "l" (String "s" (String "e" r)))) =>
          Some (PyBool false, r)
      | String "[" r =>
          match skip_ws r with
          | String "]" r' => Some (PyList [], r')
          | _ => prod_map PyList id <$> parse_items fuel' r
          end
      | String "{" r =>
          match skip_ws r with
          | String "}" r' => Some (PyDict [], r')
          | _ =>
              prod_map (λ kvs, PyDict (foldl (λ d kv, dict_setitem kv.1 kv.2 d) [] kvs)) id
                <$> parse_members fuel' r
          end
      | String c r =>
          if Ascii.eqb c dquote then prod_map PyStr id <$> parse_chars r
          else
            let (digits, r') := span_number (String c r) in
            match NilZero.int_of_string digits with
            | Some i => Some (PyInt (Z.of_int i), r')
            | None => None
            end
      | EmptyString => None
      end
  end
with parse_items (fuel : nat) (s : string) : option (list pyobj * string) :=
  match fuel with
  | O => None
  | S fuel' =>
      match parse_value fuel' s with
      | Some (v, r) =>
          match skip_ws r with
          | String "," r' => prod_map (cons v) id <$> parse_items fuel' r'
          | String "]" r' => Some ([v], r')
          | _ => None
          end
      | None => None
      end
  end
with parse_members (fuel : nat) (s : string) : option (list (string * pyobj) * string) :=
  match fuel with
  | O => None
  | S fuel' =>
      match skip_ws s with
      | String c r =>
          match (if Ascii.eqb c dquote then parse_chars r else None) with
          | Some (k, r1) =>
              match skip_ws r1 with
              | String ":" r2 =>
                  match parse_value fuel' r2 with
                  | Some (v, r3) =>
                      match skip_ws r3 with
                      | String "," r4 =>
                          prod_map (cons (k, v)) id <$> parse_members fuel' r4
                      | String "}" r4 => Some ([(k, v)], r4)
                      | _ => None
                      end
                  | None => None
                  end
              | _ => None
              end
          | None => None
          end
      | EmptyString => None
      end
  end.

Definition loads (s : string) : outcome pyobj :=
  match parse_value (2 * String.length s + 2) s with
  | Some (v, r) =>
      match skip_ws r with
      | EmptyString => Returned v
      | String _ _ => Raised ValueError
      end
  | None => Raised ValueError
  end.

End Json.

(** ** Callers used in the statements *)

Section Callers.

Variable json_loads : string → outcome pyobj.

(** One [get_cache] of [key] for each pair of clock readings, in turn. *)
Fixpoint get_cache_each (readings : list (Z * Z)) (key : string) : M (list pyobj) :=
  match readings with
  | [] => ret []
  | (now1, now2) :: readings' =>
      v <- get_cache json_loads now1 now2 key ;;
      vs <- get_cache_each readings' key ;;
      ret (v :: vs)
  end.

End Callers.

(** The reading of the last update of a run of reads, [d] if there is none. *)
Definition last_reading (readings : list (Z * Z)) (d : Z) : Z :=
  foldl (λ _ t, t.2) d readings.

Definition empty_tables : tables := Tables ∅ ∅ ∅ ∅ ∅.

(** A store with no rows, no open transaction and no fault to come. *)
Definition fresh : world := World empty_tables None [].

(** ** Notions used in the statements *)

(** What a caller sees of a result: a value that parsed, or the value the
    handler returns. *)
Definition or_else {A} (o : outcome A) (a : A) : A :=
  match o with
  | Returned v => v
  | Raised _ => a
  end.

(** A row whose deadline is set and not after [now]. *)
Definition expired (expires_at : option Z) (now : Z) : Prop :=
  ∃ e, expires_at = Some e ∧ e ≤ now.

(** ** What the error policy asks of an operation *)

(** [op] returns to its caller from every state. *)
Definition never_raises {A} (op : M A) : Prop :=
  ∀ w, ∃ a w', op w = (Returned a, w').

(** [op] is [body] with its failures turned into the value [failure]: it
    never raises, returns what [body] returns, and returns [failure] when
    [body] raises. *)
Definition converts {A} (body op : M A) (failure : A) : Prop :=
  never_raises op
  ∧ (∀ w a w', body w = (Returned a, w') → op w = (Returned a, w'))
  ∧ (∀ w e w', body w = (Raised e, w') → op w = (Returned failure, w')).

(** When [body] raises, the rows on disk are those from before the call. *)
Definition failure_keeps_disk {A} (body : M A) : Prop :=
  ∀ w e w', body w = (Raised e, w') → disk w' = disk w.

(** When [body] raises, the rows on disk are those from before the call,
    and so are the rows the connection reads, if it had no transaction
    open. *)
Definition failure_keeps_store {A} (body : M A) : Prop :=
  ∀ w e w', body w = (Raised e, w') →
    disk w' = disk w ∧ (txn w = None → view w' = view w).

(** ** Concrete stores *)

(** Python's [pattern in key]. *)
Fixpoint contains (pattern key : string) : bool :=
  String.prefix pattern key ||
  match key with
  | EmptyString => false
  | String _ key' => contains pattern key'
  end.

(** The data of the sessions in [test_database.py]. *)
Definition demo_data : pyobj := PyDict [("test", PyStr "data")].

(** Data with a tuple, and the same data with a list in its place. *)
Definition tuple_data : pyobj :=
  PyDict [("roles", PyTuple [PyStr "admin"; PyStr "user"])].

Definition list_data : pyobj :=
  PyDict [("roles", PyList [PyStr "admin"; PyStr "user"])].

(** A session and a cache entry whose deadline is the instant 100. *)
Definition stale_session : session_row := SessionRow "u1" "{}" 0 0 (Some 100).

Definition stale_cache : cache_row := CacheRow "1" 0 (Some 100) 0 0.

Definition stale_store : world :=
  World (Tables {["s1" := stale_session]} {["k1" := stale_cache]} ∅ ∅ ∅) None [].

(** The store [w] without the session [sid]. *)
Definition forget_session (sid : string) (w : world) : world :=
  World (with_sessions (delete sid) (disk w))
    (with_sessions (delete sid) <$> txn w) (faults w).

(** A cache whose keys share a prefix. *)
Definition keyed_store : world :=
  World (Tables ∅
           (list_to_map
              [("user_1", CacheRow "1" 0 (Some 100) 0 0);
               ("userA1", CacheRow "2" 0 (Some 100) 0 0);
               ("USER_2", CacheRow "3" 0 (Some 100) 0 0);
               ("other", CacheRow "4" 0 (Some 100) 0 0)])
           ∅ ∅ ∅) None [].

(** ** Notions used in the further statements *)

(** [stats.get(name, 0)] on the dict [get_stats] returns. *)
Definition stats_get (name : string) (stats : list (string * nat)) : nat :=
  match list_find (λ kv, kv.1 = name) stats with
  | Some (_, (_, n)) => n
  | None => 0%nat
  end.

(** The pattern starts the text, up to the case of the ASCII letters. *)
Fixpoint prefix_nocase (pattern text : string) : bool :=
  match pattern, text with
  | EmptyString, _ => true
  | String _ _, EmptyString => false
  | String c p, String d s => like_char c d && prefix_nocase p s
  end.

(** The pattern occurs in the text, up to the case of the ASCII letters. *)
Fixpoint contains_nocase (pattern text : string) : bool :=
  prefix_nocase pattern text ||
  match text with
  | EmptyString => false
  | String _ s => contains_nocase pattern s
  end.

(** No character of the pattern is a wildcard of LIKE. *)
Fixpoint wildcard_free (pattern : string) : bool :=
  match pattern with
  | EmptyString => true
  | String c p => negb (Ascii.eqb c "%") && negb (Ascii.eqb c "_") && wildcard_free p
  end.

(** No character of the pattern is an ASCII letter. *)
Fixpoint letter_free (pattern : string) : bool :=
  match pattern with
  | EmptyString => true
  | String c p =>
      let n := N_of_ascii c in
      negb (((65 <=? n) && (n <=? 90)) || ((97 <=? n) && (n <=? 122)))%N
      && letter_free p
  end.

(** Most recently updated first. *)
Definition newer_first (a b : session_info) : Prop := i_updated_at b ≤ i_updated_at a.

(** The same order on the rows [get_user_sessions] fetches. *)
Definition newer_row (a b : string * session_row) : Prop :=
  s_updated_at b.2 ≤ s_updated_at a.2.

(** The entry [get_user_sessions] makes of the row [r] of the session
    [sid]. *)
Definition entry_of (json_loads : string → outcome pyobj) (sid : string)
    (r : session_row) (i : session_info) : Prop :=
  i_session_id i = sid
  ∧ json_loads (s_data r) = Returned (i_data i)
  ∧ i_created_at i = s_created_at r
  ∧ i_updated_at i = s_updated_at r
  ∧ i_expires_at i = s_expires_at r.

(** ** Users *)

Definition with_users (f : gmap string user_row → gmap string user_row)
    (t : tables) : tables :=
  Tables (sessions t) (cache t) (settings t) (f (users t)) (chats t).

(** Some row of the table satisfies [p]. *)
Definition some_row {R} (p : string → R → bool) (m : gmap string R) : bool :=
  (0 <? count_where p m)%nat.

(** The new user breaks a constraint of the table: [user_id PRIMARY KEY],
    [username UNIQUE], [email UNIQUE] (two null emails do not clash). *)
Definition users_conflict (user_id username : string) (email : option string)
    (t : tables) : bool :=
  bool_decide (is_Some (users t !! user_id))
  || some_row (λ _ r, String.eqb (u_username r) username) (users t)
  || match email with
     | Some e => some_row (λ _ r, bool_decide (u_email r = Some e)) (users t)
     | None => false
     end.

(** [cursor.execute] of a plain INSERT: the module opens a transaction if
    none is open; the statement raises [sqlite3.IntegrityError], which is
    an [sqlite3.Error], and inserts nothing when the row breaks a
    constraint. *)
Definition execute_insert (violates : tables → bool) (f : tables → tables) : M nat :=
  storage_call ;;;
  (fun w =>
     if violates (view w)
     then (Raised SqliteError, World (disk w) (Some (view w)) (faults w))
     else (Returned 1%nat, World (disk w) (Some (f (view w))) (faults w))).

(** The dict [get_user] returns. *)
Record user_info : Type := UserInfo {
  n_user_id : string;
  n_username : string;
  n_email : option string;
  n_role : string;
  n_permissions : pyobj;
  n_created_at : Z;
  n_updated_at : Z;
  n_last_login : option Z;
  n_is_active : bool }.

Section Users.

Variable json_loads : string → outcome pyobj.

(** [INSERT INTO users (user_id, username, email, password_hash, role)]:
    [permissions] and [last_login] are null, [created_at] and [updated_at]
    the CURRENT_TIMESTAMP ([ts]), [is_active] 1. *)
Definition create_user_body (ts : Z) (user_id username : string)
    (email password_hash : option string) (role : string) : M bool :=
  _get_connection ;;;
  execute_insert (users_conflict user_id username email)
    (with_users
       (insert user_id (UserRow username email password_hash role None ts ts None true))) ;;;
  commit ;;;
  ret true.

(** Both handlers, the one of [sqlite3.IntegrityError] and the one of
    [Exception], return [False]. *)
Definition create_user (ts : Z) (user_id username : string)
    (email password_hash : option string) (role : string) : M bool :=
  try_except (create_user_body ts user_id username email password_hash role)
    (λ _, ret false).

(** [json.loads(result[4]) if result[4] else {}]: a null or empty
    [permissions] is the empty dict. *)
Definition load_permissions (permissions : option string) : outcome pyobj :=
  match permissions with
  | Some (String c p) => json_loads (String c p)
  | Some EmptyString | None => Returned (PyDict [])
  end.

Definition get_user_body (user_id : string) : M (option user_info) :=
  _get_connection ;;;
  result <- execute_select (λ t, users t !! user_id) ;;
  match result with
  | Some r =>
      permissions <- lift (load_permissions (u_permissions r)) ;;
      ret (Some (UserInfo user_id (u_username r) (u_email r) (u_role r) permissions
                   (u_created_at r) (u_updated_at r) (u_last_login r) (u_is_active r)))
  | None => ret None
  end.

Definition get_user (user_id : string) : M (option user_info) :=
  try_except (get_user_body user_id) (λ _, ret None).

(** [UPDATE users SET last_login = ?, updated_at = ? WHERE user_id = ?] *)
Definition touch_login (now1 now2 : Z) (r : user_row) : user_row :=
  UserRow (u_username r) (u_email r) (u_password_hash r) (u_role r)
    (u_permissions r) (u_created_at r) now2 (Some now1) (u_is_active r).

Definition update_user_login_body (now1 now2 : Z) (user_id : string) : M bool :=
  _get_connection ;;;
  execute_dml (with_users (alter (touch_login now1 now2) user_id))
    (λ t, rowcount_key user_id (users t)) ;;;
  commit ;;;
  ret true.

Definition update_user_login (now1 now2 : Z) (user_id : string) : M bool :=
  try_except (update_user_login_body now1 now2 user_id) (λ _, ret false).

End Users.

(** No two users share a username, nor an email that is not null. *)
Definition users_unique (m : gmap string user_row) : Prop :=
  ∀ k1 k2 r1 r2,
    m !! k1 = Some r1 →
    m !! k2 = Some r2 →
    u_username r1 = u_username r2 ∨ (∃ e, u_email r1 = Some e ∧ u_email r2 = Some e) →
    k1 = k2.

(** ** [class WindowsSessionManager] *)

(** The truth value of a Python value, as [if v:] and [v or w] take it. *)
Definition py_truthy (v : pyobj) : bool :=
  match v with
  | PyNone => false
  | PyBool b => b
  | PyInt z => negb (z =? 0)
  | PyStr EmptyString => false
  | PyStr (String _ _) => true
  | PyList [] => false
  | PyList (_ :: _) => true
  | PyTuple [] => false
  | PyTuple (_ :: _) => true
  | PyDict [] => false
  | PyDict (_ :: _) => true
  end.

(** [v is not None] *)
Definition is_not_None (v : pyobj) : bool :=
  match v with
  | PyNone => false
  | _ => true
  end.

(** The fields of a session manager, and whether its sweeper thread is
    alive. *)
Record WindowsSessionManager : Type := Manager {
  session_timeout : Z;
  cleanup_interval : Z;
  _cleanup_thread_alive : bool }.


(** The dict [cleanup_expired_data] of the integration manager returns. *)
Record cleanup_stats : Type := CleanupStats {
  sessions_cleaned : nat;
  cache_entries_cleaned : nat }.

Section SessionManager.

Variable json_dumps : pyobj → outcome string.
Variable json_loads : string → outcome pyobj.

(** [datetime.isoformat] *)
Variable isoformat : Z → string.

Variable self : WindowsSessionManager.

(** The dict [create_session] stores; [user_data or {}] is the empty dict
    when [user_data] is [None] or any other false value. *)
Definition new_session_data (t1 t2 : Z) (user_id : string) (user_data : pyobj) : pyobj :=
  PyDict [("user_id", PyStr user_id);
          ("created_at", PyStr (isoformat t1));
          ("last_activity", PyStr (isoformat t2));
          ("data", if py_truthy user_data then user_data else PyDict [])].

(** [create_session]: [uuid] is the text of the fresh [uuid.uuid4()], [t1]
    and [t2] the clock readings of the two timestamps of the dict, the
    other readings those of [save_session]; the result is the session id,
    or [None]. *)
Definition create_session (uuid : string) (t1 t2 now1 now2 ts : Z)
    (user_id : string) (user_data : pyobj) : M (option string) :=
  try_except
    (let session_id := uuid in
     let session_data := new_session_data t1 t2 user_id user_data in
     success <- save_session json_dumps now1 now2 ts session_id user_id session_data
                  (Some (session_timeout self)) ;;
     if success then ret (Some session_id) else ret None)
    (λ _, ret None).

(** [WindowsSessionManager.delete_session] *)
Definition manager_delete_session (session_id : string) : M bool :=
  try_except (delete_session session_id) (λ _, ret false).

(** [WindowsSessionManager.get_user_sessions] *)
Definition manager_get_user_sessions (now : Z) (user_id : string)
    : M (list session_info) :=
  try_except (get_user_sessions json_loads now user_id) (λ _, ret []).

Definition is_session_valid (now1 now2 : Z) (session_id : string) : M bool :=
  try_except
    (session_data <- get_session json_loads now1 now2 session_id ;;
     ret (is_not_None session_data))
    (λ _, ret false).


(** [cleanup_all_sessions]: the sweep, then 0. *)
Definition cleanup_all_sessions (now1 now2 : Z) : M nat :=
  try_except (_cleanup_expired_sessions now1 now2 ;;; ret 0%nat) (λ _, ret 0%nat).

(** [OpenWebUIIntegrationManager.cleanup_expired_data]: the sweep of the
    session manager, then [clear_cache()] with no pattern. *)
Definition cleanup_expired_data (now1 now2 : Z) : M cleanup_stats :=
  try_except
    (session_cleanup <- cleanup_all_sessions now1 now2 ;;
     cache_cleanup <- clear_cache None ;;
     ret (CleanupStats session_cleanup cache_cleanup))
    (λ _, ret (CleanupStats 0 0)).

End SessionManager.

(** ** Splitting a dotted key *)

(** [s.split(sep)] for a separator of one character. *)
Fixpoint py_split (sep : ascii) (s : string) : list string :=
  match s with
  | EmptyString => [EmptyString]
  | String c r =>
      if Ascii.eqb c sep then EmptyString :: py_split sep r
      else
        match py_split sep r with
        | x :: xs => String c x :: xs
        | [] => [String c EmptyString]
        end
  end.

(** ** [SessionMiddleware._extract_session_id]

    The headers of a request are pairs of byte strings.  The texts that
    the method makes of them hold any code point, so that in this part a
    [str] is the list of its code points. *)

(** The code points of a text of ASCII characters. *)
Fixpoint codes (s : string) : list N :=
  match s with
  | EmptyString => []
  | String c r => N_of_ascii c :: codes r
  end.

Definition outcome_map {A B} (f : A → B) (o : outcome A) : outcome B :=
  match o with
  | Returned a => Returned (f a)
  | Raised e => Raised e
  end.

(** A byte [10xxxxxx]. *)
Definition is_continuation (b : N) : bool := ((128 <=? b) && (b <? 192))%N.

(** [bytes.decode("utf-8")]: the code points of well-formed UTF-8, in one,
    two, three or four bytes each; a byte out of place, an encoding longer
    than needed, a surrogate or a code point beyond 10FFFF raises
    [UnicodeDecodeError]. *)
Fixpoint utf8_decode (bytes : string) : outcome (list N) :=
  match bytes with
  | EmptyString => Returned []
  | String a1 r1 =>
      let b1 := N_of_ascii a1 in
      if (b1 <? 128)%N then outcome_map (cons b1) (utf8_decode r1)
      else if (b1 <? 194)%N then Raised UnicodeDecodeError
      else if (b1 <? 224)%N then
        match r1 with
        | String a2 r2 =>
            let b2 := N_of_ascii a2 in
            if is_continuation b2
            then outcome_map (cons ((b1 - 192) * 64 + (b2 - 128))%N) (utf8_decode r2)
            else Raised UnicodeDecodeError
        | EmptyString => Raised UnicodeDecodeError
        end
      else if (b1 <? 240)%N then
        match r1 with
        | String a2 (String a3 r3) =>
            let b2 := N_of_ascii a2 in
            let b3 := N_of_ascii a3 in
            let c := ((b1 - 224) * 4096 + (b2 - 128) * 64 + (b3 - 128))%N in
            if is_continuation b2 && is_continuation b3
               && (2048 <=? c)%N && negb ((55296 <=? c) && (c <=? 57343))%N
            then outcome_map (cons c) (utf8_decode r3)
            else Raised UnicodeDecodeError
        | _ => Raised UnicodeDecodeError
        end
      else if (b1 <? 245)%N then
        match r1 with
        | String a2 (String a3 (String a4 r4)) =>
            let b2 := N_of_ascii a2 in
            let b3 := N_of_ascii a3 in
            let b4 := N_of_ascii a4 in
            let c := ((b1 - 240) * 262144 + (b2 - 128) * 4096 + (b3 - 128) * 64
                      + (b4 - 128))%N in
            if is_continuation b2 && is_continuation b3 && is_continuation b4
               && (65536 <=? c)%N && (c <=? 1114111)%N
            then outcome_map (cons c) (utf8_decode r4)
            else Raised UnicodeDecodeError
        | _ => Raised UnicodeDecodeError
        end
      else Raised UnicodeDecodeError
  end.

(** [s.split(sep)] for a separator of one character. *)
Fixpoint u_split (sep : N) (s : list N) : list (list N) :=
  match s with
  | [] => [[]]
  | c :: r =>
      if (c =? sep)%N then [] :: u_split sep r
      else
        match u_split sep r with
        | x :: xs => (c :: x) :: xs
        | [] => [[c]]
        end
  end.

Fixpoint u_prefix (p s : list N) : bool :=
  match p, s with
  | [], _ => true
  | _ :: _, [] => false
  | a :: p', b :: s' => (a =? b)%N && u_prefix p' s'
  end.

(** [p in s] *)
Fixpoint u_contains (p s : list N) : bool :=
  u_prefix p s ||
  match s with
  | [] => false
  | _ :: s' => u_contains p s'
  end.

(** The characters [str.strip] removes: those [str.isspace] holds of. *)
Definition u_isspace (c : N) : bool :=
  (((9 <=? c) && (c <=? 13)) || ((28 <=? c) && (c <=? 32))
   || (c =? 133) || (c =? 160) || (c =? 5760)
   || ((8192 <=? c) && (c <=? 8202))
   || (c =? 8232) || (c =? 8233) || (c =? 8239) || (c =? 8287) || (c =? 12288))%N.

Fixpoint u_lstrip (s : list N) : list N :=
  match s with
  | c :: r => if u_isspace c then u_lstrip r else s
  | [] => []
  end.

Fixpoint u_rstrip (s : list N) : list N :=
  match s with
  | c :: r =>
      match u_rstrip r with
      | [] => if u_isspace c then [] else [c]
      | r' => c :: r'
      end
  | [] => []
  end.

Definition u_strip (s : list N) : list N := u_rstrip (u_lstrip s).

(** [dict(pairs).get(name, default)]: of two pairs with one name the later
    one counts. *)
Fixpoint header_get (name default : string) (pairs : list (string * string)) : string :=
  match pairs with
  | [] => default
  | (k, v) :: pairs' =>
      header_get name (if String.eqb k name then v else default) pairs'
  end.

(** The text [session_id=], and the characters [;] and [=]. *)
Definition session_id_eq : list N := codes "session_id=".

Definition semicolon : N := 59.

Definition equals : N := 61.

(** The [for] loop over the cookies: the first one that contains
    [session_id=] gives the text between its first and its second [=]. *)
Fixpoint first_session_cookie (cookies : list (list N)) : option (list N) :=
  match cookies with
  | [] => None
  | cookie :: cookies' =>
      if u_contains session_id_eq cookie
      then Some (u_strip (nth 1 (u_split equals cookie) []))
      else first_session_cookie cookies'
  end.

(** [headers] is the list of pairs of the ASGI scope; the method has no
    handler, so that a header that is not UTF-8 makes it raise. *)
Definition _extract_session_id (headers : list (string * string))
    : outcome (option (list N)) :=
  match utf8_decode (header_get "cookie" "" headers) with
  | Raised e => Raised e
  | Returned cookie_header =>
      match
        (if u_contains session_id_eq cookie_header
         then first_session_cookie (u_split semicolon cookie_header)
         else None)
      with
      | Some session_id => Returned (Some session_id)
      | None =>
          match utf8_decode (header_get "x-session-id" "" headers) with
          | Raised e => Raised e
          | Returned [] => Returned None
          | Returned (c :: h) => Returned (Some (c :: h))
          end
      end
  end.

(** The text holds no character [c]. *)
Fixpoint no_code (c : N) (s : list N) : bool :=
  match s with
  | [] => true
  | d :: r => negb (d =? c)%N && no_code c r
  end.

(** The text is empty or starts with [;] or [=]: where the value of a
    cookie ends. *)
Definition value_ends (rest : list N) : bool :=
  match rest with
  | [] => true
  | c :: _ => (c =? semicolon)%N || (c =? equals)%N
  end.

(** ** [class WindowsConfigManager]: the configuration in memory *)

(** [d.get(k)] on a dict: [None] when [k not in d]. *)
Fixpoint dict_get (k : string) (d : list (string * pyobj)) : option pyobj :=
  match d with
  | [] => None
  | (k', v) :: d' => if String.eqb k' k then Some v else dict_get k d'
  end.

(** [_merge_config(base, override)]: a copy of [base] in which each item
    of [override] is set, a dict over a dict being merged in turn.  The
    override is a dict; the last branch is never taken. *)
Fixpoint merge_into (base : list (string * pyobj)) (override : pyobj)
    {struct override} : list (string * pyobj) :=
  match override with
  | PyDict o =>
      fold_left
        (λ result '(key, value),
           match dict_get key result, value with
           | Some (PyDict b), PyDict _ =>
               Json.dict_setitem key (PyDict (merge_into b value)) result
           | _, _ => Json.dict_setitem key value result
           end)
        o base
  | _ => base
  end.

Definition _merge_config (base override : list (string * pyobj))
    : list (string * pyobj) :=
  merge_into base (PyDict override).

(** The walk of [get] and [exists] down the keys of a dotted key. *)
Fixpoint config_walk (keys : list string) (value : pyobj) : option pyobj :=
  match keys with
  | [] => Some value
  | k :: keys' =>
      match value with
      | PyDict d =>
          match dict_get k d with
          | Some v => config_walk keys' v
          | None => None
          end
      | _ => None
      end
  end.

(** [WindowsConfigManager.get] on the configuration [config]. *)
Definition config_get (config : pyobj) (key : string) (default : pyobj) : pyobj :=
  match config_walk (py_split "." key) config with
  | Some v => v
  | None => default
  end.

(** [WindowsConfigManager.exists] *)
Definition config_exists (config : pyobj) (key : string) : bool :=
  match config_walk (py_split "." key) config with
  | Some _ => true
  | None => false
  end.

(** The assignments of [set] along the keys: a missing key on the way gets
    an empty dict; a value on the way that is no dict raises [TypeError],
    before anything was assigned. *)
Fixpoint config_assign (keys : list string) (value : pyobj) (config : pyobj)
    : outcome pyobj :=
  match config with
  | PyDict d =>
      match keys with
      | [] => Returned config
      | [k] => Returned (PyDict (Json.dict_setitem k value d))
      | k :: keys' =>
          let child :=
            match dict_get k d with
            | Some v => v
            | None => PyDict []
            end in
          match config_assign keys' value child with
          | Returned child' => Returned (PyDict (Json.dict_setitem k child' d))
          | Raised e => Raised e
          end
      end
  | _ => Raised TypeError
  end.

Section ConfigManager.

Variable json_dumps : pyobj → outcome string.

(** [WindowsConfigManager.set]: the result and the configuration in memory
    after the call. *)
Definition config_set (now : Z) (config : pyobj) (key : string) (value : pyobj)
    (persistent : bool) : M (bool * pyobj) :=
  match config_assign (py_split "." key) value config with
  | Raised _ => ret (false, config)
  | Returned config' =>
      try_except
        (if persistent then
           success <- set_setting json_dumps now ("config." ++ key) value
                        (Some ("Configuration: " ++ key)%string) ;;
           if success then ret (true, config') else ret (false, config')
         else ret (true, config'))
        (λ _, ret (false, config'))
  end.

End ConfigManager.

(** The keys of a dict are distinct, as those of a Python dict are. *)
Definition distinct_keys (d : list (string * pyobj)) : Prop := NoDup (map fst d).

(** What [_merge_config] puts under a key of the override: the value of
    the override, merged with the value of the base when both are dicts. *)
Definition merged_item (base_item : option pyobj) (value : pyobj) : pyobj :=
  match base_item, value with
  | Some (PyDict b), PyDict o => PyDict (_merge_config b o)
  | _, _ => value
  end.

(** The clock readings of the ticks do not go back. *)
Fixpoint ticks_ascend (now1 now2 : Z) (ticks : list (Z * Z)) : Prop :=
  match ticks with
  | [] => True
  | (t1, t2) :: ticks' => now1 ≤ t1 ∧ now2 ≤ t2 ∧ ticks_ascend t1 t2 ticks'
  end.

(** The readings of the last tick, or [now1], [now2] if there is none. *)
Fixpoint last_tick (now1 now2 : Z) (ticks : list (Z * Z)) : Z * Z :=
  match ticks with
  | [] => (now1, now2)
  | (t1, t2) :: ticks' => last_tick t1 t2 ticks'
  end.

(** What one sweep leaves of the tables. *)
Definition swept (now1 now2 : Z) (t : tables) : tables :=
  with_cache (delete_where (λ _ r, sql_lt (c_expires_at r) now2))
    (with_sessions (delete_where (λ _ r, sql_lt (s_expires_at r) now1)) t).

(** ** More concrete stores *)

(** A session of [u1] whose data is no JSON text, live until 100. *)
Definition corrupt_store : world :=
  World (Tables {["s2" := SessionRow "u1" "{" 0 5 (Some 100)]} ∅ ∅ ∅ ∅) None [].

(** Two sessions of [u1], the second updated last, and one of [u2]. *)
Definition busy_store : world :=
  World (Tables
           (list_to_map
              [("a", SessionRow "u1" "1" 0 10 (Some 100));
               ("b", SessionRow "u1" "2" 0 20 None);
               ("c", SessionRow "u2" "3" 0 30 (Some 100))])
           ∅ ∅ ∅ ∅) None [].

(** One user. *)
Definition alice : user_row :=
  UserRow "alice" (Some "alice@example.com") None "admin" None 0 0 None true.

Definition users_store : world :=
  World (Tables ∅ ∅ ∅ {["u1" := alice]} ∅) None [].

(** A stand-in for [datetime.isoformat]: the decimal text of the reading. *)
Definition demo_isoformat (t : Z) : string := NilZero.string_of_int (Z.to_int t).

Definition demo_manager : WindowsSessionManager := Manager 3600 300 true.

(** A configuration of two sections. *)
Definition demo_config : pyobj :=
  PyDict [("app", PyDict [("host", PyStr "localhost"); ("port", PyInt 8080)]);
          ("debug", PyBool false)].

(** * Properties *)

(** ** Runs without storage faults *)

Lemma storage_call_quiet w :
  faults w = [] → storage_call w = (Returned tt, w).
Proof. intros H. unfold storage_call, fallible. by rewrite H. Qed.

Lemma execute_select_quiet {A} (q : tables → A) w :
  faults w = [] → execute_select q w = (Returned (q (view w)), w).
Proof. intros H. unfold execute_select, bind. by rewrite storage_call_quiet. Qed.

Lemma execute_dml_quiet f rowcount w :
  faults w = [] →
  execute_dml f rowcount w
  = (Returned (rowcount (view w)), World (disk w) (Some (f (view w))) []).
Proof.
  intros H. unfold execute_dml, bind. rewrite storage_call_quiet by done.
  by rewrite H.
Qed.

Lemma commit_quiet w :
  faults w = [] → commit w = (Returned tt, World (view w) None []).
Proof. intros H. unfold commit. by rewrite H. Qed.

Lemma view_committed t fs : view (World t None fs) = t.
Proof. reflexivity. Qed.

Lemma view_pending d t fs : view (World d (Some t) fs) = t.
Proof. reflexivity. Qed.

Lemma sessions_with_sessions f t : sessions (with_sessions f t) = f (sessions t).
Proof. reflexivity. Qed.

Lemma cache_with_cache f t : cache (with_cache f t) = f (cache t).
Proof. reflexivity. Qed.

Lemma settings_with_settings f t : settings (with_settings f t) = f (settings t).
Proof. reflexivity. Qed.

Lemma with_sessions_frame f t :
  cache (with_sessions f t) = cache t
  ∧ settings (with_sessions f t) = settings t
  ∧ users (with_sessions f t) = users t
  ∧ chats (with_sessions f t) = chats t.
Proof. done. Qed.

Lemma with_cache_frame f t :
  sessions (with_cache f t) = sessions t
  ∧ settings (with_cache f t) = settings t
  ∧ users (with_cache f t) = users t
  ∧ chats (with_cache f t) = chats t.
Proof. done. Qed.

Lemma with_settings_frame f t :
  sessions (with_settings f t) = sessions t
  ∧ cache (with_settings f t) = cache t
  ∧ users (with_settings f t) = users t
  ∧ chats (with_settings f t) = chats t.
Proof. done. Qed.

Lemma expired_not_live expires_at now :
  expired expires_at now → sql_live expires_at now = false.
Proof. intros (e & -> & He). simpl. lia. Qed.

Ltac quiet_world w Hq :=
  destruct w as [?d ?t ?fs]; simpl in Hq; subst.

(** Unfold one operation down to the storage calls and run them as far as
    the fault flags are known. *)
Ltac run_storage :=
  unfold _get_connection, execute_select, execute_dml, commit, storage_call,
    path_stat, fallible, try_except, lift, ret, raise, bind;
  cbn [faults disk txn fst snd].

(** *** WHERE clauses *)

Lemma lookup_where_not {R} (p : string → R → bool) (m : gmap string R) k :
  where_not p m !! k
  = match m !! k with
    | Some r => if p k r then None else Some r
    | None => None
    end.
Proof.
  unfold where_not. rewrite map_lookup_filter.
  destruct (m !! k) as [r|]; [|done]. simpl.
  destruct (p k r); by case_guard.
Qed.

Lemma where_not_complement {R} (p : string → R → bool) (m : gmap string R) :
  where_not p m = filter (λ kr, ¬ (p kr.1 kr.2 = true)) m.
Proof.
  unfold where_not. apply map_filter_ext. intros k r _. simpl.
  by destruct (p k r).
Qed.

Lemma count_where_removed {R} (p : string → R → bool) (m : gmap string R) :
  (count_where p m + size (delete_where p m))%nat = size m.
Proof.
  unfold count_where, delete_where, where_. rewrite where_not_complement.
  rewrite <-map_size_disj_union by apply map_disjoint_filter_complement.
  by rewrite map_filter_union_complement.
Qed.

(** What [DELETE ... WHERE expires_at < ?] leaves in a table. *)
Lemma lookup_delete_where_lt {R} (expires_at : R → option Z) (m : gmap string R)
    now k r :
  delete_where (λ _ r, sql_lt (expires_at r) now) m !! k = Some r
  ↔ m !! k = Some r ∧ ¬ (∃ e, expires_at r = Some e ∧ e < now).
Proof.
  unfold delete_where. rewrite lookup_where_not. split.
  - destruct (m !! k) as [r'|]; [|done].
    destruct (sql_lt (expires_at r') now) eqn:Hlt; [done|].
    intros [= ->]. split; [done|].
    intros (e & He & Hlt'). rewrite He in Hlt. simpl in Hlt. lia.
  - intros [-> Hne].
    destruct (expires_at r) as [e|] eqn:He; simpl; [|done].
    destruct (e <? now) eqn:Hlt; [|done].
    exfalso. apply Hne. exists e. split; [done|lia].
Qed.

(** *** LIKE *)

Lemma like_percent p s :
  like_text (String "%" p) s
  = like_text p s || match s with
                     | EmptyString => false
                     | String _ s' => like_text (String "%" p) s'
                     end.
Proof. by destruct s. Qed.

Lemma like_percent_all s : like_text "%" s = true.
Proof.
  induction s as [|c s IH]; [done|].
  rewrite like_percent, IH. apply orb_true_r.
Qed.

Lemma like_percent_skip p pre s :
  like_text p s = true → like_text (String "%" p) (pre ++ s)%string = true.
Proof.
  intros H. induction pre as [|c pre IH].
  - change (("" ++ s)%string) with s. rewrite like_percent, H. done.
  - change ((String c pre ++ s)%string) with (String c (pre ++ s)%string).
    rewrite like_percent, IH. apply orb_true_r.
Qed.

Lemma like_char_refl c : like_char c c = true.
Proof. unfold like_char. apply N.eqb_refl. Qed.

Lemma like_prefix p post : like_text (p ++ "%")%string (p ++ post)%string = true.
Proof.
  induction p as [|c p IH].
  - apply like_percent_all.
  - change ((String c p ++ "%")%string) with (String c (p ++ "%")%string).
    change ((String c p ++ post)%string) with (String c (p ++ post)%string).
    destruct (Ascii.eqb c "%") eqn:Hp.
    + apply Ascii.eqb_eq in Hp as ->.
      apply (like_percent_skip _ (String "%" EmptyString)), IH.
    + cbn [like_text]. rewrite Hp. destruct (Ascii.eqb c "_"); [done|].
      by rewrite like_char_refl.
Qed.

(** A text that contains the pattern matches the LIKE parameter made of
    it. *)
Lemma like_param_substring pattern pre post :
  like_text (like_param pattern) (pre ++ pattern ++ post)%string = true.
Proof. apply like_percent_skip, like_prefix. Qed.

(** What the engine reads of a text that starts without NUL. *)
Lemma c_text_app a b :
  nul_free a = true → c_text (a ++ b)%string = (a ++ c_text b)%string.
Proof.
  induction a as [|c a IH]; intros Ha; [done|].
  cbn [nul_free] in Ha. apply andb_prop in Ha as [Hc Ha]. apply negb_true_iff in Hc.
  change ((String c a ++ b)%string) with (String c (a ++ b)%string).
  change ((String c a ++ c_text b)%string) with (String c (a ++ c_text b)%string).
  cbn [c_text]. by rewrite Hc, IH.
Qed.

Lemma c_text_like_param pattern :
  nul_free pattern = true → c_text (like_param pattern) = like_param pattern.
Proof. intros Hp. unfold like_param. cbn [c_text N_of_ascii N.eqb]. by rewrite c_text_app. Qed.

(** A key that contains the pattern before any NUL matches. *)
Lemma like_param_contained pattern pre post :
  nul_free pattern = true →
  nul_free pre = true →
  like (like_param pattern) (pre ++ pattern ++ post)%string = true.
Proof.
  intros Hp Hpre. unfold like.
  rewrite c_text_like_param, !c_text_app by done.
  apply like_param_substring.
Qed.

(** *** Handlers *)

Lemma try_except_converts {A} (body : M A) (failure : A) :
  converts body (try_except body (λ _, ret failure)) failure.
Proof.
  unfold converts, never_raises, try_except, ret. split; [|split].
  - intros w. destruct (body w) as [[a|e] w']; eauto.
  - intros w a w' ->. done.
  - intros w e w' ->. done.
Qed.

(** Split a world whose first fault flags are about to be read. *)
Ltac fault_cases w :=
  let d := fresh "d" in
  let t := fresh "t" in
  let fs := fresh "fs" in
  destruct w as [d t fs];
  destruct fs as [|[] [|[] [|[] [|[] fs]]]].

Ltac keeps_store_tac :=
  run_storage;
  repeat case_match;
  intros; simplify_eq;
  cbn [disk txn] in *; try done;
  (split; [done|]); intros; simplify_eq; done.

Section Properties.

Variable json_dumps : pyobj → outcome string.
Variable json_loads : string → outcome pyobj.

Lemma save_session_quiet w now1 now2 ts sid uid data ttl s :
  faults w = [] →
  deadline_ok now1 ttl = true →
  json_dumps data = Returned s →
  save_session json_dumps now1 now2 ts sid uid data (Some ttl) w
  = (Returned true,
     World (with_sessions
              (insert sid (SessionRow uid s ts now2 (Some (now1 + ttl * 1000000))))
              (view w)) None []).
Proof.
  intros Hq [Ht Ha]%andb_prop Hd. quiet_world w Hq.
  unfold save_session, save_session_body, timedelta, datetime_add. run_storage.
  rewrite Ht, Ha, Hd. reflexivity.
Qed.

(** A ttl whose deadline is no [datetime] makes the write fail before any
    statement. *)
Lemma save_session_out_of_range w now1 now2 ts sid uid data ttl :
  deadline_ok now1 ttl = false →
  fst (save_session json_dumps now1 now2 ts sid uid data (Some ttl) w) = Returned false
  ∧ disk (snd (save_session json_dumps now1 now2 ts sid uid data (Some ttl) w)) = disk w
  ∧ txn (snd (save_session json_dumps now1 now2 ts sid uid data (Some ttl) w)) = txn w.
Proof.
  intros Hno. destruct w as [d t fs].
  unfold save_session, save_session_body, timedelta, datetime_add.
  unfold deadline_ok in Hno.
  destruct fs as [|[] fs]; run_storage; try done;
    (destruct (timedelta_ok ttl); [|done]);
    simpl in Hno; rewrite Hno; done.
Qed.

Lemma get_session_hit_quiet w now1 now2 sid r :
  faults w = [] →
  sessions (view w) !! sid = Some r →
  sql_live (s_expires_at r) now1 = true →
  get_session json_loads now1 now2 sid w
  = (Returned (or_else (json_loads (s_data r)) PyNone),
     World (with_sessions (alter (touch_session now2) sid) (view w)) None []).
Proof.
  intros Hq Hr Hl. quiet_world w Hq.
  unfold get_session, get_session_body, select_session. run_storage.
  rewrite Hr, Hl. run_storage.
  destruct (json_loads (s_data r)); reflexivity.
Qed.

Lemma get_session_miss w now1 now2 sid :
  select_session sid now1 (view w) = None →
  fst (get_session json_loads now1 now2 sid w) = Returned PyNone
  ∧ view (snd (get_session json_loads now1 now2 sid w)) = view w
  ∧ disk (snd (get_session json_loads now1 now2 sid w)) = disk w.
Proof.
  intros Hs. destruct w as [d t fs].
  change (view (World d t fs)) with (view (World d t [])) in Hs.
  unfold get_session, get_session_body.
  destruct fs as [|[] [|[] fs]]; run_storage; try done;
    change (view (World d t _)) with (view (World d t []));
    rewrite Hs; done.
Qed.

Lemma set_cache_quiet w now1 now2 ts key value ttl s :
  faults w = [] →
  deadline_ok now1 ttl = true →
  json_dumps value = Returned s →
  set_cache json_dumps now1 now2 ts key value (Some ttl) w
  = (Returned true,
     World (with_cache
              (insert key (CacheRow s ts (Some (now1 + ttl * 1000000)) 0 now2))
              (view w)) None []).
Proof.
  intros Hq [Ht Ha]%andb_prop Hd. quiet_world w Hq.
  unfold set_cache, set_cache_body, timedelta, datetime_add. run_storage.
  rewrite Ht, Ha, Hd. reflexivity.
Qed.

Lemma set_cache_out_of_range w now1 now2 ts key value ttl :
  deadline_ok now1 ttl = false →
  fst (set_cache json_dumps now1 now2 ts key value (Some ttl) w) = Returned false
  ∧ disk (snd (set_cache json_dumps now1 now2 ts key value (Some ttl) w)) = disk w
  ∧ txn (snd (set_cache json_dumps now1 now2 ts key value (Some ttl) w)) = txn w.
Proof.
  intros Hno. destruct w as [d t fs].
  unfold set_cache, set_cache_body, timedelta, datetime_add.
  unfold deadline_ok in Hno.
  destruct fs as [|[] fs]; run_storage; try done;
    (destruct (timedelta_ok ttl); [|done]);
    simpl in Hno; rewrite Hno; done.
Qed.

Lemma get_cache_hit_quiet w now1 now2 key r :
  faults w = [] →
  cache (view w) !! key = Some r →
  sql_live (c_expires_at r) now1 = true →
  get_cache json_loads now1 now2 key w
  = (Returned (or_else (json_loads (c_value r)) PyNone),
     World (with_cache (alter (touch_cache now2) key) (view w)) None []).
Proof.
  intros Hq Hr Hl. quiet_world w Hq.
  unfold get_cache, get_cache_body, select_cache. run_storage.
  rewrite Hr, Hl. run_storage.
  destruct (json_loads (c_value r)); reflexivity.
Qed.

Lemma get_cache_miss w now1 now2 key :
  select_cache key now1 (view w) = None →
  fst (get_cache json_loads now1 now2 key w) = Returned PyNone
  ∧ view (snd (get_cache json_loads now1 now2 key w)) = view w
  ∧ disk (snd (get_cache json_loads now1 now2 key w)) = disk w.
Proof.
  intros Hs. destruct w as [d t fs].
  change (view (World d t fs)) with (view (World d t [])) in Hs.
  unfold get_cache, get_cache_body.
  destruct fs as [|[] [|[] fs]]; run_storage; try done;
    change (view (World d t _)) with (view (World d t []));
    rewrite Hs; done.
Qed.

(** *** The rows [get_user_sessions] lists *)

Lemma insert_desc_perm x l : insert_desc x l ≡ₚ x :: l.
Proof.
  induction l as [|y l IH]; simpl; [done|].
  case_match; [done|]. rewrite IH. apply Permutation_swap.
Qed.

Lemma order_by_updated_at_desc_perm l : order_by_updated_at_desc l ≡ₚ l.
Proof.
  unfold order_by_updated_at_desc.
  induction l as [|x l IH]; simpl; [done|].
  by rewrite insert_desc_perm, IH.
Qed.

Lemma elem_of_select_user_sessions uid now t sid r :
  (sid, r) ∈ select_user_sessions uid now t →
  sessions t !! sid = Some r
  ∧ s_user_id r = uid
  ∧ sql_live (s_expires_at r) now = true.
Proof.
  unfold select_user_sessions, where_.
  rewrite order_by_updated_at_desc_perm, elem_of_map_to_list.
  rewrite map_lookup_filter_Some. simpl.
  intros [Hr [Hu Hl]%andb_prop]. apply String.eqb_eq in Hu. done.
Qed.

Lemma load_sessions_ids rows l :
  load_sessions json_loads rows = Returned l →
  map i_session_id l = map fst rows.
Proof.
  revert l. induction rows as [|[sid r] rows IH]; intros l; simpl.
  - by intros [= <-].
  - destruct (json_loads (s_data r)); [|done].
    destruct (load_sessions json_loads rows) as [l'|]; [|done].
    intros [= <-]. simpl. f_equal. by apply IH.
Qed.

Lemma get_user_sessions_cases w now uid l :
  fst (get_user_sessions json_loads now uid w) = Returned l →
  l = [] ∨ load_sessions json_loads (select_user_sessions uid now (view w)) = Returned l.
Proof.
  destruct w as [d t fs].
  unfold get_user_sessions, get_user_sessions_body.
  destruct fs as [|[] [|[] fs]]; run_storage;
    try (intros [= <-]; by left);
    change (view (World d t _)) with (view (World d t []));
    (destruct (load_sessions json_loads
                 (select_user_sessions uid now (view (World d t [])))) as [l'|] eqn:Hl;
     simpl; intros [= <-]; [by right | by left]).
Qed.

Lemma get_user_sessions_omits w now uid sid l :
  (∀ r, sessions (view w) !! sid = Some r → expired (s_expires_at r) now) →
  fst (get_user_sessions json_loads now uid w) = Returned l →
  sid ∉ map i_session_id l.
Proof.
  intros Hgone [->|Hl]%get_user_sessions_cases; [by apply not_elem_of_nil|].
  rewrite (load_sessions_ids _ _ Hl). intros Hin.
  apply list_elem_of_fmap in Hin as ([sid' r] & -> & Hin).
  apply elem_of_select_user_sessions in Hin as (Hr & _ & Hlive). simpl in *.
  apply Hgone, expired_not_live in Hr. congruence.
Qed.

Lemma set_setting_quiet w now key value description s :
  faults w = [] →
  json_dumps value = Returned s →
  set_setting json_dumps now key value description w
  = (Returned true,
     World (with_settings (insert key (SettingRow s description now)) (view w)) None []).
Proof.
  intros Hq Hd. quiet_world w Hq.
  unfold set_setting, set_setting_body. run_storage.
  rewrite Hd. reflexivity.
Qed.

Lemma save_session_without_ttl w now1 now2 ts sid uid data :
  fst (save_session json_dumps now1 now2 ts sid uid data None w) = Returned false
  ∧ disk (snd (save_session json_dumps now1 now2 ts sid uid data None w)) = disk w
  ∧ txn (snd (save_session json_dumps now1 now2 ts sid uid data None w)) = txn w.
Proof.
  destruct w as [d t fs]. unfold save_session, save_session_body, timedelta.
  destruct fs as [|[] fs]; run_storage; done.
Qed.

(** *** Consecutive reads of one cache key *)

Lemma get_cache_each_quiet readings : ∀ w key r,
  faults w = [] →
  cache (view w) !! key = Some r →
  Forall (λ t, sql_live (c_expires_at r) t.1 = true) readings →
  ∃ w',
    get_cache_each json_loads readings key w
    = (Returned (replicate (List.length readings)
                   (or_else (json_loads (c_value r)) PyNone)), w')
    ∧ cache (view w') !! key
      = Some (CacheRow (c_value r) (c_created_at r) (c_expires_at r)
                (c_access_count r + Z.of_nat (List.length readings))
                (last_reading readings (c_last_accessed r)))
    ∧ faults w' = [].
Proof.
  induction readings as [|[t1 t2] readings IH]; intros w key r Hq Hr Hlive.
  - exists w. cbn. rewrite Hr, Z.add_0_r. by destruct r.
  - apply Forall_cons in Hlive as [Hl Hlive]. simpl in Hl.
    cbn [get_cache_each]. unfold bind.
    rewrite (get_cache_hit_quiet w t1 t2 key r Hq Hr Hl).
    set (w1 := World _ None []).
    assert (cache (view w1) !! key = Some (touch_cache t2 r)) as Hr1.
    { subst w1. rewrite view_committed, cache_with_cache, lookup_alter_eq, Hr. done. }
    destruct (IH w1 key (touch_cache t2 r) eq_refl Hr1 Hlive) as (w2 & -> & Hrow & Hf).
    exists w2. split; [done|]. split; [|done].
    rewrite Hrow. cbn [touch_cache c_value c_created_at c_expires_at
                       c_access_count c_last_accessed List.length last_reading foldl].
    do 2 f_equal. lia.
Qed.

(** *** The sweep and the clear *)

Lemma _cleanup_expired_sessions_quiet w now1 now2 :
  faults w = [] →
  _cleanup_expired_sessions now1 now2 w
  = (Returned tt,
     World (with_cache (delete_where (λ _ r, sql_lt (c_expires_at r) now2))
              (with_sessions (delete_where (λ _ r, sql_lt (s_expires_at r) now1))
                 (view w))) None []).
Proof.
  intros Hq. quiet_world w Hq.
  unfold _cleanup_expired_sessions, _cleanup_expired. run_storage. reflexivity.
Qed.

Lemma clear_cache_pattern_quiet w c p :
  faults w = [] →
  like_pattern_fits (like_param (String c p)) = true ∨ cache (view w) = ∅ →
  clear_cache (Some (String c p)) w
  = (Returned (count_where (λ k _, like (like_param (String c p)) k) (cache (view w))),
     World (with_cache (delete_where (λ k _, like (like_param (String c p)) k))
              (view w)) None []).
Proof.
  intros Hq Hfits. quiet_world w Hq.
  assert (like_pattern_fits (like_param (String c p))
          || bool_decide (cache (view (World d t [])) = ∅) = true) as Hgo.
  { destruct Hfits as [-> | He]; [done|].
    rewrite (bool_decide_eq_true_2 _ He). apply orb_true_r. }
  unfold clear_cache, clear_cache_body, execute_delete_like. run_storage.
  rewrite Hgo. reflexivity.
Qed.

(** A pattern that is too long for LIKE fails on the first row. *)
Lemma clear_cache_pattern_too_long w c p :
  faults w = [] →
  like_pattern_fits (like_param (String c p)) = false →
  cache (view w) ≠ ∅ →
  clear_cache (Some (String c p)) w
  = (Returned 0%nat, World (disk w) (Some (view w)) []).
Proof.
  intros Hq Hlong Hrows. quiet_world w Hq.
  unfold clear_cache, clear_cache_body, execute_delete_like. run_storage.
  rewrite Hlong, (bool_decide_eq_false_2 _ Hrows). reflexivity.
Qed.

Lemma clear_cache_all_quiet w pattern :
  faults w = [] →
  pattern = None ∨ pattern = Some EmptyString →
  clear_cache pattern w
  = (Returned (size (cache (view w))), World (with_cache (λ _, ∅) (view w)) None []).
Proof.
  intros Hq [-> | ->]; quiet_world w Hq;
    unfold clear_cache, clear_cache_body; run_storage; reflexivity.
Qed.

(** *** Failed writes *)

Lemma save_session_keeps_store now1 now2 ts sid uid data expires_in :
  failure_keeps_store (save_session_body json_dumps now1 now2 ts sid uid data expires_in).
Proof.
  intros w e w'. unfold save_session_body, timedelta, datetime_add.
  fault_cases w; keeps_store_tac.
Qed.

Lemma set_cache_keeps_store now1 now2 ts key value expires_in :
  failure_keeps_store (set_cache_body json_dumps now1 now2 ts key value expires_in).
Proof.
  intros w e w'. unfold set_cache_body, timedelta, datetime_add.
  fault_cases w; keeps_store_tac.
Qed.

Lemma set_setting_keeps_store now key value description :
  failure_keeps_store (set_setting_body json_dumps now key value description).
Proof.
  intros w e w'. unfold set_setting_body.
  fault_cases w; keeps_store_tac.
Qed.

Lemma delete_session_keeps_store sid :
  failure_keeps_store (delete_session_body sid).
Proof.
  intros w e w'. unfold delete_session_body.
  fault_cases w; keeps_store_tac.
Qed.

Lemma delete_cache_keeps_store key :
  failure_keeps_store (delete_cache_body key).
Proof.
  intros w e w'. unfold delete_cache_body.
  fault_cases w; keeps_store_tac.
Qed.

Lemma clear_cache_keeps_store pattern :
  failure_keeps_store (clear_cache_body pattern).
Proof.
  intros w e w'. unfold clear_cache_body, execute_delete_like.
  destruct pattern as [[|c p]|]; fault_cases w; keeps_store_tac.
Qed.

Lemma clear_config_keeps_store :
  failure_keeps_store clear_config_body.
Proof.
  intros w e w'. unfold clear_config_body.
  fault_cases w; keeps_store_tac.
Qed.

Lemma _cleanup_expired_keeps_disk now1 now2 :
  failure_keeps_disk (_cleanup_expired now1 now2).
Proof.
  intros w e w'. unfold _cleanup_expired.
  fault_cases w; run_storage; intros; simplify_eq; done.
Qed.

Lemma _cleanup_worker_never_raises ticks : never_raises (_cleanup_worker ticks).
Proof.
  induction ticks as [|[now1 now2] ticks IH]; intros w; cbn [_cleanup_worker].
  - unfold ret. eauto.
  - unfold bind, try_except at 1.
    destruct (_cleanup_expired_sessions now1 now2 w) as [[[]|e] w1]; apply IH.
Qed.

Lemma get_setting_miss w key default :
  settings (view w) !! key = None →
  fst (get_setting json_loads key default w) = Returned default.
Proof.
  intros Hs. destruct w as [d t fs].
  change (view (World d t fs)) with (view (World d t [])) in Hs.
  unfold get_setting, get_setting_body.
  destruct fs as [|[] [|[] fs]]; run_storage; try done;
    change (view (World d t _)) with (view (World d t []));
    rewrite Hs; done.
Qed.

(** ** The claims *)

(** C1 (as amended).  A session or cache row whose [expires_at] is set and
    not after the clock reading of the read is read as absent, swept or
    not: [get_session] and [get_cache] return [None] and leave the rows as
    they are, and [get_user_sessions] does not list it.  The hypotheses
    hold of a key with no row and of a key with an expired row alike.
    [get_stats] is not among these reads: it counts the rows of the
    tables, the expired ones too. *)
Theorem C1_expired_rows_read_as_absent w now1 now2 sid key uid :
  (∀ r, sessions (view w) !! sid = Some r → expired (s_expires_at r) now1) →
  (∀ c, cache (view w) !! key = Some c → expired (c_expires_at c) now1) →
  (fst (get_session json_loads now1 now2 sid w) = Returned PyNone
   ∧ view (snd (get_session json_loads now1 now2 sid w)) = view w)
  ∧ (fst (get_cache json_loads now1 now2 key w) = Returned PyNone
     ∧ view (snd (get_cache json_loads now1 now2 key w)) = view w)
  ∧ (∀ l, fst (get_user_sessions json_loads now1 uid w) = Returned l →
          sid ∉ map i_session_id l).
Proof.
  intros Hs Hc. split; [|split].
  - assert (select_session sid now1 (view w) = None) as Hsel.
    { unfold select_session. destruct (sessions (view w) !! sid) as [r|] eqn:Hr; [|done].
      by rewrite (expired_not_live _ _ (Hs r eq_refl)). }
    destruct (get_session_miss w now1 now2 sid Hsel) as (? & ? & _). done.
  - assert (select_cache key now1 (view w) = None) as Hsel.
    { unfold select_cache. destruct (cache (view w) !! key) as [c|] eqn:Hr; [|done].
      by rewrite (expired_not_live _ _ (Hc c eq_refl)). }
    destruct (get_cache_miss w now1 now2 key Hsel) as (? & ? & _). done.
  - intros l. by apply get_user_sessions_omits.
Qed.

(** C2 (as amended).  Saving a session with a positive ttl whose deadline
    is a [datetime], and reading it back before the deadline, returns what
    [json.loads] makes of the text that [json.dumps] made of the data:
    the data that was saved when [json.loads] reads it back as it was, and
    else another value, as for a tuple, which comes back as a list. *)
Theorem C2_save_then_get_returns_data w now1 now2 ts now3 now4 sid uid data ttl s :
  faults w = [] →
  json_dumps data = Returned s →
  0 < ttl →
  deadline_ok now1 ttl = true →
  now3 < now1 + ttl * 1000000 →
  let w' := snd (save_session json_dumps now1 now2 ts sid uid data (Some ttl) w) in
  fst (save_session json_dumps now1 now2 ts sid uid data (Some ttl) w) = Returned true
  ∧ fst (get_session json_loads now3 now4 sid w')
    = Returned (or_else (json_loads s) PyNone)
  ∧ (json_loads s = Returned data →
     fst (get_session json_loads now3 now4 sid w') = Returned data).
Proof.
  intros Hq Hd _ Hok Hnow w'. subst w'.
  rewrite (save_session_quiet w now1 now2 ts sid uid data ttl s Hq Hok Hd).
  split; [done|]. cbn [fst snd].
  rewrite (get_session_hit_quiet _ now3 now4 sid
             (SessionRow uid s ts now2 (Some (now1 + ttl * 1000000)))).
  - cbn [fst s_data]. split; [done|]. by intros ->.
  - done.
  - rewrite view_committed, sessions_with_sessions. apply lookup_insert_eq.
  - cbn [s_expires_at sql_live]. lia.
Qed.

(** C10.  A [Database.get_session] that finds a live row changes that
    row's [updated_at] and nothing else: the row keeps its [user_id],
    [data], [created_at] and [expires_at], and every other row of every
    table is as before.  The deadline moves when [save_session] is called
    again, which sets it to the clock reading of that call plus its ttl,
    if that is a [datetime]. *)
Theorem C10_get_session_touches_only_updated_at w now1 now2 sid r :
  faults w = [] →
  sessions (view w) !! sid = Some r →
  sql_live (s_expires_at r) now1 = true →
  let w' := snd (get_session json_loads now1 now2 sid w) in
  sessions (view w') !! sid
  = Some (SessionRow (s_user_id r) (s_data r) (s_created_at r) now2 (s_expires_at r))
  ∧ (∀ sid', sid' ≠ sid → sessions (view w') !! sid' = sessions (view w) !! sid')
  ∧ cache (view w') = cache (view w)
  ∧ settings (view w') = settings (view w)
  ∧ users (view w') = users (view w)
  ∧ chats (view w') = chats (view w)
  ∧ disk w' = view w'
  ∧ (∀ t1 t2 ts uid data ttl s,
       json_dumps data = Returned s →
       deadline_ok t1 ttl = true →
       s_expires_at <$>
         sessions (view (snd (save_session json_dumps t1 t2 ts sid uid data (Some ttl) w')))
           !! sid
       = Some (Some (t1 + ttl * 1000000))).
Proof.
  intros Hq Hr Hl w'. subst w'.
  rewrite (get_session_hit_quiet w now1 now2 sid r Hq Hr Hl).
  cbn [snd disk]. rewrite !view_committed, !sessions_with_sessions.
  destruct (with_sessions_frame (alter (touch_session now2) sid) (view w))
    as (-> & -> & -> & ->).
  repeat split.
  - rewrite lookup_alter_eq, Hr. done.
  - intros sid' Hne. by rewrite lookup_alter_ne.
  - intros t1 t2 ts uid data ttl s Hd Hok.
    rewrite (save_session_quiet _ t1 t2 ts sid uid data ttl s) by done.
    cbn [snd]. rewrite !view_committed, !sessions_with_sessions.
    by rewrite lookup_insert_eq.
Qed.

(** C3.  A [get_cache] that finds a live row adds one to its
    [access_count] and sets its [last_accessed] to the clock reading of the
    update; so after a [set_cache], as many reads before the deadline as
    [readings] is long leave [access_count] at that number, each of them
    returning the value; and a [set_cache] on the key after that leaves
    [access_count] at 0.  The deadlines of the two [set_cache] are those
    of calls that succeed: each is a [datetime]. *)
Theorem C3_access_count_counts_hits w now1 now2 ts key value ttl s readings :
  faults w = [] →
  json_dumps value = Returned s →
  deadline_ok now1 ttl = true →
  Forall (λ t, t.1 < now1 + ttl * 1000000) readings →
  let w1 := snd (set_cache json_dumps now1 now2 ts key value (Some ttl) w) in
  let w2 := snd (get_cache_each json_loads readings key w1) in
  (∀ w0 r t1 t2,
     faults w0 = [] →
     cache (view w0) !! key = Some r →
     sql_live (c_expires_at r) t1 = true →
     cache (view (snd (get_cache json_loads t1 t2 key w0))) !! key
     = Some (CacheRow (c_value r) (c_created_at r) (c_expires_at r)
               (c_access_count r + 1) t2))
  ∧ fst (get_cache_each json_loads readings key w1)
    = Returned (replicate (List.length readings) (or_else (json_loads s) PyNone))
  ∧ c_access_count <$> cache (view w2) !! key = Some (Z.of_nat (List.length readings))
  ∧ c_last_accessed <$> cache (view w2) !! key = Some (last_reading readings now2)
  ∧ (∀ t1 t2 ts' value' ttl' s',
       json_dumps value' = Returned s' →
       deadline_ok t1 ttl' = true →
       c_access_count <$>
         cache (view (snd (set_cache json_dumps t1 t2 ts' key value' (Some ttl') w2)))
           !! key
       = Some 0).
Proof.
  intros Hq Hd Hok Hlive w1 w2. split.
  { intros w0 r t1 t2 Hq0 Hr Hl.
    rewrite (get_cache_hit_quiet w0 t1 t2 key r Hq0 Hr Hl). cbn [snd].
    rewrite view_committed, cache_with_cache, lookup_alter_eq, Hr. done. }
  subst w2 w1. rewrite (set_cache_quiet w now1 now2 ts key value ttl s Hq Hok Hd).
  cbn [snd]. set (w1 := World _ None []).
  set (r := CacheRow s ts (Some (now1 + ttl * 1000000)) 0 now2).
  assert (cache (view w1) !! key = Some r) as Hr.
  { subst w1. rewrite view_committed, cache_with_cache. apply lookup_insert_eq. }
  assert (Forall (λ t, sql_live (c_expires_at r) t.1 = true) readings) as Hlive'.
  { eapply Forall_impl; [exact Hlive|]. intros t Ht. simpl in *. lia. }
  destruct (get_cache_each_quiet readings w1 key r eq_refl Hr Hlive')
    as (w2 & -> & Hrow & Hf).
  split; [done|]. cbn [snd]. rewrite Hrow. cbn [fmap option_fmap option_map c_access_count
                                      c_last_accessed r].
  repeat split.
  intros t1 t2 ts' value' ttl' s' Hd' Hok'.
  rewrite (set_cache_quiet _ t1 t2 ts' key value' ttl' s' Hf Hok' Hd'). cbn [snd].
  rewrite view_committed, cache_with_cache, lookup_insert_eq. done.
Qed.

(** C6 (as amended).  [save_session] takes its ttl as a number of seconds.
    Called with [None] it returns [False] and stores nothing, whatever the
    state of the store.  Called with a number whose deadline, the clock
    reading plus the ttl, is a [datetime], it stores that deadline, and
    never a null [expires_at]; called with a number whose deadline is no
    [datetime], it returns [False] and stores nothing either. *)
Theorem C6_save_session_needs_seconds w now1 now2 ts sid uid data :
  (fst (save_session json_dumps now1 now2 ts sid uid data None w) = Returned false
   ∧ disk (snd (save_session json_dumps now1 now2 ts sid uid data None w)) = disk w
   ∧ view (snd (save_session json_dumps now1 now2 ts sid uid data None w)) = view w)
  ∧ (∀ ttl s,
       faults w = [] →
       json_dumps data = Returned s →
       deadline_ok now1 ttl = true →
       fst (save_session json_dumps now1 now2 ts sid uid data (Some ttl) w)
       = Returned true
       ∧ s_expires_at <$>
           sessions (view (snd (save_session json_dumps now1 now2 ts sid uid data
                                  (Some ttl) w))) !! sid
         = Some (Some (now1 + ttl * 1000000)))
  ∧ (∀ ttl,
       deadline_ok now1 ttl = false →
       fst (save_session json_dumps now1 now2 ts sid uid data (Some ttl) w)
       = Returned false
       ∧ disk (snd (save_session json_dumps now1 now2 ts sid uid data (Some ttl) w))
         = disk w
       ∧ view (snd (save_session json_dumps now1 now2 ts sid uid data (Some ttl) w))
         = view w).
Proof.
  split; [|split].
  - destruct (save_session_without_ttl w now1 now2 ts sid uid data) as (? & Hdisk & Htxn).
    repeat split; [done..|]. unfold view. by rewrite Hdisk, Htxn.
  - intros ttl s Hq Hd Hok.
    rewrite (save_session_quiet w now1 now2 ts sid uid data ttl s Hq Hok Hd).
    split; [done|]. cbn [snd].
    by rewrite view_committed, sessions_with_sessions, lookup_insert_eq.
  - intros ttl Hno.
    destruct (save_session_out_of_range w now1 now2 ts sid uid data ttl Hno)
      as (? & Hdisk & Htxn).
    repeat split; [done..|]. unfold view. by rewrite Hdisk, Htxn.
Qed.


(** C9.  Saving over a session row, or setting over a cache row, does not
    keep the row's [created_at]: the new row holds the columns of the
    statement and the defaults of the others, so [created_at] is the
    CURRENT_TIMESTAMP of the replacing statement (and a cache row's
    [access_count] is 0), whatever the old row held.  The replacing call
    is one that succeeds: its deadline is a [datetime]. *)
Theorem C9_upsert_resets_created_at w now1 now2 ts sid key uid value ttl s
    old_session old_cache :
  faults w = [] →
  json_dumps value = Returned s →
  deadline_ok now1 ttl = true →
  sessions (view w) !! sid = Some old_session →
  cache (view w) !! key = Some old_cache →
  sessions (view (snd (save_session json_dumps now1 now2 ts sid uid value
                         (Some ttl) w))) !! sid
  = Some (SessionRow uid s ts now2 (Some (now1 + ttl * 1000000)))
  ∧ cache (view (snd (set_cache json_dumps now1 now2 ts key value (Some ttl) w)))
      !! key
    = Some (CacheRow s ts (Some (now1 + ttl * 1000000)) 0 now2)
  ∧ (s_created_at old_session ≠ ts →
     s_created_at <$>
       sessions (view (snd (save_session json_dumps now1 now2 ts sid uid value
                              (Some ttl) w))) !! sid
     ≠ Some (s_created_at old_session))
  ∧ (c_created_at old_cache ≠ ts →
     c_created_at <$>
       cache (view (snd (set_cache json_dumps now1 now2 ts key value (Some ttl) w)))
         !! key
     ≠ Some (c_created_at old_cache)).
Proof.
  intros Hq Hd Hok _ _.
  rewrite (save_session_quiet w now1 now2 ts sid uid value ttl s Hq Hok Hd).
  rewrite (set_cache_quiet w now1 now2 ts key value ttl s Hq Hok Hd).
  cbn [snd].
  rewrite !view_committed, sessions_with_sessions, cache_with_cache,
    !lookup_insert_eq.
  repeat split; simpl; congruence.
Qed.

(** C4 (as amended).  One tick of the sweeper deletes, in one statement per
    table, the session and cache rows whose [expires_at] is set and
    strictly before the clock reading of the statement: a row is there
    after the tick exactly when it was there before and its [expires_at]
    is null or not before that reading.  So a row that expires at the very
    reading stays, as does every row with a null [expires_at]; the rows
    that stay are unchanged, and so are the other tables.  A worker that
    makes one tick leaves the store as that tick does. *)
Theorem C4_sweep_deletes_rows_before_now w now1 now2 :
  faults w = [] →
  let w' := snd (_cleanup_expired_sessions now1 now2 w) in
  (∀ sid r,
     sessions (view w') !! sid = Some r
     ↔ sessions (view w) !! sid = Some r
       ∧ ¬ (∃ e, s_expires_at r = Some e ∧ e < now1))
  ∧ (∀ key r,
       cache (view w') !! key = Some r
       ↔ cache (view w) !! key = Some r
         ∧ ¬ (∃ e, c_expires_at r = Some e ∧ e < now2))
  ∧ settings (view w') = settings (view w)
  ∧ users (view w') = users (view w)
  ∧ chats (view w') = chats (view w)
  ∧ disk w' = view w'
  ∧ snd (_cleanup_worker [(now1, now2)] w) = w'.
Proof.
  intros Hq w'. subst w'. cbn [_cleanup_worker]. unfold bind, try_except at 1, ret.
  rewrite (_cleanup_expired_sessions_quiet w now1 now2 Hq).
  cbn [snd disk]. rewrite !view_committed, cache_with_cache.
  destruct (with_cache_frame (delete_where (λ _ r, sql_lt (c_expires_at r) now2))
              (with_sessions (delete_where (λ _ r, sql_lt (s_expires_at r) now1))
                 (view w))) as (-> & -> & -> & ->).
  rewrite sessions_with_sessions.
  destruct (with_sessions_frame (delete_where (λ _ r, sql_lt (s_expires_at r) now1))
              (view w)) as (-> & -> & -> & ->).
  split; [|split]; [| |done].
  - intros sid r. apply lookup_delete_where_lt.
  - intros key r. apply lookup_delete_where_lt.
Qed.

(** C5 (as amended).  [clear_cache] with a non-empty pattern runs
    [key LIKE '%pattern%']: when that pattern is not too long for LIKE, or
    the cache is empty, it removes the cache rows whose key matches, and
    no other row, and returns the number of rows removed.  In the match
    [_] and [%] inside the pattern are wildcards, ASCII letters match in
    either case, and nothing is compared beyond the first NUL of the
    pattern or of the key; so every key that contains the pattern as it is
    written matches, if the pattern and what precedes it in the key have
    no NUL.  A pattern that is too long removes nothing from a cache that
    has rows, and 0 is returned.  The rows that stay are unchanged, as are
    the other tables.  With no pattern, or the empty one, [clear_cache]
    removes every cache row and returns their number. *)
Theorem C5_clear_cache_removes_like_matches w c p :
  faults w = [] →
  let pattern := String c p in
  let w' := snd (clear_cache (Some pattern) w) in
  (like_pattern_fits (like_param pattern) = true ∨ cache (view w) = ∅ →
   (∀ key,
      cache (view w') !! key
      = match cache (view w) !! key with
        | Some r => if like (like_param pattern) key then None else Some r
        | None => None
        end)
   ∧ (∃ n, fst (clear_cache (Some pattern) w) = Returned n
           ∧ (n + size (cache (view w')))%nat = size (cache (view w))))
  ∧ (∀ pre post,
       nul_free pattern = true →
       nul_free pre = true →
       like (like_param pattern) (pre ++ pattern ++ post)%string = true)
  ∧ (like_pattern_fits (like_param pattern) = false →
     cache (view w) ≠ ∅ →
     fst (clear_cache (Some pattern) w) = Returned 0%nat
     ∧ cache (view w') = cache (view w))
  ∧ sessions (view w') = sessions (view w)
  ∧ settings (view w') = settings (view w)
  ∧ (∀ none, none = None ∨ none = Some EmptyString →
       fst (clear_cache none w) = Returned (size (cache (view w)))
       ∧ cache (view (snd (clear_cache none w))) = ∅).
Proof.
  intros Hq pattern w'. subst w' pattern.
  assert (like_pattern_fits (like_param (String c p)) = true ∨ cache (view w) = ∅
          ∨ (like_pattern_fits (like_param (String c p)) = false
             ∧ cache (view w) ≠ ∅)) as Hcases.
  { destruct (like_pattern_fits _); [by left|].
    destruct (decide (cache (view w) = ∅)); [by right; left | by right; right]. }
  split; [|split; [|split; [|split; [|split]]]].
  - intros Hfits. rewrite (clear_cache_pattern_quiet w c p Hq Hfits). cbn [fst snd].
    rewrite !view_committed, cache_with_cache. split.
    + intros key. unfold delete_where. apply lookup_where_not.
    + eexists. split; [done|]. apply count_where_removed.
  - intros pre post Hp Hpre. by apply like_param_contained.
  - intros Hlong Hrows.
    by rewrite (clear_cache_pattern_too_long w c p Hq Hlong Hrows).
  - destruct Hcases as [Hf | [He | [Hlong Hrows]]].
    + by rewrite (clear_cache_pattern_quiet w c p Hq (or_introl Hf)).
    + by rewrite (clear_cache_pattern_quiet w c p Hq (or_intror He)).
    + by rewrite (clear_cache_pattern_too_long w c p Hq Hlong Hrows).
  - destruct Hcases as [Hf | [He | [Hlong Hrows]]].
    + by rewrite (clear_cache_pattern_quiet w c p Hq (or_introl Hf)).
    + by rewrite (clear_cache_pattern_quiet w c p Hq (or_intror He)).
    + by rewrite (clear_cache_pattern_too_long w c p Hq Hlong Hrows).
  - intros none Hnone. rewrite (clear_cache_all_quiet w none Hq Hnone).
    cbn [fst snd]. by rewrite view_committed, cache_with_cache.
Qed.

(** C8.  No operation of the store raises to its caller: each one is its
    body inside a handler that returns [False] for a write, [None] (or the
    default) for a read, 0 for [clear_cache], the empty list for
    [get_user_sessions] and the empty dict for [get_stats], whatever the
    inputs and whichever storage calls fail.  A read that fails returns
    what a miss returns.  A write that fails leaves the rows on disk, and
    the rows the connection reads, as they were.  The sweeper's tick does
    not raise either, and a sweep that fails leaves the disk as it was. *)
Theorem C8_failures_become_return_values :
  (∀ now1 now2 ts sid uid data expires_in,
     converts (save_session_body json_dumps now1 now2 ts sid uid data expires_in)
       (save_session json_dumps now1 now2 ts sid uid data expires_in) false
     ∧ failure_keeps_store
         (save_session_body json_dumps now1 now2 ts sid uid data expires_in))
  ∧ (∀ now1 now2 ts key value expires_in,
       converts (set_cache_body json_dumps now1 now2 ts key value expires_in)
         (set_cache json_dumps now1 now2 ts key value expires_in) false
       ∧ failure_keeps_store
           (set_cache_body json_dumps now1 now2 ts key value expires_in))
  ∧ (∀ now key value description,
       converts (set_setting_body json_dumps now key value description)
         (set_setting json_dumps now key value description) false
       ∧ failure_keeps_store (set_setting_body json_dumps now key value description))
  ∧ (∀ sid,
       converts (delete_session_body sid) (delete_session sid) false
       ∧ failure_keeps_store (delete_session_body sid))
  ∧ (∀ key,
       converts (delete_cache_body key) (delete_cache key) false
       ∧ failure_keeps_store (delete_cache_body key))
  ∧ (∀ pattern,
       converts (clear_cache_body pattern) (clear_cache pattern) 0%nat
       ∧ failure_keeps_store (clear_cache_body pattern))
  ∧ (converts clear_config_body clear_config false
     ∧ failure_keeps_store clear_config_body)
  ∧ (∀ now1 now2 sid,
       converts (get_session_body json_loads now1 now2 sid)
         (get_session json_loads now1 now2 sid) PyNone
       ∧ (∀ w, select_session sid now1 (view w) = None →
               fst (get_session json_loads now1 now2 sid w) = Returned PyNone))
  ∧ (∀ now1 now2 key,
       converts (get_cache_body json_loads now1 now2 key)
         (get_cache json_loads now1 now2 key) PyNone
       ∧ (∀ w, select_cache key now1 (view w) = None →
               fst (get_cache json_loads now1 now2 key w) = Returned PyNone))
  ∧ (∀ key default,
       converts (get_setting_body json_loads key default)
         (get_setting json_loads key default) default
       ∧ (∀ w, settings (view w) !! key = None →
               fst (get_setting json_loads key default w) = Returned default))
  ∧ (∀ now uid,
       converts (get_user_sessions_body json_loads now uid)
         (get_user_sessions json_loads now uid) [])
  ∧ converts get_stats_body get_stats []
  ∧ (∀ now1 now2,
       never_raises (_cleanup_expired_sessions now1 now2)
       ∧ failure_keeps_disk (_cleanup_expired now1 now2))
  ∧ (∀ ticks, never_raises (_cleanup_worker ticks)).
Proof.
  split.
  { intros. split; [apply try_except_converts | apply save_session_keeps_store]. }
  split.
  { intros. split; [apply try_except_converts | apply set_cache_keeps_store]. }
  split.
  { intros. split; [apply try_except_converts | apply set_setting_keeps_store]. }
  split.
  { intros. split; [apply try_except_converts | apply delete_session_keeps_store]. }
  split.
  { intros. split; [apply try_except_converts | apply delete_cache_keeps_store]. }
  split.
  { intros. split; [apply try_except_converts | apply clear_cache_keeps_store]. }
  split.
  { split; [apply try_except_converts | apply clear_config_keeps_store]. }
  split.
  { intros. split; [apply try_except_converts |].
    intros w Hs. by apply get_session_miss. }
  split.
  { intros. split; [apply try_except_converts |].
    intros w Hs. by apply get_cache_miss. }
  split.
  { intros. split; [apply try_except_converts |].
    intros w Hs. by apply get_setting_miss. }
  split.
  { intros. apply try_except_converts. }
  split.
  { apply try_except_converts. }
  split.
  { intros. split; [|apply _cleanup_expired_keeps_disk].
    apply (try_except_converts (_cleanup_expired now1 now2) tt). }
  apply _cleanup_worker_never_raises.
Qed.

End Properties.

(** ** The claims on concrete stores *)

(** C1, as the specification states it, fails for [get_stats]: at the
    instant 200 the session [s1] and the cache entry [k1] of [stale_store]
    are past their deadline and read as absent, yet [get_stats] counts
    them, so that it tells the store from the one without [s1]. *)
Lemma C1_get_stats_counts_expired_rows :
  expired (s_expires_at stale_session) 200
  ∧ sessions (view stale_store) !! "s1" = Some stale_session
  ∧ fst (get_session Json.loads 200 200 "s1" stale_store) = Returned PyNone
  ∧ fst (get_stats stale_store)
    = Returned [("sessions_count", 1%nat); ("cache_count", 1%nat);
                ("users_count", 0%nat); ("chats_count", 0%nat)]
  ∧ fst (get_stats (forget_session "s1" stale_store))
    = Returned [("sessions_count", 0%nat); ("cache_count", 1%nat);
                ("users_count", 0%nat); ("chats_count", 0%nat)]
  ∧ fst (get_stats stale_store) ≠ fst (get_stats (forget_session "s1" stale_store)).
Proof.
  split; [exists 100; split; [reflexivity | lia]|].
  split; [reflexivity|].
  split; [vm_compute; reflexivity|].
  split; [vm_compute; reflexivity|].
  split; [vm_compute; reflexivity|].
  vm_compute. discriminate.
Qed.

(** The theorem of C1 on [stale_store], read at the instant 200. *)
Lemma C1_witness :
  (fst (get_session Json.loads 200 201 "s1" stale_store) = Returned PyNone
   ∧ view (snd (get_session Json.loads 200 201 "s1" stale_store)) = view stale_store)
  ∧ (fst (get_cache Json.loads 200 201 "k1" stale_store) = Returned PyNone
     ∧ view (snd (get_cache Json.loads 200 201 "k1" stale_store)) = view stale_store)
  ∧ (∀ l, fst (get_user_sessions Json.loads 200 "u1" stale_store) = Returned l →
          "s1" ∉ map i_session_id l).
Proof.
  apply (C1_expired_rows_read_as_absent Json.loads stale_store 200 201 "s1" "k1" "u1").
  - intros r [= <-]. exists 100. split; [reflexivity | lia].
  - intros c [= <-]. exists 100. split; [reflexivity | lia].
Defined.

(** C2, as the specification states it, fails for data that JSON does not
    give back as it was: a dict that holds a tuple is serialisable, and it
    is saved, but it is read back with a list in place of the tuple. *)
Lemma C2_tuple_comes_back_as_a_list :
  fst (save_session Json.dumps 0 0 0 "s1" "u1" tuple_data (Some 3600) fresh)
  = Returned true
  ∧ fst (get_session Json.loads 5 5 "s1"
           (snd (save_session Json.dumps 0 0 0 "s1" "u1" tuple_data (Some 3600) fresh)))
    = Returned list_data
  ∧ list_data ≠ tuple_data.
Proof.
  split; [vm_compute; reflexivity|]. split; [vm_compute; reflexivity|]. discriminate.
Qed.

(** The theorem of C2 on the data of the test suite, read 5 microseconds
    after the save. *)
Lemma C2_witness :
  fst (save_session Json.dumps 0 0 0 "s1" "u1" demo_data (Some 3600) fresh)
  = Returned true
  ∧ fst (get_session Json.loads 5 5 "s1"
           (snd (save_session Json.dumps 0 0 0 "s1" "u1" demo_data (Some 3600) fresh)))
    = Returned demo_data.
Proof.
  destruct (C2_save_then_get_returns_data Json.dumps Json.loads fresh 0 0 0 5 5
              "s1" "u1" demo_data 3600 (Json.dumps_value demo_data))
    as (Hsave & _ & Hget); [reflexivity | reflexivity | lia | reflexivity | lia |].
  split; [exact Hsave|]. apply Hget. vm_compute. reflexivity.
Defined.

(** The theorem of C3 on three reads of a fresh cache entry. *)
Lemma C3_witness :
  let w1 := snd (set_cache Json.dumps 0 0 0 "k1" demo_data (Some 300) fresh) in
  let w2 := snd (get_cache_each Json.loads [(1, 2); (3, 4); (5, 6)] "k1" w1) in
  fst (get_cache_each Json.loads [(1, 2); (3, 4); (5, 6)] "k1" w1)
  = Returned [demo_data; demo_data; demo_data]
  ∧ c_access_count <$> cache (view w2) !! "k1" = Some 3
  ∧ c_last_accessed <$> cache (view w2) !! "k1" = Some 6
  ∧ c_access_count <$>
      cache (view (snd (set_cache Json.dumps 7 7 7 "k1" PyNone (Some 300) w2))) !! "k1"
    = Some 0.
Proof.
  intros w1 w2.
  destruct (C3_access_count_counts_hits Json.dumps Json.loads fresh 0 0 0 "k1"
              demo_data 300 (Json.dumps_value demo_data) [(1, 2); (3, 4); (5, 6)])
    as (_ & Hv & Hn & Hl & Hset).
  - reflexivity.
  - reflexivity.
  - reflexivity.
  - repeat constructor; simpl; lia.
  - split; [exact Hv|]. split; [exact Hn|]. split; [exact Hl|].
    apply (Hset 7 7 7 PyNone 300 (Json.dumps_value PyNone)); reflexivity.
Defined.

(** C4, as the specification states it, fails at the boundary: a tick whose
    clock readings are the instant 100 keeps the session and the cache
    entry that expire at 100. *)
Lemma C4_row_expiring_now_is_kept :
  s_expires_at stale_session = Some 100
  ∧ c_expires_at stale_cache = Some 100
  ∧ sessions (view (snd (_cleanup_expired_sessions 100 100 stale_store))) !! "s1"
    = Some stale_session
  ∧ cache (view (snd (_cleanup_expired_sessions 100 100 stale_store))) !! "k1"
    = Some stale_cache.
Proof. repeat split; vm_compute; reflexivity. Qed.

(** The theorem of C4 on a tick at the instant 101 over [stale_store]. *)
Lemma C4_witness :
  let w' := snd (_cleanup_expired_sessions 101 101 stale_store) in
  (∀ sid r,
     sessions (view w') !! sid = Some r
     ↔ sessions (view stale_store) !! sid = Some r
       ∧ ¬ (∃ e, s_expires_at r = Some e ∧ e < 101))
  ∧ (∀ key r,
       cache (view w') !! key = Some r
       ↔ cache (view stale_store) !! key = Some r
         ∧ ¬ (∃ e, c_expires_at r = Some e ∧ e < 101))
  ∧ settings (view w') = settings (view stale_store)
  ∧ users (view w') = users (view stale_store)
  ∧ chats (view w') = chats (view stale_store)
  ∧ disk w' = view w'
  ∧ snd (_cleanup_worker [(101, 101)] stale_store) = w'.
Proof.
  apply (C4_sweep_deletes_rows_before_now stale_store 101 101). reflexivity.
Defined.

(** C5, as the specification states it, fails: [clear_cache("user_")]
    removes [userA1] and [USER_2], which do not contain the text [user_],
    along with [user_1], and returns 3. *)
Lemma C5_clear_cache_removes_keys_without_the_pattern :
  contains "user_" "userA1" = false
  ∧ contains "user_" "USER_2" = false
  ∧ is_Some (cache (view keyed_store) !! "userA1")
  ∧ is_Some (cache (view keyed_store) !! "USER_2")
  ∧ fst (clear_cache (Some "user_") keyed_store) = Returned 3%nat
  ∧ cache (view (snd (clear_cache (Some "user_") keyed_store))) !! "userA1" = None
  ∧ cache (view (snd (clear_cache (Some "user_") keyed_store))) !! "USER_2" = None
  ∧ is_Some (cache (view (snd (clear_cache (Some "user_") keyed_store))) !! "other").
Proof.
  repeat split; try (vm_compute; reflexivity); vm_compute; eauto.
Qed.

(** The theorem of C5 on [keyed_store] and a pattern with a wildcard. *)
Lemma C5_witness :
  let w' := snd (clear_cache (Some "user_") keyed_store) in
  (∀ key,
     cache (view w') !! key
     = match cache (view keyed_store) !! key with
       | Some r => if like (like_param "user_") key then None else Some r
       | None => None
       end)
  ∧ (∃ n, fst (clear_cache (Some "user_") keyed_store) = Returned n
          ∧ (n + size (cache (view w')))%nat = size (cache (view keyed_store)))
  ∧ like (like_param "user_") "my_user_1" = true.
Proof.
  intros w'.
  destruct (C5_clear_cache_removes_like_matches keyed_store "u" "ser_")
    as (Hfits & Hsub & _); [reflexivity|].
  destruct Hfits as (Hkeys & Hcount); [left; reflexivity|].
  split; [exact Hkeys|]. split; [exact Hcount|].
  apply (Hsub "my_" "1"); reflexivity.
Defined.

(** C6, as the specification states it, fails: [save_session] with the ttl
    [None] returns [False] and the store is as before, with no row. *)
Lemma C6_save_session_rejects_none_ttl :
  save_session Json.dumps 0 0 0 "s1" "u1" demo_data None fresh = (Returned false, fresh)
  ∧ sessions (view fresh) !! "s1" = None.
Proof. split; reflexivity. Qed.

(** The theorem of C6 on a ttl of one hour, and on a ttl of 4 * 10^11
    seconds, whose deadline is after the year 9999. *)
Lemma C6_witness :
  fst (save_session Json.dumps 0 0 0 "s1" "u1" demo_data (Some 3600) fresh)
  = Returned true
  ∧ s_expires_at <$>
      sessions (view (snd (save_session Json.dumps 0 0 0 "s1" "u1" demo_data
                             (Some 3600) fresh))) !! "s1"
    = Some (Some (0 + 3600 * 1000000))
  ∧ fst (save_session Json.dumps 0 0 0 "s1" "u1" demo_data (Some 400000000000) fresh)
    = Returned false.
Proof.
  destruct (C6_save_session_needs_seconds Json.dumps fresh 0 0 0 "s1" "u1" demo_data)
    as (_ & Hin & Hout).
  destruct (Hin 3600 (Json.dumps_value demo_data)) as (Hret & Hrow);
    [reflexivity | reflexivity | reflexivity |].
  destruct (Hout 400000000000) as (Hfalse & _); [reflexivity|].
  split; [exact Hret|]. split; [exact Hrow | exact Hfalse].
Defined.



(** The theorem of C8 on a [save_session] whose commit fails and on a
    [get_stats] that cannot get its connection. *)
Lemma C8_witness :
  let w := World (disk stale_store) None [false; false; true] in
  save_session Json.dumps 0 0 0 "s1" "u2" demo_data (Some 60) w
  = (Returned false, World (disk stale_store) None [])
  ∧ disk (World (disk stale_store) None []) = disk w
  ∧ get_stats (World (disk stale_store) None [true]) = (Returned [], stale_store).
Proof.
  intros w.
  destruct (C8_failures_become_return_values Json.dumps Json.loads)
    as (Hsave & _ & _ & _ & _ & _ & _ & _ & _ & _ & _ & Hstats & _).
  destruct (Hsave 0 0 0 "s1" "u2" demo_data (Some 60)) as ((_ & _ & Hfail) & Hkeep).
  assert (save_session_body Json.dumps 0 0 0 "s1" "u2" demo_data (Some 60) w
          = (Raised SqliteError, World (disk stale_store) None [])) as Hbody
    by reflexivity.
  split; [exact (Hfail _ _ _ Hbody)|].
  split; [exact (proj1 (Hkeep _ _ _ Hbody))|].
  destruct Hstats as (_ & _ & Hfail').
  apply (Hfail' _ SqliteError). reflexivity.
Defined.

(** The theorem of C9 on the rows of [stale_store], created at 0 and
    replaced at 502. *)
Lemma C9_witness :
  sessions (view (snd (save_session Json.dumps 500 501 502 "s1" "u1" demo_data
                         (Some 60) stale_store))) !! "s1"
  = Some (SessionRow "u1" (Json.dumps_value demo_data) 502 501
            (Some (500 + 60 * 1000000)))
  ∧ cache (view (snd (set_cache Json.dumps 500 501 502 "k1" demo_data (Some 60)
                        stale_store))) !! "k1"
    = Some (CacheRow (Json.dumps_value demo_data) 502 (Some (500 + 60 * 1000000)) 0 501)
  ∧ s_created_at stale_session = 0
  ∧ c_created_at stale_cache = 0.
Proof.
  destruct (C9_upsert_resets_created_at Json.dumps stale_store 500 501 502 "s1" "k1"
              "u1" demo_data 60 (Json.dumps_value demo_data) stale_session stale_cache)
    as (Hs & Hc & _); [reflexivity..|].
  split; [exact Hs|]. split; [exact Hc|]. split; reflexivity.
Defined.

(** The theorem of C10 on a read of [s1] before its deadline. *)
Lemma C10_witness :
  let w' := snd (get_session Json.loads 50 51 "s1" stale_store) in
  sessions (view w') !! "s1" = Some (SessionRow "u1" "{}" 0 51 (Some 100))
  ∧ cache (view w') = cache (view stale_store).
Proof.
  intros w'.
  destruct (C10_get_session_touches_only_updated_at Json.dumps Json.loads stale_store
              50 51 "s1" stale_session) as (Hrow & _ & Hcache & _);
    [reflexivity | reflexivity | reflexivity |].
  split; [exact Hrow | exact Hcache].
Defined.

(** * Further properties of the store *)

(** ** More runs without storage faults *)

Lemma delete_session_quiet w sid :
  faults w = [] →
  delete_session sid w
  = (Returned (0 <? rowcount_key sid (sessions (view w)))%nat,
     World (with_sessions (delete sid) (view w)) None []).
Proof.
  intros Hq. quiet_world w Hq.
  unfold delete_session, delete_session_body. run_storage. reflexivity.
Qed.

Lemma delete_cache_quiet w key :
  faults w = [] →
  delete_cache key w
  = (Returned (0 <? rowcount_key key (cache (view w)))%nat,
     World (with_cache (delete key) (view w)) None []).
Proof.
  intros Hq. quiet_world w Hq.
  unfold delete_cache, delete_cache_body. run_storage. reflexivity.
Qed.

Lemma clear_config_quiet w :
  faults w = [] →
  clear_config w = (Returned true, World (with_settings (λ _, ∅) (view w)) None []).
Proof.
  intros Hq. quiet_world w Hq.
  unfold clear_config, clear_config_body. run_storage. reflexivity.
Qed.

Lemma get_stats_quiet w :
  faults w = [] →
  get_stats w
  = (Returned [("sessions_count", size (sessions (view w)));
               ("cache_count", size (cache (view w)));
               ("users_count", size (users (view w)));
               ("chats_count", size (chats (view w)))], w).
Proof.
  intros Hq. quiet_world w Hq.
  unfold get_stats, get_stats_body. run_storage. reflexivity.
Qed.

(** ** Sorting and loading the rows of a user *)

Lemma Forall2_elem_r {A B} (P : A → B → Prop) l k y :
  Forall2 P l k → y ∈ k → ∃ x, x ∈ l ∧ P x y.
Proof.
  induction 1 as [|x y' l k Hxy _ IH]; intros Hin; [by apply elem_of_nil in Hin|].
  apply elem_of_cons in Hin as [->|Hin].
  - exists x. split; [apply elem_of_cons; by left | done].
  - destruct (IH Hin) as (x' & Hx' & Hp). exists x'.
    split; [apply elem_of_cons; by right | done].
Qed.

Lemma Forall2_elem_l {A B} (P : A → B → Prop) l k x :
  Forall2 P l k → x ∈ l → ∃ y, y ∈ k ∧ P x y.
Proof.
  induction 1 as [|x' y l k Hxy _ IH]; intros Hin; [by apply elem_of_nil in Hin|].
  apply elem_of_cons in Hin as [->|Hin].
  - exists y. split; [apply elem_of_cons; by left | done].
  - destruct (IH Hin) as (y' & Hy' & Hp). exists y'.
    split; [apply elem_of_cons; by right | done].
Qed.

Lemma insert_desc_sorted x l :
  StronglySorted newer_row l → StronglySorted newer_row (insert_desc x l).
Proof.
  induction 1 as [|y l Hl IH Hy]; simpl.
  - repeat constructor.
  - destruct (s_updated_at y.2 <=? s_updated_at x.2) eqn:Hle.
    + constructor; [by constructor|].
      constructor; [unfold newer_row; lia|].
      eapply Forall_impl; [exact Hy|]. unfold newer_row. intros z Hz. lia.
    + constructor; [done|].
      rewrite insert_desc_perm. constructor; [unfold newer_row; lia | done].
Qed.

Lemma order_by_updated_at_desc_sorted l :
  StronglySorted newer_row (order_by_updated_at_desc l).
Proof.
  unfold order_by_updated_at_desc.
  induction l as [|x l IH]; simpl; [constructor | by apply insert_desc_sorted].
Qed.

Lemma where_lookup {R} (p : string → R → bool) (m : gmap string R) k r :
  where_ p m !! k = Some r ↔ m !! k = Some r ∧ p k r = true.
Proof. unfold where_. by rewrite map_lookup_filter_Some. Qed.

Lemma where_after_delete_where {R} (p q : string → R → bool) (m : gmap string R) :
  (∀ k r, m !! k = Some r → p k r = true → q k r = false) →
  where_ p (delete_where q m) = where_ p m.
Proof.
  intros Hpq. unfold where_, delete_where, where_not.
  apply map_filter_filter_l. intros k r Hr Hp. simpl in *. by apply Hpq.
Qed.

Lemma live_not_lt expires_at now t :
  now ≤ t → sql_live expires_at t = true → sql_lt expires_at now = false.
Proof. destruct expires_at as [e|]; simpl; [|done]. lia. Qed.

Lemma lt_not_live expires_at now t :
  now ≤ t → sql_lt expires_at now = true → sql_live expires_at t = false.
Proof. destruct expires_at as [e|]; simpl; [|done]. lia. Qed.

(** ** LIKE on a pattern without wildcards *)

Lemma like_plain_prefix p : ∀ s,
  wildcard_free p = true → like_text (p ++ "%")%string s = prefix_nocase p s.
Proof.
  induction p as [|c p IH]; intros s Hp.
  - change (("" ++ "%")%string) with "%"%string. rewrite like_percent_all. by destruct s.
  - change ((String c p ++ "%")%string) with (String c (p ++ "%")%string).
    cbn [wildcard_free] in Hp.
    apply andb_prop in Hp as [[Hc1 Hc2]%andb_prop Hp].
    apply negb_true_iff in Hc1, Hc2.
    cbn [like_text]. rewrite Hc1, Hc2.
    destruct s as [|d s]; [done|]. cbn [prefix_nocase]. by rewrite IH.
Qed.

Lemma like_text_param_plain p s :
  wildcard_free p = true → like_text (like_param p) s = contains_nocase p s.
Proof.
  intros Hp. unfold like_param. induction s as [|d s IH].
  - rewrite like_percent, like_plain_prefix by done. done.
  - rewrite like_percent, like_plain_prefix, IH by done. done.
Qed.

(** LIKE looks for a pattern without wildcards and without NUL in the part
    of the text before its first NUL. *)
Lemma like_param_plain p s :
  wildcard_free p = true →
  nul_free p = true →
  like (like_param p) s = contains_nocase p (c_text s).
Proof.
  intros Hp Hn. unfold like.
  by rewrite c_text_like_param, like_text_param_plain.
Qed.

Lemma c_text_nul_free s : nul_free s = true → c_text s = s.
Proof.
  induction s as [|c s IH]; [done|]. cbn [nul_free c_text].
  intros [Hc Hs]%andb_prop. apply negb_true_iff in Hc. by rewrite Hc, IH.
Qed.

Lemma like_char_letter_free c d :
  letter_free (String c EmptyString) = true →
  like_char c d = Ascii.eqb c d.
Proof.
  cbn [letter_free]. rewrite andb_true_r, negb_true_iff, orb_false_iff.
  intros [Hup Hlow]. unfold like_char, sqlite3Tolower.
  rewrite Hup.
  destruct (Ascii.eqb c d) eqn:Hcd.
  - apply Ascii.eqb_eq in Hcd as <-. rewrite Hup. apply N.eqb_refl.
  - apply N.eqb_neq. intros Heq. apply Ascii.eqb_neq in Hcd. apply Hcd.
    rewrite <-(ascii_N_embedding c), <-(ascii_N_embedding d). f_equal.
    destruct ((65 <=? N_of_ascii d) && (N_of_ascii d <=? 90))%N eqn:Hd; [|done].
    exfalso. apply andb_prop in Hd as [Hd1%N.leb_le Hd2%N.leb_le].
    apply andb_false_iff in Hlow as [Hlow%N.leb_gt | Hlow%N.leb_gt]; lia.
Qed.

Lemma prefix_nocase_letter_free p : ∀ s,
  letter_free p = true → prefix_nocase p s = String.prefix p s.
Proof.
  induction p as [|c p IH]; intros s Hp; [by destruct s|].
  destruct s as [|d s]; [done|].
  cbn [letter_free] in Hp. apply andb_prop in Hp as [Hc Hp].
  cbn [prefix_nocase String.prefix].
  rewrite like_char_letter_free, IH by (cbn [letter_free]; by rewrite ?Hc, ?Hp).
  destruct (ascii_dec c d) as [->|Hne].
  - by rewrite Ascii.eqb_refl.
  - apply Ascii.eqb_neq in Hne. by rewrite Hne.
Qed.

Lemma contains_nocase_letter_free p s :
  letter_free p = true → contains_nocase p s = contains p s.
Proof.
  intros Hp. induction s as [|d s IH]; cbn [contains_nocase contains];
    rewrite prefix_nocase_letter_free by done; [done | by rewrite IH].
Qed.

Section MoreProperties.

Variable json_dumps : pyobj → outcome string.
Variable json_loads : string → outcome pyobj.

Lemma get_setting_quiet w key default :
  faults w = [] →
  get_setting json_loads key default w
  = (Returned match settings (view w) !! key with
              | Some r => or_else (json_loads (g_value r)) default
              | None => default
              end, w).
Proof.
  intros Hq. quiet_world w Hq.
  unfold get_setting, get_setting_body. run_storage.
  destruct (settings (view (World d t [])) !! key) as [r|]; simpl; [|done].
  by destruct (json_loads (g_value r)).
Qed.

Lemma get_session_quiet_value w now1 now2 sid :
  faults w = [] →
  fst (get_session json_loads now1 now2 sid w)
  = Returned match sessions (view w) !! sid with
             | Some r =>
                 if sql_live (s_expires_at r) now1
                 then or_else (json_loads (s_data r)) PyNone
                 else PyNone
             | None => PyNone
             end.
Proof.
  intros Hq. destruct (sessions (view w) !! sid) as [r|] eqn:Hr.
  - destruct (sql_live (s_expires_at r) now1) eqn:Hl.
    + by rewrite (get_session_hit_quiet json_loads w now1 now2 sid r Hq Hr Hl).
    + apply get_session_miss. unfold select_session. by rewrite Hr, Hl.
  - apply get_session_miss. unfold select_session. by rewrite Hr.
Qed.

Lemma get_cache_quiet_value w now1 now2 key :
  faults w = [] →
  fst (get_cache json_loads now1 now2 key w)
  = Returned match cache (view w) !! key with
             | Some r =>
                 if sql_live (c_expires_at r) now1
                 then or_else (json_loads (c_value r)) PyNone
                 else PyNone
             | None => PyNone
             end.
Proof.
  intros Hq. destruct (cache (view w) !! key) as [r|] eqn:Hr.
  - destruct (sql_live (c_expires_at r) now1) eqn:Hl.
    + by rewrite (get_cache_hit_quiet json_loads w now1 now2 key r Hq Hr Hl).
    + apply get_cache_miss. unfold select_cache. by rewrite Hr, Hl.
  - apply get_cache_miss. unfold select_cache. by rewrite Hr.
Qed.

(** ** Deleting *)

(** X1.  [delete_session] returns [True] exactly when the session had a
    row, expired or not; afterwards the row is gone, every other session
    and every other table is as before, and [get_session] finds nothing at
    any time. *)
Theorem X1_delete_session_removes_the_row w sid :
  faults w = [] →
  let w' := snd (delete_session sid w) in
  fst (delete_session sid w)
  = Returned (bool_decide (is_Some (sessions (view w) !! sid)))
  ∧ sessions (view w') = delete sid (sessions (view w))
  ∧ cache (view w') = cache (view w)
  ∧ settings (view w') = settings (view w)
  ∧ users (view w') = users (view w)
  ∧ chats (view w') = chats (view w)
  ∧ (∀ now1 now2, fst (get_session json_loads now1 now2 sid w') = Returned PyNone).
Proof.
  intros Hq w'. subst w'. rewrite (delete_session_quiet w sid Hq). cbn [fst snd].
  rewrite !view_committed, sessions_with_sessions.
  destruct (with_sessions_frame (delete sid) (view w)) as (-> & -> & -> & ->).
  split.
  { unfold rowcount_key. destruct (sessions (view w) !! sid) as [r|]; [|done].
    rewrite bool_decide_eq_true_2; [done | by eexists]. }
  repeat split. intros now1 now2.
  rewrite get_session_quiet_value by done.
  by rewrite view_committed, sessions_with_sessions, lookup_delete_eq.
Qed.

(** X2.  [delete_cache] returns [True] exactly when the key had a row,
    expired or not, and removes that row only; after a [set_cache] that
    succeeds, a [delete_cache] of the key returns [True] and [get_cache]
    then finds nothing at any time. *)
Theorem X2_delete_cache_removes_the_row w key :
  faults w = [] →
  let w' := snd (delete_cache key w) in
  fst (delete_cache key w)
  = Returned (bool_decide (is_Some (cache (view w) !! key)))
  ∧ cache (view w') = delete key (cache (view w))
  ∧ sessions (view w') = sessions (view w)
  ∧ settings (view w') = settings (view w)
  ∧ (∀ now1 now2, fst (get_cache json_loads now1 now2 key w') = Returned PyNone)
  ∧ (∀ t1 t2 ts value ttl s,
       json_dumps value = Returned s →
       deadline_ok t1 ttl = true →
       fst (delete_cache key
              (snd (set_cache json_dumps t1 t2 ts key value (Some ttl) w)))
       = Returned true).
Proof.
  intros Hq w'. subst w'. rewrite (delete_cache_quiet w key Hq). cbn [fst snd].
  rewrite !view_committed, cache_with_cache.
  destruct (with_cache_frame (delete key) (view w)) as (-> & -> & _).
  split.
  { unfold rowcount_key. destruct (cache (view w) !! key) as [r|]; [|done].
    rewrite bool_decide_eq_true_2; [done | by eexists]. }
  repeat split.
  - intros now1 now2. rewrite get_cache_quiet_value by done.
    by rewrite view_committed, cache_with_cache, lookup_delete_eq.
  - intros t1 t2 ts value ttl s Hd Hok.
    rewrite (set_cache_quiet json_dumps w t1 t2 ts key value ttl s Hq Hok Hd). cbn [snd].
    rewrite delete_cache_quiet by done. cbn [fst].
    unfold rowcount_key.
    by rewrite view_committed, cache_with_cache, lookup_insert_eq.
Qed.

(** ** Settings *)

(** X3.  A setting has no deadline: once [set_setting] has stored a value
    that survives the round trip through JSON, [get_setting] returns it,
    whatever default the caller passes, and leaves the store as it is; the
    other keys read as before. *)
Theorem X3_setting_reads_back w now key value description s default :
  faults w = [] →
  json_dumps value = Returned s →
  json_loads s = Returned value →
  let w1 := snd (set_setting json_dumps now key value description w) in
  get_setting json_loads key default w1 = (Returned value, w1)
  ∧ get_config json_loads key default w1 = (Returned value, w1)
  ∧ (∀ key' default',
       key' ≠ key →
       fst (get_setting json_loads key' default' w1)
       = fst (get_setting json_loads key' default' w)).
Proof.
  intros Hq Hd Hl w1. subst w1.
  rewrite (set_setting_quiet json_dumps w now key value description s Hq Hd).
  cbn [snd]. unfold get_config.
  rewrite !get_setting_quiet by done.
  rewrite view_committed, settings_with_settings, lookup_insert_eq.
  cbn [g_value]. rewrite Hl. cbn [or_else].
  repeat split. intros key' default' Hne.
  rewrite !get_setting_quiet by done. cbn [fst].
  by rewrite view_committed, settings_with_settings, lookup_insert_ne.
Qed.

(** X4.  [clear_config] empties the settings table and nothing else:
    afterwards [get_setting] returns the caller's default for every key,
    while sessions and cache entries are as before. *)
Theorem X4_clear_config_leaves_defaults w :
  faults w = [] →
  let w' := snd (clear_config w) in
  fst (clear_config w) = Returned true
  ∧ settings (view w') = ∅
  ∧ (∀ key default, get_setting json_loads key default w' = (Returned default, w'))
  ∧ sessions (view w') = sessions (view w)
  ∧ cache (view w') = cache (view w)
  ∧ users (view w') = users (view w)
  ∧ chats (view w') = chats (view w).
Proof.
  intros Hq w'. subst w'. rewrite (clear_config_quiet w Hq). cbn [fst snd].
  rewrite !view_committed, settings_with_settings.
  destruct (with_settings_frame (λ _, ∅) (view w)) as (-> & -> & -> & ->).
  split; [done|]. split; [done|]. split; [|done].
  intros key default. rewrite get_setting_quiet by done.
  by rewrite view_committed, settings_with_settings, lookup_empty.
Qed.

(** ** Deadlines *)

(** X5.  A read made at or after the deadline finds nothing: after
    [save_session] or [set_cache] with a ttl, [get_session] and [get_cache]
    at a reading not before the clock reading of the write plus the ttl
    return [None] and leave the row as it is, its [access_count] too.  The
    write is accepted whenever its deadline is a [datetime], with a ttl of
    zero or less too, and the row that such a ttl stores is never read. *)
Theorem X5_reads_at_the_deadline_miss w now1 now2 ts now3 now4 key uid value ttl s :
  faults w = [] →
  json_dumps value = Returned s →
  deadline_ok now1 ttl = true →
  now1 + ttl * 1000000 ≤ now3 →
  let ws := snd (save_session json_dumps now1 now2 ts key uid value (Some ttl) w) in
  let wc := snd (set_cache json_dumps now1 now2 ts key value (Some ttl) w) in
  fst (save_session json_dumps now1 now2 ts key uid value (Some ttl) w) = Returned true
  ∧ fst (get_session json_loads now3 now4 key ws) = Returned PyNone
  ∧ view (snd (get_session json_loads now3 now4 key ws)) = view ws
  ∧ fst (set_cache json_dumps now1 now2 ts key value (Some ttl) w) = Returned true
  ∧ fst (get_cache json_loads now3 now4 key wc) = Returned PyNone
  ∧ view (snd (get_cache json_loads now3 now4 key wc)) = view wc
  ∧ c_access_count <$> cache (view (snd (get_cache json_loads now3 now4 key wc))) !! key
    = Some 0.
Proof.
  intros Hq Hd Hok Hlate ws wc. subst ws wc.
  rewrite (save_session_quiet json_dumps w now1 now2 ts key uid value ttl s Hq Hok Hd).
  rewrite (set_cache_quiet json_dumps w now1 now2 ts key value ttl s Hq Hok Hd).
  cbn [fst snd].
  set (ws := World (with_sessions _ _) None []).
  set (wc := World (with_cache _ _) None []).
  assert (select_session key now3 (view ws) = None) as Hs.
  { subst ws. unfold select_session.
    rewrite view_committed, sessions_with_sessions, lookup_insert_eq.
    cbn [s_expires_at sql_live]. case_match; [lia | done]. }
  assert (select_cache key now3 (view wc) = None) as Hc.
  { subst wc. unfold select_cache.
    rewrite view_committed, cache_with_cache, lookup_insert_eq.
    cbn [c_expires_at sql_live]. case_match; [lia | done]. }
  destruct (get_session_miss json_loads ws now3 now4 key Hs) as (-> & Hvs & _).
  destruct (get_cache_miss json_loads wc now3 now4 key Hc) as (-> & Hvc & _).
  rewrite Hvs, Hvc. repeat split.
  subst wc. by rewrite view_committed, cache_with_cache, lookup_insert_eq.
Qed.

(** ** Listing the sessions of a user *)

Lemma load_sessions_entries rows l :
  load_sessions json_loads rows = Returned l →
  Forall2 (λ kr i, entry_of json_loads kr.1 kr.2 i) rows l.
Proof.
  revert l. induction rows as [|[sid r] rows IH]; intros l; simpl.
  - intros [= <-]. constructor.
  - destruct (json_loads (s_data r)) as [d|] eqn:Hd; [|done].
    destruct (load_sessions json_loads rows) as [l'|]; [|done].
    intros [= <-]. constructor; [|by apply IH]. by repeat split.
Qed.

Lemma load_sessions_all rows :
  Forall (λ kr, ∃ d, json_loads (s_data kr.2) = Returned d) rows →
  ∃ l, load_sessions json_loads rows = Returned l.
Proof.
  induction 1 as [|[sid r] rows [d Hd] _ [l IH]]; simpl; [by eexists|].
  simpl in Hd. rewrite Hd, IH. by eexists.
Qed.

Lemma load_sessions_one_fails rows sid r e :
  (sid, r) ∈ rows →
  json_loads (s_data r) = Raised e →
  ∃ e', load_sessions json_loads rows = Raised e'.
Proof.
  intros Hin He. induction rows as [|[sid' r'] rows IH]; [by apply elem_of_nil in Hin|].
  simpl. apply elem_of_cons in Hin as [[= <- <-]|Hin].
  - rewrite He. by eexists.
  - destruct (json_loads (s_data r')); [|by eexists].
    destruct (IH Hin) as [e' ->]. by eexists.
Qed.

Lemma select_user_sessions_elem uid now t sid r :
  (sid, r) ∈ select_user_sessions uid now t
  ↔ sessions t !! sid = Some r
    ∧ s_user_id r = uid
    ∧ sql_live (s_expires_at r) now = true.
Proof.
  unfold select_user_sessions.
  rewrite order_by_updated_at_desc_perm, elem_of_map_to_list, where_lookup.
  rewrite andb_true_iff, String.eqb_eq. tauto.
Qed.

Lemma select_user_sessions_NoDup uid now t :
  NoDup (map fst (select_user_sessions uid now t)).
Proof.
  unfold select_user_sessions.
  rewrite order_by_updated_at_desc_perm. apply NoDup_fst_map_to_list.
Qed.

Lemma get_user_sessions_quiet w now uid :
  faults w = [] →
  get_user_sessions json_loads now uid w
  = (Returned (or_else (load_sessions json_loads
                          (select_user_sessions uid now (view w))) []), w).
Proof.
  intros Hq. quiet_world w Hq.
  unfold get_user_sessions, get_user_sessions_body. run_storage.
  by destruct (load_sessions _ _).
Qed.

(** X6.  [get_user_sessions] lists the sessions of the user that are not
    past their deadline, each once, most recently updated first, with the
    columns of their rows and their data parsed, and leaves the store as it
    is, provided the data of each of these sessions parses. *)
Theorem X6_get_user_sessions_lists_live_sessions w now uid :
  faults w = [] →
  (∀ sid r,
     sessions (view w) !! sid = Some r →
     s_user_id r = uid →
     sql_live (s_expires_at r) now = true →
     ∃ d, json_loads (s_data r) = Returned d) →
  ∃ l,
    get_user_sessions json_loads now uid w = (Returned l, w)
    ∧ (∀ i, i ∈ l ↔
            ∃ r, sessions (view w) !! i_session_id i = Some r
                 ∧ s_user_id r = uid
                 ∧ sql_live (s_expires_at r) now = true
                 ∧ entry_of json_loads (i_session_id i) r i)
    ∧ NoDup (map i_session_id l)
    ∧ StronglySorted newer_first l.
Proof.
  intros Hq Hparse. rewrite (get_user_sessions_quiet w now uid Hq).
  set (rows := select_user_sessions uid now (view w)).
  destruct (load_sessions_all rows) as [l Hl].
  { apply Forall_forall. intros [sid r] Hin.
    apply select_user_sessions_elem in Hin as (Hr & Hu & Hlive). eauto. }
  exists l. rewrite Hl. cbn [or_else]. split; [done|].
  pose proof (load_sessions_entries rows l Hl) as Hent.
  split; [|split].
  - intros i. split.
    + intros Hin. destruct (Forall2_elem_r _ _ _ _ Hent Hin) as ([sid r] & Hrow & Hi).
      apply select_user_sessions_elem in Hrow as (Hr & Hu & Hlive).
      exists r. destruct Hi as (Hsid & Hi). simpl in Hsid. subst sid.
      repeat split; try done; apply Hi.
    + intros (r & Hr & Hu & Hlive & Hi).
      assert ((i_session_id i, r) ∈ rows) as Hrow
        by by apply select_user_sessions_elem.
      destruct (Forall2_elem_l _ _ _ _ Hent Hrow) as (i' & Hin & Hi'). simpl in Hi'.
      replace i with i'; [done|].
      destruct Hi as (_ & Hd & Hc & Hu' & He), Hi' as (Hs' & Hd' & Hc' & Hu'' & He').
      destruct i, i'. simpl in *. congruence.
  - rewrite (load_sessions_ids json_loads rows l Hl).
    apply select_user_sessions_NoDup.
  - assert (StronglySorted newer_row rows) as Hsorted
      by apply order_by_updated_at_desc_sorted.
    clear Hl. induction Hent as [|kr i rows' l' Hi Hent IH]; [constructor|].
    apply StronglySorted_inv in Hsorted as [Hs Hall].
    constructor; [by apply IH|].
    apply Forall_forall. intros j Hj.
    destruct (Forall2_elem_r _ _ _ _ Hent Hj) as (kr' & Hkr' & Hj').
    rewrite Forall_forall in Hall. specialize (Hall kr' Hkr').
    unfold newer_first, newer_row in *.
    destruct Hi as (_ & _ & _ & -> & _), Hj' as (_ & _ & _ & -> & _). done.
Qed.

(** X7.  The list is all or nothing: if the data of one live session of
    the user does not parse, [get_user_sessions] returns the empty list,
    however many other sessions the user has. *)
Theorem X7_one_unreadable_session_hides_all w now uid sid r e :
  faults w = [] →
  sessions (view w) !! sid = Some r →
  s_user_id r = uid →
  sql_live (s_expires_at r) now = true →
  json_loads (s_data r) = Raised e →
  get_user_sessions json_loads now uid w = (Returned [], w).
Proof.
  intros Hq Hr Hu Hlive He. rewrite (get_user_sessions_quiet w now uid Hq).
  assert ((sid, r) ∈ select_user_sessions uid now (view w)) as Hin
    by by apply select_user_sessions_elem.
  by destruct (load_sessions_one_fails _ sid r e Hin He) as [e' ->].
Qed.

(** ** The sweeper and the reads *)

(** X8.  The sweeper takes nothing a read could still return: a
    [get_session], [get_cache] or [get_user_sessions] made at a reading not
    before those of a tick returns the same after the tick as without
    it. *)
Theorem X8_sweep_is_invisible_to_reads w now1 now2 t1 t2 sid key uid :
  faults w = [] →
  now1 ≤ t1 →
  now2 ≤ t1 →
  let w' := snd (_cleanup_expired_sessions now1 now2 w) in
  fst (get_session json_loads t1 t2 sid w') = fst (get_session json_loads t1 t2 sid w)
  ∧ fst (get_cache json_loads t1 t2 key w') = fst (get_cache json_loads t1 t2 key w)
  ∧ fst (get_user_sessions json_loads t1 uid w')
    = fst (get_user_sessions json_loads t1 uid w).
Proof.
  intros Hq H1 H2 w'. subst w'.
  rewrite (_cleanup_expired_sessions_quiet w now1 now2 Hq). cbn [snd].
  rewrite !get_session_quiet_value, !get_cache_quiet_value,
    !get_user_sessions_quiet by done.
  cbn [fst]. rewrite !view_committed, cache_with_cache.
  destruct (with_cache_frame (delete_where (λ _ r, sql_lt (c_expires_at r) now2))
              (with_sessions (delete_where (λ _ r, sql_lt (s_expires_at r) now1))
                 (view w))) as (Hs & _).
  split; [|split].
  - rewrite Hs, sessions_with_sessions. unfold delete_where.
    rewrite lookup_where_not.
    destruct (sessions (view w) !! sid) as [r|]; [|done].
    destruct (sql_lt (s_expires_at r) now1) eqn:Hlt; [|done].
    by rewrite (lt_not_live _ now1 t1 H1 Hlt).
  - change (cache (with_sessions ?f ?t)) with (cache t).
    unfold delete_where. rewrite lookup_where_not.
    destruct (cache (view w) !! key) as [r|]; [|done].
    destruct (sql_lt (c_expires_at r) now2) eqn:Hlt; [|done].
    by rewrite (lt_not_live _ now2 t1 H2 Hlt).
  - unfold select_user_sessions. rewrite Hs, sessions_with_sessions.
    rewrite where_after_delete_where; [done|].
    intros k r _ [_ Hl]%andb_prop. by apply (live_not_lt _ now1 t1).
Qed.

(** ** Counting rows *)

(** X9.  A session id holds one row: after a [save_session] that
    succeeds, [get_stats] reports one session more if the id was new and
    as many as before if it was not, the other counts unchanged; and
    [get_stats] leaves the store as it is. *)
Theorem X9_save_session_counts_once w now1 now2 ts sid uid data ttl s :
  faults w = [] →
  json_dumps data = Returned s →
  deadline_ok now1 ttl = true →
  let w' := snd (save_session json_dumps now1 now2 ts sid uid data (Some ttl) w) in
  get_stats w'
  = (Returned [("sessions_count",
                if bool_decide (is_Some (sessions (view w) !! sid))
                then size (sessions (view w))
                else S (size (sessions (view w))));
               ("cache_count", size (cache (view w)));
               ("users_count", size (users (view w)));
               ("chats_count", size (chats (view w)))], w').
Proof.
  intros Hq Hd Hok w'. subst w'.
  rewrite (save_session_quiet json_dumps w now1 now2 ts sid uid data ttl s Hq Hok Hd).
  cbn [snd]. rewrite get_stats_quiet by done.
  rewrite !view_committed, sessions_with_sessions.
  destruct (with_sessions_frame
              (insert sid (SessionRow uid s ts now2 (Some (now1 + ttl * 1000000))))
              (view w)) as (-> & _ & -> & ->).
  do 3 f_equal. destruct (sessions (view w) !! sid) as [r|] eqn:Hr.
  - rewrite bool_decide_eq_true_2 by by eexists. by erewrite map_size_insert_Some.
  - rewrite bool_decide_eq_false_2 by by intros [? [=]].
    by rewrite map_size_insert_None.
Qed.

(** ** Patterns without wildcards *)

(** X10.  When the pattern holds neither [%] nor [_] nor NUL and is not
    too long for LIKE, [clear_cache] removes the keys that contain the
    pattern, up to the case of the ASCII letters, in the part that
    precedes their first NUL, and only those; when the pattern holds no
    ASCII letter either, these are the keys that contain the pattern as
    it is written in that part.  That part is the whole key when the key
    holds no NUL. *)
Theorem X10_clear_cache_plain_pattern w c p :
  faults w = [] →
  wildcard_free (String c p) = true →
  nul_free (String c p) = true →
  like_pattern_fits (like_param (String c p)) = true →
  let pattern := String c p in
  let w' := snd (clear_cache (Some pattern) w) in
  (∀ key,
     cache (view w') !! key
     = if contains_nocase pattern (c_text key) then None else cache (view w) !! key)
  ∧ (letter_free pattern = true →
     ∀ key,
       cache (view w') !! key
       = if contains pattern (c_text key) then None else cache (view w) !! key)
  ∧ (∀ key, nul_free key = true → c_text key = key).
Proof.
  intros Hq Hp Hn Hfits pattern w'. subst w' pattern.
  rewrite (clear_cache_pattern_quiet w c p Hq (or_introl Hfits)). cbn [snd].
  rewrite view_committed, cache_with_cache. unfold delete_where.
  assert (∀ key,
            where_not (λ k _, like (like_param (String c p)) k) (cache (view w)) !! key
            = if contains_nocase (String c p) (c_text key)
              then None else cache (view w) !! key)
    as Hkey.
  { intros key. rewrite lookup_where_not, like_param_plain by done.
    destruct (cache (view w) !! key); by destruct (contains_nocase _ (c_text key)). }
  split; [done|]. split; [|apply c_text_nul_free]. intros Hl key.
  by rewrite Hkey, contains_nocase_letter_free.
Qed.

(** ** What a write leaves alone *)

(** X11.  A write touches the row of its key and nothing else:
    [save_session] leaves every other session and the cache, settings,
    users and chats as they are; [set_cache] every other cache entry and
    the other tables; [set_setting] every other setting and the other
    tables. *)
Theorem X11_writes_touch_one_row w now1 now2 ts key uid value ttl description s :
  faults w = [] →
  json_dumps value = Returned s →
  let ws := view (snd (save_session json_dumps now1 now2 ts key uid value (Some ttl) w)) in
  let wc := view (snd (set_cache json_dumps now1 now2 ts key value (Some ttl) w)) in
  let wg := view (snd (set_setting json_dumps now1 key value description w)) in
  ((∀ k, k ≠ key → sessions ws !! k = sessions (view w) !! k)
   ∧ cache ws = cache (view w) ∧ settings ws = settings (view w)
   ∧ users ws = users (view w) ∧ chats ws = chats (view w))
  ∧ ((∀ k, k ≠ key → cache wc !! k = cache (view w) !! k)
     ∧ sessions wc = sessions (view w) ∧ settings wc = settings (view w)
     ∧ users wc = users (view w) ∧ chats wc = chats (view w))
  ∧ ((∀ k, k ≠ key → settings wg !! k = settings (view w) !! k)
     ∧ sessions wg = sessions (view w) ∧ cache wg = cache (view w)
     ∧ users wg = users (view w) ∧ chats wg = chats (view w)).
Proof.
  intros Hq Hd ws wc wg. subst ws wc wg.
  rewrite (set_setting_quiet json_dumps w now1 key value description s Hq Hd).
  cbn [snd]. rewrite !view_committed.
  destruct (deadline_ok now1 ttl) eqn:Hok.
  - rewrite (save_session_quiet json_dumps w now1 now2 ts key uid value ttl s Hq Hok Hd).
    rewrite (set_cache_quiet json_dumps w now1 now2 ts key value ttl s Hq Hok Hd).
    cbn [snd]. rewrite !view_committed.
    split; [|split]; (split; [|done]); intros k Hne.
    + by rewrite sessions_with_sessions, lookup_insert_ne.
    + by rewrite cache_with_cache, lookup_insert_ne.
    + by rewrite settings_with_settings, lookup_insert_ne.
  - destruct (save_session_out_of_range json_dumps w now1 now2 ts key uid value ttl Hok)
      as (_ & Hsd & Hst).
    destruct (set_cache_out_of_range json_dumps w now1 now2 ts key value ttl Hok)
      as (_ & Hcd & Hct).
    assert (view (snd (save_session json_dumps now1 now2 ts key uid value (Some ttl) w))
            = view w) as -> by (unfold view; by rewrite Hsd, Hst).
    assert (view (snd (set_cache json_dumps now1 now2 ts key value (Some ttl) w))
            = view w) as -> by (unfold view; by rewrite Hcd, Hct).
    split; [|split]; (split; [|done]); intros k Hne; [done | done |].
    by rewrite settings_with_settings, lookup_insert_ne.
Qed.

End MoreProperties.

(** ** Users *)

Lemma some_row_true {R} (p : string → R → bool) (m : gmap string R) :
  some_row p m = true ↔ ∃ k r, m !! k = Some r ∧ p k r = true.
Proof.
  unfold some_row, count_where. rewrite Nat.ltb_lt. split.
  - intros Hsize.
    destruct (map_choose (where_ p m)) as (k & r & Hkr).
    { intros Hempty. rewrite Hempty, map_size_empty in Hsize. lia. }
    apply where_lookup in Hkr. eauto.
  - intros (k & r & Hr & Hp).
    assert (where_ p m !! k = Some r) as Hkr by by apply where_lookup.
    destruct (decide (size (where_ p m) = 0%nat)) as [Hz|]; [|lia].
    apply map_size_empty_inv in Hz. rewrite Hz, lookup_empty in Hkr. done.
Qed.

Lemma some_row_false {R} (p : string → R → bool) (m : gmap string R) :
  some_row p m = false ↔ ∀ k r, m !! k = Some r → p k r = false.
Proof.
  split.
  - intros Hnone k r Hr. destruct (p k r) eqn:Hp; [|done].
    assert (some_row p m = true) as Hsome by (apply some_row_true; eauto).
    congruence.
  - intros Hall. destruct (some_row p m) eqn:Hsome; [|done].
    apply some_row_true in Hsome as (k & r & Hr & Hp).
    rewrite (Hall k r Hr) in Hp. done.
Qed.

Lemma users_with_users f t : users (with_users f t) = f (users t).
Proof. reflexivity. Qed.

Lemma with_users_frame f t :
  sessions (with_users f t) = sessions t
  ∧ cache (with_users f t) = cache t
  ∧ settings (with_users f t) = settings t
  ∧ chats (with_users f t) = chats t.
Proof. done. Qed.

(** The constraints of the users table, as a caller would state them. *)
Lemma users_conflict_false uid username email t :
  users_conflict uid username email t = false
  ↔ users t !! uid = None
    ∧ (∀ k r, users t !! k = Some r → u_username r ≠ username)
    ∧ (∀ k r e, users t !! k = Some r → email = Some e → u_email r ≠ Some e).
Proof.
  unfold users_conflict. rewrite !orb_false_iff, bool_decide_eq_false.
  rewrite some_row_false, <-eq_None_not_Some.
  split.
  - intros [[Hid Hname] Hmail]. split; [done|]. split.
    + intros k r Hr. apply String.eqb_neq. eauto.
    + intros k r e Hr ->.
      pose proof (proj1 (some_row_false _ _) Hmail k r Hr) as Hm.
      by apply bool_decide_eq_false in Hm.
  - intros (Hid & Hname & Hmail). split; [split; [done|]|].
    + intros k r Hr. apply String.eqb_neq. eauto.
    + destruct email as [e|]; [|done]. apply some_row_false.
      intros k r Hr. apply bool_decide_eq_false. eauto.
Qed.

Lemma users_unique_insert m uid row :
  users_unique m →
  m !! uid = None →
  (∀ k r, m !! k = Some r → u_username r ≠ u_username row) →
  (∀ k r e, m !! k = Some r → u_email row = Some e → u_email r ≠ Some e) →
  users_unique (<[uid := row]> m).
Proof.
  intros Huniq Hfresh Hname Hmail k1 k2 r1 r2 H1 H2 Hsame.
  destruct (decide (k1 = k2)) as [|Hne]; [done|]. exfalso.
  apply lookup_insert_Some in H1 as [[<- <-]|[Hk1 H1]];
    apply lookup_insert_Some in H2 as [[<- <-]|[Hk2 H2]]; try done.
  - destruct Hsame as [Hn | (e & He1 & He2)].
    + by apply (Hname k2 r2 H2).
    + by apply (Hmail k2 r2 e H2 He1).
  - destruct Hsame as [Hn | (e & He1 & He2)].
    + by apply (Hname k1 r1 H1).
    + by apply (Hmail k1 r1 e H1 He2).
  - by apply Hne, (Huniq k1 k2 r1 r2).
Qed.

Lemma users_unique_touch m now1 now2 uid :
  users_unique m → users_unique (alter (touch_login now1 now2) uid m).
Proof.
  intros Huniq k1 k2 r1 r2 H1 H2 Hsame.
  apply lookup_alter_Some in H1 as [(-> & r1' & H1 & ->)|[_ H1]];
    apply lookup_alter_Some in H2 as [(-> & r2' & H2 & ->)|[_ H2]];
    try done; by eapply Huniq.
Qed.

Section UserProperties.

Variable json_loads : string → outcome pyobj.

Lemma create_user_quiet w ts uid username email password_hash role :
  faults w = [] →
  create_user ts uid username email password_hash role w
  = if users_conflict uid username email (view w)
    then (Returned false, World (disk w) (Some (view w)) [])
    else (Returned true,
          World (with_users
                   (insert uid (UserRow username email password_hash role None ts ts
                                  None true))
                   (view w)) None []).
Proof.
  intros Hq. quiet_world w Hq.
  unfold create_user, create_user_body, execute_insert. run_storage.
  by destruct (users_conflict uid username email (view (World d t []))).
Qed.

Lemma get_user_quiet w uid :
  faults w = [] →
  get_user json_loads uid w
  = (Returned match users (view w) !! uid with
              | Some r =>
                  match load_permissions json_loads (u_permissions r) with
                  | Returned p =>
                      Some (UserInfo uid (u_username r) (u_email r) (u_role r) p
                              (u_created_at r) (u_updated_at r) (u_last_login r)
                              (u_is_active r))
                  | Raised _ => None
                  end
              | None => None
              end, w).
Proof.
  intros Hq. quiet_world w Hq.
  unfold get_user, get_user_body. run_storage.
  destruct (users (view (World d t [])) !! uid) as [r|]; [|done].
  run_storage. by destruct (load_permissions json_loads (u_permissions r)).
Qed.

Lemma update_user_login_quiet w now1 now2 uid :
  faults w = [] →
  update_user_login now1 now2 uid w
  = (Returned true,
     World (with_users (alter (touch_login now1 now2) uid) (view w)) None []).
Proof.
  intros Hq. quiet_world w Hq.
  unfold update_user_login, update_user_login_body. run_storage. reflexivity.
Qed.

(** X12.  [create_user] with an id, a username and an email that no user
    holds returns [True], and [get_user] then returns the user as given,
    with empty permissions, no last login, active, created and updated at
    the time of the insert; the other users and tables are as before. *)
Theorem X12_create_user_then_get_user w ts uid username email password_hash role :
  faults w = [] →
  users (view w) !! uid = None →
  (∀ k r, users (view w) !! k = Some r → u_username r ≠ username) →
  (∀ k r e, users (view w) !! k = Some r → email = Some e → u_email r ≠ Some e) →
  let w' := snd (create_user ts uid username email password_hash role w) in
  fst (create_user ts uid username email password_hash role w) = Returned true
  ∧ get_user json_loads uid w'
    = (Returned (Some (UserInfo uid username email role (PyDict []) ts ts None true)),
       w')
  ∧ (∀ k, k ≠ uid → users (view w') !! k = users (view w) !! k)
  ∧ sessions (view w') = sessions (view w)
  ∧ cache (view w') = cache (view w)
  ∧ settings (view w') = settings (view w)
  ∧ chats (view w') = chats (view w).
Proof.
  intros Hq Hid Hname Hmail w'. subst w'.
  rewrite (create_user_quiet w ts uid username email password_hash role Hq).
  rewrite (proj2 (users_conflict_false uid username email (view w))) by done.
  cbn [fst snd]. rewrite get_user_quiet by done.
  rewrite !view_committed, users_with_users, lookup_insert_eq.
  split; [done|]. split; [done|]. split; [|done].
  intros k Hne. by rewrite lookup_insert_ne.
Qed.

(** X13.  [create_user] with an id that has a row, a username that a user
    holds or a non-null email that a user holds returns [False] and
    changes no row, neither those the connection reads nor those on
    disk. *)
Theorem X13_create_user_refuses_duplicates w ts uid username email password_hash role :
  faults w = [] →
  is_Some (users (view w) !! uid)
  ∨ (∃ k r, users (view w) !! k = Some r ∧ u_username r = username)
  ∨ (∃ k r e, users (view w) !! k = Some r ∧ email = Some e ∧ u_email r = Some e) →
  let w' := snd (create_user ts uid username email password_hash role w) in
  fst (create_user ts uid username email password_hash role w) = Returned false
  ∧ view w' = view w
  ∧ disk w' = disk w.
Proof.
  intros Hq Hdup w'. subst w'.
  rewrite (create_user_quiet w ts uid username email password_hash role Hq).
  destruct (users_conflict uid username email (view w)) eqn:Hc; [done|].
  exfalso. apply users_conflict_false in Hc as (Hid & Hname & Hmail).
  destruct Hdup as [[r Hr] | [(k & r & Hr & Hn) | (k & r & e & Hr & He & Hm)]].
  - congruence.
  - by apply (Hname k r Hr).
  - by apply (Hmail k r e Hr He).
Qed.

(** X14.  The users table keeps its usernames and its non-null emails
    distinct: if no two users share one before a [create_user] or an
    [update_user_login], none do after, among the rows the connection
    reads and among those on disk, whatever the arguments and whichever
    storage calls fail. *)
Theorem X14_users_stay_unique w ts now1 now2 uid username email password_hash role :
  users_unique (users (disk w)) →
  users_unique (users (view w)) →
  let w1 := snd (create_user ts uid username email password_hash role w) in
  let w2 := snd (update_user_login now1 now2 uid w) in
  users_unique (users (disk w1)) ∧ users_unique (users (view w1))
  ∧ users_unique (users (disk w2)) ∧ users_unique (users (view w2)).
Proof.
  intros Hdisk Hview w1 w2. subst w1 w2.
  assert (users_conflict uid username email (view w) = false →
          users_unique
            (users (with_users
                      (insert uid (UserRow username email password_hash role None ts ts
                                     None true)) (view w)))) as Hins.
  { intros (Hid & Hname & Hmail)%users_conflict_false.
    rewrite users_with_users. by apply users_unique_insert. }
  assert (users_unique
            (users (with_users (alter (touch_login now1 now2) uid) (view w)))) as Halt.
  { rewrite users_with_users. by apply users_unique_touch. }
  revert Hdisk Hview Hins Halt. destruct w as [d t fs].
  change (view (World d t fs)) with (view (World d t [])). cbn [disk].
  intros Hdisk Hview Hins Halt.
  unfold create_user, create_user_body, execute_insert,
    update_user_login, update_user_login_body.
  destruct fs as [|[] [|[] [|[] fs]]]; run_storage;
    change (view (World d t _)) with (view (World d t []));
    try destruct (users_conflict uid username email (view (World d t []))) eqn:Hc;
    cbn [fst snd disk]; rewrite ?view_committed, ?view_pending;
    repeat split; auto.
Qed.

(** X15.  [update_user_login] returns [True] whether or not the user
    exists.  For a user that exists it sets [last_login] and [updated_at]
    and nothing else; for one that does not it changes no row and creates
    none. *)
Theorem X15_update_user_login_touches_login w now1 now2 uid :
  faults w = [] →
  let w' := snd (update_user_login now1 now2 uid w) in
  fst (update_user_login now1 now2 uid w) = Returned true
  ∧ users (view w') !! uid
    = (λ r, UserRow (u_username r) (u_email r) (u_password_hash r) (u_role r)
              (u_permissions r) (u_created_at r) now2 (Some now1) (u_is_active r))
      <$> users (view w) !! uid
  ∧ (users (view w) !! uid = None → users (view w') = users (view w))
  ∧ (∀ k, k ≠ uid → users (view w') !! k = users (view w) !! k)
  ∧ sessions (view w') = sessions (view w)
  ∧ cache (view w') = cache (view w)
  ∧ settings (view w') = settings (view w).
Proof.
  intros Hq w'. subst w'. rewrite (update_user_login_quiet w now1 now2 uid Hq).
  cbn [fst snd]. rewrite !view_committed, users_with_users.
  split; [done|]. split; [|split; [|split; [|done]]].
  - by rewrite lookup_alter_eq.
  - intros Hnone. apply map_eq. intros k.
    destruct (decide (k = uid)) as [->|Hne].
    + by rewrite lookup_alter_eq, Hnone.
    + by rewrite lookup_alter_ne.
  - intros k Hne. by rewrite lookup_alter_ne.
Qed.

End UserProperties.

(** ** The session manager *)

Section ManagerProperties.

Variable json_dumps : pyobj → outcome string.
Variable json_loads : string → outcome pyobj.
Variable isoformat : Z → string.
Variable self : WindowsSessionManager.

Lemma create_session_quiet w uuid t1 t2 now1 now2 ts uid user_data s :
  faults w = [] →
  deadline_ok now1 (session_timeout self) = true →
  json_dumps (new_session_data isoformat t1 t2 uid user_data) = Returned s →
  create_session json_dumps isoformat self uuid t1 t2 now1 now2 ts uid user_data w
  = (Returned (Some uuid),
     World (with_sessions
              (insert uuid
                 (SessionRow uid s ts now2
                    (Some (now1 + session_timeout self * 1000000))))
              (view w)) None []).
Proof.
  intros Hq Hok Hd. unfold create_session, try_except, bind.
  by rewrite (save_session_quiet json_dumps w now1 now2 ts uuid uid _ _ s Hq Hok Hd).
Qed.

(** Data that [json.dumps] refuses is not saved. *)
Lemma save_session_unserialisable w now1 now2 ts sid uid data ttl e :
  faults w = [] →
  json_dumps data = Raised e →
  save_session json_dumps now1 now2 ts sid uid data (Some ttl) w = (Returned false, w).
Proof.
  intros Hq Hd. quiet_world w Hq.
  unfold save_session, save_session_body, timedelta, datetime_add. run_storage.
  destruct (timedelta_ok ttl); [|done].
  destruct (datetime_ok (now1 + ttl * 1000000)); [|done].
  by rewrite Hd.
Qed.

Lemma is_session_valid_quiet_hit w now1 now2 sid r :
  faults w = [] →
  sessions (view w) !! sid = Some r →
  sql_live (s_expires_at r) now1 = true →
  is_session_valid json_loads now1 now2 sid w
  = (Returned (is_not_None (or_else (json_loads (s_data r)) PyNone)),
     World (with_sessions (alter (touch_session now2) sid) (view w)) None []).
Proof.
  intros Hq Hr Hl. unfold is_session_valid, try_except, bind.
  by rewrite (get_session_hit_quiet json_loads w now1 now2 sid r Hq Hr Hl).
Qed.

(** X16.  When [json.dumps] serialises the dict of the user's id, the two
    timestamps and the user's data (the empty dict when the data given is
    [None] or otherwise false) and the manager's timeout gives a deadline
    that is a [datetime], [create_session] stores the text of that dict
    under the fresh id and the user, and returns the id; until the timeout
    has passed, [Database.get_session] returns what [json.loads] makes of
    the text, which is the dict itself when [json.loads] reads it back as
    it was, and [is_session_valid] then holds of the id.  When
    [json.dumps] refuses the dict, or when the deadline is no [datetime],
    [create_session] returns [None] and stores nothing. *)
Theorem X16_create_session_then_read w uuid t1 t2 now1 now2 ts now3 now4 uid user_data :
  faults w = [] →
  let session_data := new_session_data isoformat t1 t2 uid user_data in
  let w' :=
    snd (create_session json_dumps isoformat self uuid t1 t2 now1 now2 ts uid
           user_data w) in
  let result :=
    fst (create_session json_dumps isoformat self uuid t1 t2 now1 now2 ts uid
           user_data w) in
  (∀ s,
     json_dumps session_data = Returned s →
     deadline_ok now1 (session_timeout self) = true →
     now3 < now1 + session_timeout self * 1000000 →
     result = Returned (Some uuid)
     ∧ sessions (view w') !! uuid
       = Some (SessionRow uid s ts now2 (Some (now1 + session_timeout self * 1000000)))
     ∧ fst (get_session json_loads now3 now4 uuid w')
       = Returned (or_else (json_loads s) PyNone)
     ∧ (json_loads s = Returned session_data →
        fst (get_session json_loads now3 now4 uuid w') = Returned session_data
        ∧ fst (is_session_valid json_loads now3 now4 uuid w') = Returned true))
  ∧ (∀ e,
       json_dumps session_data = Raised e →
       result = Returned None ∧ view w' = view w)
  ∧ (deadline_ok now1 (session_timeout self) = false →
     result = Returned None ∧ view w' = view w).
Proof.
  intros Hq session_data w' result. subst w' result. split; [|split].
  - intros s Hd Hok Hnow.
    rewrite (create_session_quiet w uuid t1 t2 now1 now2 ts uid user_data s Hq Hok Hd).
    cbn [fst snd].
    set (row := SessionRow uid s ts now2 (Some (now1 + session_timeout self * 1000000))).
    set (w' := World _ None []).
    assert (sessions (view w') !! uuid = Some row) as Hrow.
    { subst w'. rewrite view_committed, sessions_with_sessions. apply lookup_insert_eq. }
    assert (sql_live (s_expires_at row) now3 = true) as Hlive.
    { subst row. cbn [s_expires_at sql_live]. lia. }
    rewrite Hrow.
    rewrite (get_session_hit_quiet json_loads w' now3 now4 uuid row eq_refl Hrow Hlive).
    rewrite (is_session_valid_quiet_hit w' now3 now4 uuid row eq_refl Hrow Hlive).
    subst row. cbn [fst s_data].
    split; [done|]. split; [done|]. split; [done|].
    intros ->. done.
  - intros e Hd. unfold create_session, try_except, bind.
    by rewrite (save_session_unserialisable w now1 now2 ts uuid uid _ _ e Hq Hd).
  - intros Hno. unfold create_session, try_except, bind.
    destruct (save_session_out_of_range json_dumps w now1 now2 ts uuid uid
                (new_session_data isoformat t1 t2 uid user_data)
                (session_timeout self) Hno) as (Hres & Hdisk & Htxn).
    destruct (save_session json_dumps now1 now2 ts uuid uid _ _ w) as [[b|e] w1];
      cbn [fst snd] in *; [|done].
    injection Hres as ->. split; [done|].
    change (view w1 = view w). unfold view. by rewrite Hdisk, Htxn.
Qed.

(** X17.  [is_session_valid] is a read like [get_session]: on a session
    before its deadline it moves the row's [updated_at] to the clock
    reading and changes nothing else, and it answers [True] unless the
    stored data is the JSON null or does not parse; on a session that is
    missing or past its deadline it answers [False] and leaves the rows as
    they are. *)
Theorem X17_is_session_valid_reads_and_touches w now1 now2 sid :
  faults w = [] →
  let w' := snd (is_session_valid json_loads now1 now2 sid w) in
  (∀ r,
     sessions (view w) !! sid = Some r →
     sql_live (s_expires_at r) now1 = true →
     fst (is_session_valid json_loads now1 now2 sid w)
     = Returned (is_not_None (or_else (json_loads (s_data r)) PyNone))
     ∧ sessions (view w') = alter (touch_session now2) sid (sessions (view w))
     ∧ cache (view w') = cache (view w))
  ∧ (select_session sid now1 (view w) = None →
     fst (is_session_valid json_loads now1 now2 sid w) = Returned false
     ∧ view w' = view w).
Proof.
  intros Hq w'. subst w'. split.
  - intros r Hr Hl.
    rewrite (is_session_valid_quiet_hit w now1 now2 sid r Hq Hr Hl). cbn [fst snd].
    by rewrite view_committed, sessions_with_sessions.
  - intros Hs. unfold is_session_valid, try_except, bind.
    destruct (get_session_miss json_loads w now1 now2 sid Hs) as (Hv & Hview & _).
    destruct (get_session json_loads now1 now2 sid w) as [[v|e] w1];
      simpl in Hv; [|done].
    injection Hv as ->. done.
Qed.


Lemma cleanup_expired_data_quiet w now1 now2 :
  faults w = [] →
  cleanup_expired_data now1 now2 w
  = (Returned (CleanupStats 0
                 (size (delete_where (λ _ r, sql_lt (c_expires_at r) now2)
                          (cache (view w))))),
     World (with_cache (λ _, ∅)
              (with_cache (delete_where (λ _ r, sql_lt (c_expires_at r) now2))
                 (with_sessions (delete_where (λ _ r, sql_lt (s_expires_at r) now1))
                    (view w)))) None []).
Proof.
  intros Hq.
  unfold cleanup_expired_data, cleanup_all_sessions, try_except, bind.
  rewrite (_cleanup_expired_sessions_quiet w now1 now2 Hq). cbn [ret].
  rewrite (clear_cache_all_quiet _ None) by (done || by left).
  by rewrite view_committed, cache_with_cache.
Qed.

(** X19.  [cleanup_expired_data] clears the whole cache, not the expired
    entries only: after it no cache entry is left, and what it reports as
    cleaned is the number of entries that had not expired.  The sessions
    it removes are those the sweeper removes, and it reports 0 of them. *)
Theorem X19_cleanup_expired_data_clears_the_cache w now1 now2 :
  faults w = [] →
  let w' := snd (cleanup_expired_data now1 now2 w) in
  fst (cleanup_expired_data now1 now2 w)
  = Returned (CleanupStats 0
                (size (delete_where (λ _ r, sql_lt (c_expires_at r) now2)
                         (cache (view w)))))
  ∧ cache (view w') = ∅
  ∧ sessions (view w')
    = delete_where (λ _ r, sql_lt (s_expires_at r) now1) (sessions (view w))
  ∧ settings (view w') = settings (view w)
  ∧ users (view w') = users (view w)
  ∧ (∀ key t1 t2, fst (get_cache json_loads t1 t2 key w') = Returned PyNone).
Proof.
  intros Hq w'. subst w'. rewrite (cleanup_expired_data_quiet w now1 now2 Hq).
  cbn [fst snd]. rewrite !view_committed, !cache_with_cache.
  split; [done|]. split; [done|]. split; [done|]. split; [done|]. split; [done|].
  intros key t1 t2. rewrite get_cache_quiet_value by done.
  by rewrite view_committed, cache_with_cache, lookup_empty.
Qed.

(** A handler is dead code around an operation that never raises. *)
Lemma try_except_dead {A} (op : M A) (h : exn → M A) w :
  never_raises op → try_except op h w = op w.
Proof.
  intros Hn. unfold try_except. by destruct (Hn w) as (a & w' & ->).
Qed.

(** X25.  The handlers of the manager's wrappers are dead code: from every
    state, whichever storage calls fail, [delete_session] and
    [get_user_sessions] of the manager return what those of the store
    return and leave the state they leave, and [cleanup_all_sessions]
    returns 0 after the one sweep. *)
Theorem X25_manager_wrappers_add_nothing w now now1 now2 sid uid :
  manager_delete_session sid w = delete_session sid w
  ∧ manager_get_user_sessions json_loads now uid w
    = get_user_sessions json_loads now uid w
  ∧ cleanup_all_sessions now1 now2 w
    = (Returned 0%nat, snd (_cleanup_expired_sessions now1 now2 w)).
Proof.
  split; [|split].
  - apply try_except_dead.
    apply (proj1 (try_except_converts (delete_session_body sid) false)).
  - apply try_except_dead.
    apply (proj1 (try_except_converts (get_user_sessions_body json_loads now uid) [])).
  - unfold cleanup_all_sessions.
    destruct (proj1 (try_except_converts (_cleanup_expired now1 now2) tt) w)
      as (a & w' & Hs).
    fold (_cleanup_expired_sessions now1 now2) in Hs.
    unfold try_except at 1, bind. rewrite Hs. done.
Qed.

End ManagerProperties.

(** ** The session id of a request *)

Lemma u_split_nonempty sep s : u_split sep s ≠ [].
Proof.
  destruct s as [|c s]; [done|]. simpl.
  destruct (c =? sep)%N; [done|]. by destruct (u_split sep s).
Qed.

Lemma no_code_app c a b : no_code c (a ++ b) = no_code c a && no_code c b.
Proof.
  induction a as [|x a IH]; [done|]. cbn [app no_code]. by rewrite IH, andb_assoc.
Qed.

(** A text without the separator stays in the first piece. *)
Lemma u_split_app sep a s :
  no_code sep a = true →
  u_split sep (a ++ s)
  = match u_split sep s with
    | x :: xs => (a ++ x) :: xs
    | [] => [a]
    end.
Proof.
  induction a as [|c a IH]; intros Ha.
  - cbn [app]. destruct (u_split sep s) as [|x xs] eqn:Hs; [|done].
    by apply u_split_nonempty in Hs.
  - cbn [no_code] in Ha. apply andb_prop in Ha as [Hc Ha]. apply negb_true_iff in Hc.
    cbn [app u_split]. rewrite Hc, (IH Ha).
    destruct (u_split sep s) as [|x xs] eqn:Hs; [|done].
    by apply u_split_nonempty in Hs.
Qed.

(** A separator ends the pieces of what precedes it. *)
Lemma u_split_app_sep sep b r :
  u_split sep (b ++ sep :: r) = u_split sep b ++ u_split sep r.
Proof.
  induction b as [|c b IH]; cbn [app u_split].
  - by rewrite N.eqb_refl.
  - rewrite IH. destruct (c =? sep)%N; [done|].
    destruct (u_split sep b) as [|x xs] eqn:Hb; [|done].
    by apply u_split_nonempty in Hb.
Qed.

(** The first piece of a text: it has no separator, starts the text, and
    the text ends or goes on with the separator after it. *)
Lemma u_split_first sep r : ∀ x xs,
  u_split sep r = x :: xs →
  no_code sep x = true ∧ ∃ t, r = x ++ t ∧ (t = [] ∨ ∃ a, t = sep :: a).
Proof.
  induction r as [|c r IH]; intros x xs; cbn [u_split].
  - intros [= <- <-]. split; [done|]. exists []. split; [done | by left].
  - destruct (c =? sep)%N eqn:Hc.
    + intros [= <- <-]. apply N.eqb_eq in Hc as ->. split; [done|].
      exists (sep :: r). split; [done|]. right. by exists r.
    + destruct (u_split sep r) as [|y ys] eqn:Hr; [by apply u_split_nonempty in Hr|].
      intros [= <- <-]. destruct (IH y ys eq_refl) as (Hy & t & -> & Ht).
      split; [cbn [no_code]; by rewrite Hc, Hy|]. by exists t.
Qed.

Lemma u_prefix_refl p s : u_prefix p (p ++ s) = true.
Proof.
  induction p as [|x p IH]; [done|]. cbn [app u_prefix]. by rewrite N.eqb_refl, IH.
Qed.

Lemma u_prefix_app p : ∀ a t, u_prefix p a = true → u_prefix p (a ++ t) = true.
Proof.
  induction p as [|x p IH]; intros a t; [done|].
  destruct a as [|y a]; [done|]. cbn [app u_prefix].
  intros [Hxy Hp]%andb_prop. by rewrite Hxy, IH.
Qed.

Lemma u_contains_prefix p s : u_contains p (p ++ s) = true.
Proof.
  pose proof (u_prefix_refl p s) as Hp.
  destruct (p ++ s); cbn [u_contains]; by rewrite Hp.
Qed.

Lemma u_contains_app_r p a s :
  u_contains p s = true → u_contains p (a ++ s) = true.
Proof.
  intros Hs. induction a as [|c a IH]; [done|].
  cbn [app u_contains]. rewrite IH. apply orb_true_r.
Qed.

Lemma u_contains_app_l p a t :
  u_contains p a = true → u_contains p (a ++ t) = true.
Proof.
  induction a as [|y a IH].
  - cbn [u_contains]. rewrite orb_false_r. intros Hp.
    destruct p; [|done]. by destruct t.
  - cbn [u_contains]. intros [Hp|Ha]%orb_prop.
    + pose proof (u_prefix_app p (y :: a) t Hp) as Hpt.
      cbn [app] in *. cbn [u_contains]. by rewrite Hpt.
    + cbn [app u_contains]. rewrite (IH Ha). apply orb_true_r.
Qed.

(** What a piece of a text contains, the text contains. *)
Lemma u_contains_piece sep p b : ∀ piece,
  piece ∈ u_split sep b → u_contains p piece = true → u_contains p b = true.
Proof.
  induction b as [|c b IH]; intros piece; cbn [u_split].
  - by intros ->%list_elem_of_singleton.
  - destruct (c =? sep)%N.
    + intros [->|Hin]%elem_of_cons Hp.
      * cbn [u_contains] in Hp. rewrite orb_false_r in Hp. by destruct p.
      * cbn [u_contains]. rewrite (IH piece Hin Hp). apply orb_true_r.
    + destruct (u_split sep b) as [|x xs] eqn:Hb; [by apply u_split_nonempty in Hb|].
      intros [->|Hin]%elem_of_cons Hp.
      * destruct (u_split_first sep b x xs Hb) as (_ & t & -> & _).
        apply (u_contains_app_l p (c :: x) t Hp).
      * cbn [u_contains]. rewrite (IH piece); [apply orb_true_r | | done].
        apply elem_of_cons. by right.
Qed.

Lemma first_session_cookie_skip l1 l2 :
  Forall (λ cookie, u_contains session_id_eq cookie = false) l1 →
  first_session_cookie (l1 ++ l2) = first_session_cookie l2.
Proof.
  induction 1 as [|cookie l1 Hc _ IH]; [done|].
  cbn [app first_session_cookie]. by rewrite Hc.
Qed.

(** The loop of the method stops at the first cookie that holds
    [session_id=]. *)
Lemma session_cookie_found before piece after :
  before = [] ∨ (∃ b, before = b ++ [semicolon]) →
  u_contains session_id_eq before = false →
  no_code semicolon piece = true →
  u_contains session_id_eq piece = true →
  after = [] ∨ (∃ a, after = semicolon :: a) →
  u_contains session_id_eq (before ++ piece ++ after) = true
  ∧ first_session_cookie (u_split semicolon (before ++ piece ++ after))
    = Some (u_strip (nth 1 (u_split equals piece) [])).
Proof.
  intros Hb Hnone Hp Hsid Ha. split.
  { by apply u_contains_app_r, u_contains_app_l. }
  assert (first_session_cookie (u_split semicolon (piece ++ after))
          = Some (u_strip (nth 1 (u_split equals piece) []))) as Hfirst.
  { rewrite u_split_app by done.
    destruct Ha as [-> | [a ->]]; cbn [u_split]; rewrite ?N.eqb_refl, app_nil_r;
      cbn [first_session_cookie]; by rewrite Hsid. }
  destruct Hb as [-> | [b ->]]; [done|].
  rewrite <-app_assoc. cbn [app].
  rewrite u_split_app_sep, first_session_cookie_skip; [done|].
  apply Forall_forall. intros cookie Hin.
  destruct (u_contains session_id_eq cookie) eqn:Hc; [|done].
  rewrite (u_contains_app_l _ b [semicolon]) in Hnone; [done|].
  by apply (u_contains_piece semicolon _ _ cookie).
Qed.

(** Between its first and its second [=], a cookie [name session_id= v]
    holds [v], whatever follows. *)
Lemma session_cookie_value name v x :
  no_code equals name = true →
  no_code equals v = true →
  x = [] ∨ (∃ x', x = equals :: x') →
  nth 1 (u_split equals (name ++ session_id_eq ++ v ++ x)) [] = v.
Proof.
  intros Hname Hv Hx.
  replace (name ++ session_id_eq ++ v ++ x)
    with ((name ++ codes "session_id") ++ equals :: (v ++ x))
    by (rewrite <-app_assoc; reflexivity).
  rewrite u_split_app by (rewrite no_code_app, Hname; reflexivity).
  cbn [u_split]. rewrite N.eqb_refl. cbn [nth].
  rewrite u_split_app by done.
  destruct Hx as [-> | [x' ->]]; cbn [u_split]; rewrite ?N.eqb_refl;
    cbn [nth]; apply app_nil_r.
Qed.

(** X20.  The session id of a request is that of the first cookie whose
    text contains [session_id=], any [x-session-id] header
    notwithstanding: it is the text between the first and the second [=]
    of that cookie, without the blanks around it.  So for a cookie
    [name session_id= v], where neither [name] nor [v] holds [;] or [=],
    that comes first or after cookies without [session_id=], the id is
    [v] without the blanks around it, whatever the name is and even if
    [v] is empty.  When the cookie header holds no [session_id=], the id
    is the [x-session-id] header, and there is none if that is missing or
    empty.  The headers are read as UTF-8: the method raises
    [UnicodeDecodeError] when the cookie header is not, and when it comes
    to the [x-session-id] header and that is not. *)
Theorem X20_session_id_of_a_request headers :
  (∀ cookie_header,
     utf8_decode (header_get "cookie" "" headers) = Returned cookie_header →
     (∀ before piece after,
        cookie_header = before ++ piece ++ after →
        before = [] ∨ (∃ b, before = b ++ [semicolon]) →
        u_contains session_id_eq before = false →
        no_code semicolon piece = true →
        u_contains session_id_eq piece = true →
        after = [] ∨ (∃ a, after = semicolon :: a) →
        _extract_session_id headers
        = Returned (Some (u_strip (nth 1 (u_split equals piece) []))))
     ∧ (∀ before name v rest,
          cookie_header = before ++ name ++ session_id_eq ++ v ++ rest →
          before = [] ∨ (∃ b, before = b ++ [semicolon]) →
          u_contains session_id_eq before = false →
          no_code semicolon name = true →
          no_code equals name = true →
          no_code semicolon v = true →
          no_code equals v = true →
          value_ends rest = true →
          _extract_session_id headers = Returned (Some (u_strip v)))
     ∧ (u_contains session_id_eq cookie_header = false →
        _extract_session_id headers
        = match utf8_decode (header_get "x-session-id" "" headers) with
          | Returned [] => Returned None
          | Returned (c :: h) => Returned (Some (c :: h))
          | Raised e => Raised e
          end))
  ∧ (∀ e,
       utf8_decode (header_get "cookie" "" headers) = Raised e →
       _extract_session_id headers = Raised e).
Proof.
  assert (∀ cookie_header before piece after,
            utf8_decode (header_get "cookie" "" headers) = Returned cookie_header →
            cookie_header = before ++ piece ++ after →
            before = [] ∨ (∃ b, before = b ++ [semicolon]) →
            u_contains session_id_eq before = false →
            no_code semicolon piece = true →
            u_contains session_id_eq piece = true →
            after = [] ∨ (∃ a, after = semicolon :: a) →
            _extract_session_id headers
            = Returned (Some (u_strip (nth 1 (u_split equals piece) [])))) as Hpiece.
  { intros cookie_header before piece after Hdec -> Hb Hnone Hp Hsid Ha.
    destruct (session_cookie_found before piece after Hb Hnone Hp Hsid Ha)
      as (Hin & Hfirst).
    unfold _extract_session_id. by rewrite Hdec, Hin, Hfirst. }
  split.
  - intros cookie_header Hdec. split; [|split].
    + intros before piece after. by apply Hpiece.
    + intros before name v rest -> Hb Hnone Hn1 Hn2 Hv1 Hv2 Hrest.
      destruct (u_split semicolon rest) as [|x xs] eqn:Hsplit;
        [by apply u_split_nonempty in Hsplit|].
      destruct (u_split_first semicolon rest x xs Hsplit) as (Hx & t & -> & Ht).
      assert (x = [] ∨ ∃ x', x = equals :: x') as Hxe.
      { destruct x as [|y x']; [by left|]. right. exists x'.
        cbn [app value_ends] in Hrest. cbn [no_code] in Hx.
        apply andb_prop in Hx as [Hy _]. apply negb_true_iff in Hy.
        rewrite Hy in Hrest. apply N.eqb_eq in Hrest as ->. done. }
      rewrite <-(session_cookie_value name v x Hn2 Hv2 Hxe).
      apply (Hpiece _ before (name ++ session_id_eq ++ v ++ x) t Hdec).
      * by rewrite <-!app_assoc.
      * done.
      * done.
      * rewrite !no_code_app, Hn1, Hv1, Hx. reflexivity.
      * apply u_contains_app_r, u_contains_prefix.
      * done.
    + intros Hnone. unfold _extract_session_id. by rewrite Hdec, Hnone.
  - intros e Hdec. unfold _extract_session_id. by rewrite Hdec.
Qed.

(** ** The configuration in memory *)

Lemma py_split_nonempty sep s : py_split sep s ≠ [].
Proof.
  destruct s as [|c s]; [done|]. simpl.
  destruct (Ascii.eqb c sep); [done|]. by destruct (py_split sep s).
Qed.

Lemma dict_get_setitem k k' v d :
  dict_get k (Json.dict_setitem k' v d)
  = if String.eqb k' k then Some v else dict_get k d.
Proof.
  induction d as [|[k0 v0] d IH]; simpl; [done|].
  destruct (String.eqb_spec k0 k') as [->|H0]; simpl.
  - by destruct (String.eqb k' k).
  - rewrite IH. destruct (String.eqb_spec k0 k) as [->|H1]; [|done].
    by destruct (String.eqb_spec k' k).
Qed.

Lemma dict_get_absent k d : k ∉ map fst d → dict_get k d = None.
Proof.
  induction d as [|[k0 v0] d IH]; simpl; [done|].
  intros Hk. apply not_elem_of_cons in Hk as [Hne Hk].
  destruct (String.eqb k0 k) eqn:H0; [|by apply IH].
  apply String.eqb_eq in H0. congruence.
Qed.

Lemma merge_step_lookup o : ∀ base k,
  distinct_keys o →
  dict_get k (_merge_config base o)
  = match dict_get k o with
    | Some v => Some (merged_item (dict_get k base) v)
    | None => dict_get k base
    end.
Proof.
  unfold _merge_config, distinct_keys. cbn [merge_into].
  induction o as [|[key value] o IH]; intros base k Hnd; [done|].
  cbn [map fst] in Hnd. apply NoDup_cons in Hnd as [Hkey Hnd].
  cbn [fold_left]. rewrite IH by done. cbn [dict_get].
  destruct (String.eqb_spec key k) as [->|Hne].
  - rewrite (dict_get_absent k o Hkey).
    unfold merged_item, _merge_config.
    destruct (dict_get k base) as [[| | | | | |b]|], value;
      by rewrite dict_get_setitem, String.eqb_refl.
  - assert (∀ v, dict_get k (Json.dict_setitem key v base) = dict_get k base) as Hk.
    { intros v. rewrite dict_get_setitem. by destruct (String.eqb_spec key k). }
    by destruct (dict_get key base) as [[| | | | | |b]|], value; rewrite Hk.
Qed.

(** X21.  [_merge_config] lets the override win key by key: a key of the
    override holds the override's value, merged in the same way with the
    base's value when both are dicts; a key of the base alone keeps its
    value; and merging the empty override changes nothing. *)
Theorem X21_merge_config_override_wins base override k :
  distinct_keys override →
  dict_get k (_merge_config base override)
  = match dict_get k override with
    | Some v => Some (merged_item (dict_get k base) v)
    | None => dict_get k base
    end
  ∧ (is_Some (dict_get k base) → is_Some (dict_get k (_merge_config base override)))
  ∧ _merge_config base [] = base.
Proof.
  intros Hnd. rewrite (merge_step_lookup override base k Hnd).
  split; [done|]. split; [|done].
  intros [v Hv]. rewrite Hv. by destruct (dict_get k override).
Qed.

Lemma config_assign_deeper k k' keys value d :
  config_assign (k :: k' :: keys) value (PyDict d)
  = match config_assign (k' :: keys) value
            match dict_get k d with Some v => v | None => PyDict [] end
    with
    | Returned child' => Returned (PyDict (Json.dict_setitem k child' d))
    | Raised e => Raised e
    end.
Proof. reflexivity. Qed.

Lemma config_walk_dict k keys d :
  config_walk (k :: keys) (PyDict d)
  = match dict_get k d with
    | Some v => config_walk keys v
    | None => None
    end.
Proof. reflexivity. Qed.

Lemma config_walk_assign keys : ∀ value config config',
  keys ≠ [] →
  config_assign keys value config = Returned config' →
  config_walk keys config' = Some value.
Proof.
  induction keys as [|k keys IH]; intros value config config' Hne Hset; [done|].
  destruct config as [| | | | | |d]; try done.
  destruct keys as [|k' keys].
  - injection Hset as <-.
    rewrite config_walk_dict, dict_get_setitem, String.eqb_refl. done.
  - rewrite config_assign_deeper in Hset.
    destruct (config_assign (k' :: keys) value _) as [child'|] eqn:Hchild; [|done].
    injection Hset as <-.
    rewrite config_walk_dict, dict_get_setitem, String.eqb_refl.
    by eapply IH.
Qed.

Section ConfigProperties.

Variable json_dumps : pyobj → outcome string.

(** X22.  [WindowsConfigManager.set] and [get] agree in memory: when the
    assignments along the dotted key go through, [get] of the key returns
    the value and [exists] holds, whether or not the value was also
    written to the store.  When a value on the way is no dict, [set]
    returns [False] and changes neither the configuration nor the store.
    A persistent [set] writes the setting [config.] followed by the key;
    if the store cannot be reached it returns [False], although the
    configuration in memory already holds the new value. *)
Theorem X22_config_set_then_get w now config key value default :
  (∀ config',
     config_assign (py_split "." key) value config = Returned config' →
     config_get config' key default = value
     ∧ config_exists config' key = true
     ∧ config_set json_dumps now config key value false w = (Returned (true, config'), w)
     ∧ (∀ s,
          faults w = [] →
          json_dumps value = Returned s →
          config_set json_dumps now config key value true w
          = (Returned (true, config'),
             World (with_settings
                      (insert ("config." ++ key)%string
                         (SettingRow s (Some ("Configuration: " ++ key)%string) now))
                      (view w)) None []))
     ∧ (∀ fs,
          faults w = true :: fs →
          fst (config_set json_dumps now config key value true w)
          = Returned (false, config')))
  ∧ (∀ e persistent,
       config_assign (py_split "." key) value config = Raised e →
       config_set json_dumps now config key value persistent w
       = (Returned (false, config), w)).
Proof.
  split.
  - intros config' Hset.
    assert (config_walk (py_split "." key) config' = Some value) as Hwalk.
    { eapply config_walk_assign; [apply py_split_nonempty | exact Hset]. }
    unfold config_get, config_exists, config_set. rewrite Hwalk, Hset.
    split; [done|]. split; [done|]. split; [done|]. split.
    + intros s Hq Hd. unfold try_except, bind.
      by rewrite (set_setting_quiet json_dumps w now _ value _ s Hq Hd).
    + intros fs Hf. destruct w as [d t fs']. simpl in Hf. subst fs'.
      unfold set_setting, set_setting_body. run_storage. done.
  - intros e persistent Hset. unfold config_set. by rewrite Hset.
Qed.

End ConfigProperties.

(** ** Ticks of the sweeper, one after the other *)

Lemma delete_where_lt_twice {R} (expires_at : R → option Z) (m : gmap string R) t t' :
  t ≤ t' →
  delete_where (λ _ r, sql_lt (expires_at r) t')
    (delete_where (λ _ r, sql_lt (expires_at r) t) m)
  = delete_where (λ _ r, sql_lt (expires_at r) t') m.
Proof.
  intros Hle. unfold delete_where, where_not.
  apply map_filter_filter_l. intros k r _ Hr. simpl in *.
  destruct (expires_at r) as [e|]; simpl in *; [|done]. lia.
Qed.

Lemma delete_where_insert_match {R} (p : string → R → bool) (m : gmap string R) k r :
  p k r = true →
  delete_where p (<[k := r]> m) = delete_where p (delete k m).
Proof.
  intros Hp. apply map_eq. intros k'. unfold delete_where.
  rewrite !lookup_where_not.
  destruct (decide (k' = k)) as [->|Hne].
  - by rewrite lookup_insert_eq, lookup_delete_eq, Hp.
  - by rewrite lookup_insert_ne, lookup_delete_ne.
Qed.

Lemma swept_twice now1 now2 t1 t2 t :
  now1 ≤ t1 → now2 ≤ t2 → swept t1 t2 (swept now1 now2 t) = swept t1 t2 t.
Proof.
  intros H1 H2. unfold swept, with_cache, with_sessions. cbn [sessions cache settings users chats].
  by rewrite !delete_where_lt_twice.
Qed.

Lemma last_tick_later now1 now2 ticks :
  ticks_ascend now1 now2 ticks →
  now1 ≤ (last_tick now1 now2 ticks).1 ∧ now2 ≤ (last_tick now1 now2 ticks).2.
Proof.
  revert now1 now2. induction ticks as [|[t1 t2] ticks IH]; intros now1 now2; simpl.
  - lia.
  - intros (H1 & H2 & Hrest). destruct (IH t1 t2 Hrest). lia.
Qed.

Lemma _cleanup_worker_quiet ticks : ∀ w now1 now2,
  faults w = [] →
  ticks_ascend now1 now2 ticks →
  _cleanup_worker ((now1, now2) :: ticks) w
  = (Returned tt,
     World (swept (last_tick now1 now2 ticks).1 (last_tick now1 now2 ticks).2 (view w))
       None []).
Proof.
  induction ticks as [|[t1 t2] ticks IH]; intros w now1 now2 Hq Hasc.
  - cbn [_cleanup_worker]. unfold bind, try_except at 1.
    by rewrite (_cleanup_expired_sessions_quiet w now1 now2 Hq).
  - destruct Hasc as (H1 & H2 & Hrest).
    change (_cleanup_worker ((now1, now2) :: (t1, t2) :: ticks))
      with (bind (try_except (_cleanup_expired_sessions now1 now2) (λ _, ret tt))
              (λ _, _cleanup_worker ((t1, t2) :: ticks))).
    unfold bind at 1, try_except at 1.
    rewrite (_cleanup_expired_sessions_quiet w now1 now2 Hq).
    rewrite IH by done. cbn [last_tick]. rewrite view_committed.
    destruct (last_tick_later t1 t2 ticks Hrest) as [Hl1 Hl2].
    fold (swept now1 now2 (view w)). rewrite swept_twice by lia. done.
Qed.

Section SweepProperties.

Variable json_dumps : pyobj → outcome string.

(** X23.  Ticks add up to the last one: a worker whose clock readings do
    not go back leaves, after any number of ticks, the rows that one sweep
    at the readings of its last tick leaves. *)
Theorem X23_ticks_add_up_to_the_last w now1 now2 ticks :
  faults w = [] →
  ticks_ascend now1 now2 ticks →
  let last := last_tick now1 now2 ticks in
  _cleanup_worker ((now1, now2) :: ticks) w
  = (Returned tt, World (swept last.1 last.2 (view w)) None [])
  ∧ snd (_cleanup_worker ((now1, now2) :: ticks) w)
    = snd (_cleanup_expired_sessions last.1 last.2 w).
Proof.
  intros Hq Hasc last. subst last.
  rewrite (_cleanup_worker_quiet ticks w now1 now2 Hq Hasc).
  split; [done|]. by rewrite _cleanup_expired_sessions_quiet.
Qed.

(** X24.  A tick after the deadline removes the row: after a
    [save_session] or a [set_cache] that succeeds and one tick whose
    readings are past the clock reading of the write plus the ttl, the key
    has no row, the table is what the tick leaves of the table without the
    key, and [get_stats] counts accordingly. *)
Theorem X24_tick_after_the_deadline_removes w now1 now2 ts t1 t2 key uid value ttl s :
  faults w = [] →
  json_dumps value = Returned s →
  deadline_ok now1 ttl = true →
  now1 + ttl * 1000000 < t1 →
  now1 + ttl * 1000000 < t2 →
  let ws :=
    snd (_cleanup_expired_sessions t1 t2
           (snd (save_session json_dumps now1 now2 ts key uid value (Some ttl) w))) in
  let wc :=
    snd (_cleanup_expired_sessions t1 t2
           (snd (set_cache json_dumps now1 now2 ts key value (Some ttl) w))) in
  sessions (view ws)
  = delete_where (λ _ r, sql_lt (s_expires_at r) t1) (delete key (sessions (view w)))
  ∧ sessions (view ws) !! key = None
  ∧ stats_get "sessions_count" (or_else (fst (get_stats ws)) [])
    = size (delete_where (λ _ r, sql_lt (s_expires_at r) t1)
              (delete key (sessions (view w))))
  ∧ cache (view wc)
    = delete_where (λ _ r, sql_lt (c_expires_at r) t2) (delete key (cache (view w)))
  ∧ cache (view wc) !! key = None
  ∧ stats_get "cache_count" (or_else (fst (get_stats wc)) [])
    = size (delete_where (λ _ r, sql_lt (c_expires_at r) t2)
              (delete key (cache (view w)))).
Proof.
  intros Hq Hd Hok H1 H2 ws wc. subst ws wc.
  rewrite (save_session_quiet json_dumps w now1 now2 ts key uid value ttl s Hq Hok Hd).
  rewrite (set_cache_quiet json_dumps w now1 now2 ts key value ttl s Hq Hok Hd).
  cbn [snd]. rewrite !_cleanup_expired_sessions_quiet by done. cbn [snd].
  rewrite !get_stats_quiet by done. cbn [fst or_else].
  rewrite !view_committed. fold (swept t1 t2).
  unfold swept, with_cache, with_sessions. cbn [sessions cache settings users chats].
  rewrite (delete_where_insert_match (λ _ r, sql_lt (s_expires_at r) t1))
    by (cbn [s_expires_at sql_lt]; lia).
  rewrite (delete_where_insert_match (λ _ r, sql_lt (c_expires_at r) t2))
    by (cbn [c_expires_at sql_lt]; lia).
  unfold delete_where at 2 5. rewrite !lookup_where_not, !lookup_delete_eq.
  done.
Qed.

End SweepProperties.

(** ** The further properties on concrete stores *)

(** X1 on the expired session of [stale_store]. *)
Lemma X1_witness :
  fst (delete_session "s1" stale_store) = Returned true
  ∧ sessions (view (snd (delete_session "s1" stale_store))) = delete "s1" {["s1" := stale_session]}
  ∧ fst (get_session Json.loads 50 51 "s1" (snd (delete_session "s1" stale_store)))
    = Returned PyNone.
Proof.
  destruct (X1_delete_session_removes_the_row Json.loads stale_store "s1")
    as (Hret & Hrows & _ & _ & _ & _ & Hget); [reflexivity|].
  split; [exact Hret|]. split; [exact Hrows | exact (Hget 50 51)].
Defined.

(** X2 on the expired cache entry of [stale_store]. *)
Lemma X2_witness :
  fst (delete_cache "k1" stale_store) = Returned true
  ∧ fst (get_cache Json.loads 50 51 "k1" (snd (delete_cache "k1" stale_store)))
    = Returned PyNone.
Proof.
  destruct (X2_delete_cache_removes_the_row Json.dumps Json.loads stale_store "k1")
    as (Hret & _ & _ & _ & Hget & _); [reflexivity|].
  split; [exact Hret | exact (Hget 50 51)].
Defined.

(** X3 on the data of the test suite. *)
Lemma X3_witness :
  let w1 := snd (set_setting Json.dumps 0 "theme" demo_data None fresh) in
  get_setting Json.loads "theme" PyNone w1 = (Returned demo_data, w1).
Proof.
  intros w1.
  apply (X3_setting_reads_back Json.dumps Json.loads fresh 0 "theme" demo_data None
           (Json.dumps_value demo_data) PyNone);
    [reflexivity | reflexivity | vm_compute; reflexivity].
Defined.

(** X4 on a store with one setting. *)
Lemma X4_witness :
  let w := snd (set_setting Json.dumps 0 "theme" demo_data None fresh) in
  fst (clear_config w) = Returned true
  ∧ get_setting Json.loads "theme" (PyInt 7) (snd (clear_config w))
    = (Returned (PyInt 7), snd (clear_config w)).
Proof.
  intros w.
  destruct (X4_clear_config_leaves_defaults Json.loads w) as (Hret & _ & Hget & _);
    [reflexivity|].
  split; [exact Hret | exact (Hget "theme" (PyInt 7))].
Defined.

(** X5 on a ttl of one second, read one second later. *)
Lemma X5_witness :
  fst (get_session Json.loads 1000000 1000001 "s1"
         (snd (save_session Json.dumps 0 0 0 "s1" "u1" demo_data (Some 1) fresh)))
  = Returned PyNone
  ∧ fst (get_cache Json.loads 1000000 1000001 "s1"
           (snd (set_cache Json.dumps 0 0 0 "s1" demo_data (Some 1) fresh)))
    = Returned PyNone.
Proof.
  destruct (X5_reads_at_the_deadline_miss Json.dumps Json.loads fresh 0 0 0
              1000000 1000001 "s1" "u1" demo_data 1 (Json.dumps_value demo_data))
    as (_ & Hs & _ & _ & Hc & _); [reflexivity | reflexivity | reflexivity | lia |].
  split; [exact Hs | exact Hc].
Defined.

(** X6 on the two sessions of [u1] in [busy_store]. *)
Lemma X6_witness :
  ∃ l,
    get_user_sessions Json.loads 50 "u1" busy_store = (Returned l, busy_store)
    ∧ NoDup (map i_session_id l)
    ∧ StronglySorted newer_first l.
Proof.
  destruct (X6_get_user_sessions_lists_live_sessions Json.loads busy_store 50 "u1")
    as (l & Hl & _ & Hnd & Hsorted).
  - reflexivity.
  - intros sid r Hr _ _.
    assert (sid = "a" ∨ sid = "b" ∨ sid = "c") as Hsid.
    { destruct (decide (sid = "a")) as [|Ha]; [by left|].
      destruct (decide (sid = "b")) as [|Hb]; [by right; left|].
      destruct (decide (sid = "c")) as [|Hc]; [by right; right|].
      exfalso. unfold busy_store in Hr. cbn [view txn disk sessions list_to_map foldr] in Hr.
      rewrite !lookup_insert_ne, lookup_empty in Hr by done. done. }
    destruct Hsid as [-> | [-> | ->]]; vm_compute in Hr; injection Hr as <-;
      eexists; vm_compute; reflexivity.
  - exists l. split; [exact Hl|]. split; [exact Hnd | exact Hsorted].
Defined.

(** X7 on the session of [corrupt_store]. *)
Lemma X7_witness :
  get_user_sessions Json.loads 50 "u1" corrupt_store = (Returned [], corrupt_store).
Proof.
  apply (X7_one_unreadable_session_hides_all Json.loads corrupt_store 50 "u1" "s2"
           (SessionRow "u1" "{" 0 5 (Some 100)) ValueError);
    [reflexivity | reflexivity | reflexivity | reflexivity | vm_compute; reflexivity].
Defined.

(** X8 on [busy_store], swept at 150 and read at 200. *)
Lemma X8_witness :
  let w' := snd (_cleanup_expired_sessions 150 150 busy_store) in
  fst (get_session Json.loads 200 201 "b" w')
  = fst (get_session Json.loads 200 201 "b" busy_store)
  ∧ fst (get_user_sessions Json.loads 200 "u1" w')
    = fst (get_user_sessions Json.loads 200 "u1" busy_store).
Proof.
  intros w'.
  destruct (X8_sweep_is_invisible_to_reads Json.loads busy_store 150 150 200 201
              "b" "k" "u1") as (Hs & _ & Hl); [reflexivity | lia | lia |].
  split; [exact Hs | exact Hl].
Defined.

(** X9 on a second save of the session of [stale_store]. *)
Lemma X9_witness :
  fst (get_stats (snd (save_session Json.dumps 5 5 5 "s1" "u1" demo_data (Some 60)
                         stale_store)))
  = Returned [("sessions_count", 1%nat); ("cache_count", 1%nat);
              ("users_count", 0%nat); ("chats_count", 0%nat)].
Proof.
  rewrite (X9_save_session_counts_once Json.dumps stale_store 5 5 5 "s1" "u1"
             demo_data 60 (Json.dumps_value demo_data)) by reflexivity.
  vm_compute. reflexivity.
Defined.

(** X10 on a pattern of letters: the key in capitals goes, the key without
    the pattern stays. *)
Lemma X10_witness :
  cache (view (snd (clear_cache (Some "user") keyed_store))) !! "USER_2" = None
  ∧ cache (view (snd (clear_cache (Some "user") keyed_store))) !! "other"
    = cache (view keyed_store) !! "other".
Proof.
  destruct (X10_clear_cache_plain_pattern keyed_store "u" "ser") as (Hkeys & _);
    [reflexivity | reflexivity | reflexivity | reflexivity |].
  split; [exact (Hkeys "USER_2") | exact (Hkeys "other")].
Defined.

(** X11 on three writes under one key. *)
Lemma X11_witness :
  cache (view (snd (save_session Json.dumps 5 5 5 "k1" "u1" demo_data (Some 60)
                      stale_store)))
  = cache (view stale_store)
  ∧ sessions (view (snd (set_cache Json.dumps 5 5 5 "k1" demo_data (Some 60)
                           stale_store)))
    = sessions (view stale_store).
Proof.
  destruct (X11_writes_touch_one_row Json.dumps stale_store 5 5 5 "k1" "u1" demo_data
              60 None (Json.dumps_value demo_data))
    as ((_ & Hc & _) & (_ & Hs & _) & _); [reflexivity | reflexivity |].
  split; [exact Hc | exact Hs].
Defined.

(** X12 on a second user of [users_store]. *)
Lemma X12_witness :
  let w' := snd (create_user 7 "u2" "bob" None None "user" users_store) in
  fst (create_user 7 "u2" "bob" None None "user" users_store) = Returned true
  ∧ get_user Json.loads "u2" w'
    = (Returned (Some (UserInfo "u2" "bob" None "user" (PyDict []) 7 7 None true)), w').
Proof.
  intros w'.
  destruct (X12_create_user_then_get_user Json.loads users_store 7 "u2" "bob" None None
              "user") as (Hret & Hget & _).
  - reflexivity.
  - reflexivity.
  - intros k r Hr.
    destruct (decide (k = "u1")) as [->|Hne].
    + vm_compute in Hr. injection Hr as <-. discriminate.
    + unfold users_store in Hr. cbn [view txn disk users] in Hr.
      rewrite lookup_singleton_ne in Hr by done. done.
  - intros k r e _ [=].
  - split; [exact Hret | exact Hget].
Defined.

(** X13 on a user who takes the username of [alice]. *)
Lemma X13_witness :
  fst (create_user 7 "u2" "alice" None None "user" users_store) = Returned false
  ∧ view (snd (create_user 7 "u2" "alice" None None "user" users_store))
    = view users_store.
Proof.
  destruct (X13_create_user_refuses_duplicates users_store 7 "u2" "alice" None None
              "user") as (Hret & Hview & _).
  - reflexivity.
  - right. left. exists "u1", alice. split; reflexivity.
  - split; [exact Hret | exact Hview].
Defined.

(** X14 on [users_store]. *)
Lemma X14_witness :
  users_unique
    (users (view (snd (create_user 7 "u2" "bob" (Some "bob@example.com") None "user"
                         users_store)))).
Proof.
  assert (users_unique {["u1" := alice]}) as Huniq.
  { intros k1 k2 r1 r2 H1 H2 _.
    apply lookup_singleton_Some in H1 as [<- _].
    apply lookup_singleton_Some in H2 as [<- _]. reflexivity. }
  exact (proj1 (proj2 (X14_users_stay_unique users_store 7 0 0 "u2" "bob"
                         (Some "bob@example.com") None "user" Huniq Huniq))).
Defined.

(** X15 on a login of [alice] and on one of a user that does not exist. *)
Lemma X15_witness :
  fst (update_user_login 8 9 "nobody" users_store) = Returned true
  ∧ users (view (snd (update_user_login 8 9 "nobody" users_store)))
    = users (view users_store)
  ∧ u_last_login <$> users (view (snd (update_user_login 8 9 "u1" users_store))) !! "u1"
    = Some (Some 8).
Proof.
  destruct (X15_update_user_login_touches_login users_store 8 9 "nobody")
    as (Hret & _ & Hnone & _); [reflexivity|].
  destruct (X15_update_user_login_touches_login users_store 8 9 "u1")
    as (_ & Hrow & _); [reflexivity|].
  split; [exact Hret|]. split; [exact (Hnone eq_refl)|].
  rewrite Hrow. reflexivity.
Defined.

(** X16 on a session created with no user data. *)
Lemma X16_witness :
  let w' :=
    snd (create_session Json.dumps demo_isoformat demo_manager "id-1" 1 2 3 4 5 "u1"
           PyNone fresh) in
  fst (create_session Json.dumps demo_isoformat demo_manager "id-1" 1 2 3 4 5 "u1"
         PyNone fresh)
  = Returned (Some "id-1")
  ∧ fst (get_session Json.loads 10 11 "id-1" w')
    = Returned (PyDict [("user_id", PyStr "u1"); ("created_at", PyStr "1");
                        ("last_activity", PyStr "2"); ("data", PyDict [])])
  ∧ fst (is_session_valid Json.loads 10 11 "id-1" w') = Returned true.
Proof.
  intros w'.
  destruct (X16_create_session_then_read Json.dumps Json.loads demo_isoformat
              demo_manager fresh "id-1" 1 2 3 4 5 10 11 "u1" PyNone)
    as (Hok & _); [reflexivity|].
  destruct (Hok (Json.dumps_value (new_session_data demo_isoformat 1 2 "u1" PyNone)))
    as (Hret & _ & _ & Hback);
    [reflexivity | reflexivity | vm_compute; reflexivity |].
  destruct Hback as (Hget & Hvalid); [vm_compute; reflexivity|].
  split; [exact Hret|]. split; [exact Hget | exact Hvalid].
Defined.

(** X17 on the session of [stale_store], before and after its deadline. *)
Lemma X17_witness :
  fst (is_session_valid Json.loads 50 51 "s1" stale_store) = Returned true
  ∧ s_updated_at <$>
      sessions (view (snd (is_session_valid Json.loads 50 51 "s1" stale_store))) !! "s1"
    = Some 51
  ∧ fst (is_session_valid Json.loads 100 101 "s1" stale_store) = Returned false.
Proof.
  destruct (X17_is_session_valid_reads_and_touches Json.loads stale_store 50 51 "s1")
    as (Hhit & _); [reflexivity|].
  destruct (Hhit stale_session) as (Hret & Hrows & _); [reflexivity | reflexivity |].
  destruct (X17_is_session_valid_reads_and_touches Json.loads stale_store 100 101 "s1")
    as (_ & Hmiss); [reflexivity|].
  destruct Hmiss as (Hfalse & _); [reflexivity|].
  split; [exact Hret|]. split; [|exact Hfalse].
  rewrite Hrows. reflexivity.
Defined.


(** X19 on a cache entry that has not expired. *)
Lemma X19_witness :
  fst (cleanup_expired_data 50 50 stale_store) = Returned (CleanupStats 0 1)
  ∧ sql_live (c_expires_at stale_cache) 50 = true
  ∧ cache (view (snd (cleanup_expired_data 50 50 stale_store))) = ∅.
Proof.
  destruct (X19_cleanup_expired_data_clears_the_cache Json.loads stale_store 50 50)
    as (Hret & Hcache & _); [reflexivity|].
  split; [exact Hret|]. split; [reflexivity | exact Hcache].
Defined.

(** X20 on a second cookie with a longer name, and a header. *)
Lemma X20_witness :
  _extract_session_id
    [("cookie", "theme=dark; my_session_id= abc =x; lang=en"); ("x-session-id", "h1")]
  = Returned (Some (codes "abc")).
Proof.
  destruct (X20_session_id_of_a_request
              [("cookie", "theme=dark; my_session_id= abc =x; lang=en");
               ("x-session-id", "h1")]) as (Hcookie & _).
  destruct (Hcookie (codes "theme=dark; my_session_id= abc =x; lang=en"))
    as (_ & Hvalue & _); [vm_compute; reflexivity|].
  apply (Hvalue (codes "theme=dark;") (codes " my_") (codes " abc ")
           (codes "=x; lang=en")).
  - reflexivity.
  - right. exists (codes "theme=dark"). reflexivity.
  - reflexivity.
  - reflexivity.
  - reflexivity.
  - reflexivity.
  - reflexivity.
  - reflexivity.
Defined.

(** X21 on an override of one section of [demo_config]. *)
Lemma X21_witness :
  dict_get "app"
    (_merge_config
       [("app", PyDict [("host", PyStr "localhost"); ("port", PyInt 8080)]);
        ("debug", PyBool false)]
       [("app", PyDict [("port", PyInt 9090)])])
  = Some (PyDict [("host", PyStr "localhost"); ("port", PyInt 9090)]).
Proof.
  destruct (X21_merge_config_override_wins
              [("app", PyDict [("host", PyStr "localhost"); ("port", PyInt 8080)]);
               ("debug", PyBool false)]
              [("app", PyDict [("port", PyInt 9090)])] "app") as (Hget & _).
  { unfold distinct_keys. repeat constructor. apply not_elem_of_nil. }
  exact Hget.
Defined.

(** X22 on a key of two parts and on a key that runs into a number. *)
Lemma X22_witness :
  config_get
    (PyDict [("app", PyDict [("host", PyStr "example.org"); ("port", PyInt 8080)]);
             ("debug", PyBool false)])
    "app.host" PyNone
  = PyStr "example.org"
  ∧ config_set Json.dumps 0 demo_config "app.port.x" (PyInt 1) true fresh
    = (Returned (false, demo_config), fresh).
Proof.
  destruct (X22_config_set_then_get Json.dumps fresh 0 demo_config "app.host"
              (PyStr "example.org") PyNone) as (Hok & _).
  destruct (Hok (PyDict [("app", PyDict [("host", PyStr "example.org");
                                        ("port", PyInt 8080)]);
                         ("debug", PyBool false)])) as (Hget & _); [reflexivity|].
  destruct (X22_config_set_then_get Json.dumps fresh 0 demo_config "app.port.x"
              (PyInt 1) PyNone) as (_ & Hfail).
  split; [exact Hget | exact (Hfail TypeError true eq_refl)].
Defined.

(** X23 on three ticks over [busy_store]. *)
Lemma X23_witness :
  snd (_cleanup_worker [(10, 10); (150, 160); (200, 200)] busy_store)
  = snd (_cleanup_expired_sessions 200 200 busy_store).
Proof.
  apply (X23_ticks_add_up_to_the_last busy_store 10 10 [(150, 160); (200, 200)]).
  - reflexivity.
  - simpl. lia.
Defined.

(** X24 on a ttl of one second and a tick two seconds later. *)
Lemma X24_witness :
  sessions (view (snd (_cleanup_expired_sessions 2000000 2000000
                         (snd (save_session Json.dumps 0 0 0 "s9" "u1" demo_data
                                 (Some 1) fresh)))))
    !! "s9" = None.
Proof.
  destruct (X24_tick_after_the_deadline_removes Json.dumps fresh 0 0 0 2000000 2000000
              "s9" "u1" demo_data 1 (Json.dumps_value demo_data))
    as (_ & Hgone & _); [reflexivity | reflexivity | reflexivity | lia | lia |].
  exact Hgone.
Defined.
